(** * Assesment-TMS: access control of the task-list manager

    A shallow embedding of the Express routes of the server
    (routes/auth.js, routes/tasklists.js, routes/tasks.js, routes/shares.js)
    over a model of the four relations of the Prisma migration
    (users, task_lists, tasks, task_list_shares).

    A route handler is a function from the store and the request to the
    response and the next store.  A Prisma call that throws is [None]; the
    handler's [catch] turns it into the 500 response of that route.

    The caller of a route is [req.user.id], the user the authentication
    middleware has attached to the request.  The fields of a request body
    are strings or absent.  The routes that only read task lists and shares
    (GET /api/tasklists, GET /api/tasklists/:id, GET /api/shares/:taskListId)
    are left out: they change nothing and none of the properties below is
    about them. *)

From Stdlib Require Import String Ascii List ZArith Bool.
Import ListNotations.
Open Scope string_scope.
Open Scope Z_scope.

Set Implicit Arguments.

(** ** Rows of the four relations (migration.sql)

    Identifiers and the other TEXT columns are strings; a nullable column is
    an option.  The timestamp columns are kept by the storage layer and are
    not stored in the rows: a table is kept in creation order, so that
    [orderBy: { createdAt: 'desc' }] is the reversed table. *)

Module User.
Record t := mk { id : string; email : string; password : string }.
End User.

Module TaskList.
Record t := mk { id : string; title : string; ownerId : string }.
End TaskList.

Module Task.
Record t := mk {
  id : string;
  title : string;
  description : option string;
  status : string;
  taskListId : string
}.
End Task.

Module TaskListShare.
Record t := mk {
  id : string;
  taskListId : string;
  userId : string;
  permission : string
}.
End TaskListShare.

Record Store := mkStore {
  users : list User.t;
  task_lists : list TaskList.t;
  tasks : list Task.t;
  task_list_shares : list TaskListShare.t
}.

Definition empty_store : Store := mkStore [] [] [] [].

(** The first row whose key column holds [k]. *)
Definition find_by {A} (key : A -> string) (k : string) (rows : list A) : option A :=
  find (fun r => key r =? k)%string rows.

Definition has_key {A} (key : A -> string) (k : string) (rows : list A) : bool :=
  existsb (fun r => key r =? k)%string rows.

(** ** The Prisma client calls the routes make

[create] takes the identifier the client generates for the new row.  The
constraints of the migration are checked as the database checks them: a
primary key, the unique index on users(email), the unique index on
task_list_shares(taskListId, userId), and the foreign keys; deleting a
task list cascades to its tasks and shares. *)

Module prisma.

Module user.
Definition findUnique_id (s : Store) (id : string) : option User.t :=
  find_by User.id id (users s).

Definition findUnique_email (s : Store) (email : string) : option User.t :=
  find_by User.email email (users s).

Definition create (s : Store) (newId email password : string)
  : option (User.t * Store) :=
  if has_key User.id newId (users s) || has_key User.email email (users s)
  then None
  else
    let u := User.mk newId email password in
    Some (u, mkStore (users s ++ [u]) (task_lists s) (tasks s) (task_list_shares s)).
End user.

Module taskList.
Definition findUnique (s : Store) (id : string) : option TaskList.t :=
  find_by TaskList.id id (task_lists s).

Definition create (s : Store) (newId title ownerId : string)
  : option (TaskList.t * Store) :=
  if has_key TaskList.id newId (task_lists s)
     || negb (has_key User.id ownerId (users s))
  then None
  else
    let l := TaskList.mk newId title ownerId in
    Some (l, mkStore (users s) (task_lists s ++ [l]) (tasks s) (task_list_shares s)).

Definition set_title (id title : string) (l : TaskList.t) : TaskList.t :=
  if (TaskList.id l =? id)%string
  then TaskList.mk (TaskList.id l) title (TaskList.ownerId l)
  else l.

Definition update (s : Store) (id title : string) : option (TaskList.t * Store) :=
  match findUnique s id with
  | None => None
  | Some l =>
      Some (set_title id title l,
            mkStore (users s) (map (set_title id title) (task_lists s))
                    (tasks s) (task_list_shares s))
  end.

Definition delete (s : Store) (id : string) : option Store :=
  match findUnique s id with
  | None => None
  | Some _ =>
      Some (mkStore
              (users s)
              (filter (fun l => negb (TaskList.id l =? id)%string) (task_lists s))
              (filter (fun t => negb (Task.taskListId t =? id)%string) (tasks s))
              (filter (fun sh => negb (TaskListShare.taskListId sh =? id)%string)
                      (task_list_shares s)))
  end.
End taskList.

Module task.
Definition findUnique (s : Store) (id : string) : option Task.t :=
  find_by Task.id id (tasks s).

(** findMany({ where: { taskListId }, orderBy: { createdAt: 'desc' } }) *)
Definition findMany (s : Store) (taskListId : string) : list Task.t :=
  rev (filter (fun t => Task.taskListId t =? taskListId)%string (tasks s)).

Definition create (s : Store) (newId title : string) (description : option string)
           (status taskListId : string) : option (Task.t * Store) :=
  if has_key Task.id newId (tasks s)
     || negb (has_key TaskList.id taskListId (task_lists s))
  then None
  else
    let t := Task.mk newId title description status taskListId in
    Some (t, mkStore (users s) (task_lists s) (tasks s ++ [t]) (task_list_shares s)).

(** The [data] object of an update: a key that is absent is [None]. *)
Record updateData := mkData {
  data_title : option string;
  data_description : option string;
  data_status : option string
}.

Definition apply_data (d : updateData) (t : Task.t) : Task.t :=
  Task.mk (Task.id t)
          (match data_title d with Some x => x | None => Task.title t end)
          (match data_description d with Some x => Some x | None => Task.description t end)
          (match data_status d with Some x => x | None => Task.status t end)
          (Task.taskListId t).

Definition set_data (id : string) (d : updateData) (t : Task.t) : Task.t :=
  if (Task.id t =? id)%string then apply_data d t else t.

Definition update (s : Store) (id : string) (d : updateData)
  : option (Task.t * Store) :=
  match findUnique s id with
  | None => None
  | Some t =>
      Some (apply_data d t,
            mkStore (users s) (task_lists s) (map (set_data id d) (tasks s))
                    (task_list_shares s))
  end.

Definition delete (s : Store) (id : string) : option Store :=
  match findUnique s id with
  | None => None
  | Some _ =>
      Some (mkStore (users s) (task_lists s)
                    (filter (fun t => negb (Task.id t =? id)%string) (tasks s))
                    (task_list_shares s))
  end.
End task.

Module taskListShare.
Definition findUnique_id (s : Store) (id : string) : option TaskListShare.t :=
  find_by TaskListShare.id id (task_list_shares s).

Definition is_pair (taskListId userId : string) (sh : TaskListShare.t) : bool :=
  ((TaskListShare.taskListId sh =? taskListId)
   && (TaskListShare.userId sh =? userId))%string.

(** findUnique({ where: { taskListId_userId: { taskListId, userId } } }) *)
Definition findUnique_taskListId_userId (s : Store) (taskListId userId : string)
  : option TaskListShare.t :=
  find (is_pair taskListId userId) (task_list_shares s).

Definition create (s : Store) (newId taskListId userId permission : string)
  : option (TaskListShare.t * Store) :=
  if has_key TaskListShare.id newId (task_list_shares s)
     || existsb (is_pair taskListId userId) (task_list_shares s)
     || negb (has_key TaskList.id taskListId (task_lists s))
     || negb (has_key User.id userId (users s))
  then None
  else
    let sh := TaskListShare.mk newId taskListId userId permission in
    Some (sh, mkStore (users s) (task_lists s) (tasks s) (task_list_shares s ++ [sh])).

Definition set_permission (id permission : string) (sh : TaskListShare.t)
  : TaskListShare.t :=
  if (TaskListShare.id sh =? id)%string
  then TaskListShare.mk (TaskListShare.id sh) (TaskListShare.taskListId sh)
                        (TaskListShare.userId sh) permission
  else sh.

Definition update (s : Store) (id permission : string)
  : option (TaskListShare.t * Store) :=
  match findUnique_id s id with
  | None => None
  | Some sh =>
      Some (set_permission id permission sh,
            mkStore (users s) (task_lists s) (tasks s)
                    (map (set_permission id permission) (task_list_shares s)))
  end.

Definition delete (s : Store) (id : string) : option Store :=
  match findUnique_id s id with
  | None => None
  | Some _ =>
      Some (mkStore (users s) (task_lists s) (tasks s)
                    (filter (fun sh => negb (TaskListShare.id sh =? id)%string)
                            (task_list_shares s)))
  end.
End taskListShare.

End prisma.


(** ** Responses

    [res.status(c).json(b)]; [res.json(b)] alone answers 200.  A JSON body is
    one of the shapes the routes send. *)

Inductive Body :=
| JError (error : string)
| JErrors (errors : list string)
| JMessage (message : string)
| JTasks (tasks : list Task.t) (permission : option string)
| JTask (message : string) (task : Task.t)
| JTaskList (message : string) (taskList : TaskList.t)
            (owner : option (string * string)) (tasks : list Task.t)
            (shares : list (TaskListShare.t * option (string * string)))
            (permission : string) (isOwner : bool)
| JShare (message : string) (share : TaskListShare.t) (user : option (string * string))
| JAuth (message : string) (user : string * string) (token : string).

Record Response := mkResponse { res_status : Z; res_body : Body }.

Definition json (b : Body) : Response := mkResponse 200 b.

(** [select: { id: true, email: true }] on the user a row refers to. *)
Definition select_id_email (s : Store) (userId : string) : option (string * string) :=
  match prisma.user.findUnique_id s userId with
  | Some u => Some (User.id u, User.email u)
  | None => None
  end.

Definition shares_of (s : Store) (taskListId : string) : list TaskListShare.t :=
  filter (fun sh => TaskListShare.taskListId sh =? taskListId)%string (task_list_shares s).

Definition tasks_of (s : Store) (taskListId : string) : list Task.t :=
  filter (fun t => Task.taskListId t =? taskListId)%string (tasks s).

(** ** Collaborators outside the routes

    The sanitizers and validators of express-validator that are not plain
    comparisons, bcrypt, and the token issuer of utils/jwt. *)

Class ExternalLibs := {
  trim : string -> string;
  isEmail : string -> bool;
  normalizeEmail : string -> string;
  bcrypt_hash : string -> string -> string;
  bcrypt_compare : string -> string -> bool;
  generateToken : string -> string
}.

(** utils/password.js; the salt is the one [bcrypt.genSalt(10)] draws. *)
Definition hashPassword `{ExternalLibs} (password salt : string) : string :=
  bcrypt_hash password salt.

Definition comparePassword `{ExternalLibs} (password hash : string) : bool :=
  bcrypt_compare password hash.

(** ** Validation chains

    A body field is [None] when the key is absent from the request body.  A
    chain gives the messages of its failed validators and the value the
    sanitizers leave in the body. *)

Definition isIn (values : list string) (v : string) : bool :=
  existsb (fun x => x =? v)%string values.

Definition statuses : list string := ["pending"; "in_progress"; "completed"].
Definition permissions : list string := ["view"; "edit"].

Definition too_long (max : nat) (v : string) : bool :=
  Nat.ltb max (String.length v).

(** body(f).trim().notEmpty().withMessage(m).isLength({ max: 200 }) *)
Definition check_title `{ExternalLibs} (required_msg : string) (v : option string)
  : list string * string :=
  let t := match v with Some x => trim x | None => EmptyString end in
  (((if (t =? EmptyString)%string then [required_msg] else [])
      ++ (if too_long 200 t then ["Title must be less than 200 characters"] else []))%list,
   t).

(** body('title').optional() ... *)
Definition check_title_optional `{ExternalLibs} (v : option string)
  : list string * option string :=
  match v with
  | None => ([], None)
  | Some _ => let '(errs, t) := check_title "Title cannot be empty" v in (errs, Some t)
  end.

(** body('description').optional().trim().isLength({ max: 1000 }) *)
Definition check_description `{ExternalLibs} (v : option string)
  : list string * option string :=
  match v with
  | None => ([], None)
  | Some x =>
      let d := trim x in
      (if too_long 1000 d then ["Description must be less than 1000 characters"] else [],
       Some d)
  end.

(** body('status').optional().isIn([...]) *)
Definition check_status_optional (v : option string) : list string :=
  match v with
  | None => []
  | Some x => if isIn statuses x then [] else ["Invalid status"]
  end.

(** body('status').isIn([...]) *)
Definition check_status (v : option string) : list string * string :=
  match v with
  | Some x => (if isIn statuses x then [] else ["Invalid status"], x)
  | None => (["Invalid status"], EmptyString)
  end.

Definition dquote : string := String (Ascii.ascii_of_nat 34) EmptyString.

Definition permission_msg : string :=
  "Permission must be either " ++ dquote ++ "view" ++ dquote
    ++ " or " ++ dquote ++ "edit" ++ dquote.

(** body('permission').isIn(['view', 'edit']) *)
Definition check_permission (v : option string) : list string * string :=
  match v with
  | Some x => (if isIn permissions x then [] else [permission_msg], x)
  | None => ([permission_msg], EmptyString)
  end.

(** body('email').isEmail().normalizeEmail().withMessage(...) *)
Definition check_email `{ExternalLibs} (v : option string) : list string * string :=
  match v with
  | Some e =>
      (if isEmail e then [] else ["Please provide a valid email"], normalizeEmail e)
  | None => (["Please provide a valid email"], EmptyString)
  end.

(** body('password').isLength({ min: 6 }) *)
Definition check_password_min (v : option string) : list string * string :=
  match v with
  | Some p =>
      (if Nat.ltb (String.length p) 6
       then ["Password must be at least 6 characters long"] else [], p)
  | None => (["Password must be at least 6 characters long"], EmptyString)
  end.

(** body('password').notEmpty() *)
Definition check_password_present (v : option string) : list string * string :=
  match v with
  | Some p => (if (p =? EmptyString)%string then ["Password is required"] else [], p)
  | None => (["Password is required"], EmptyString)
  end.

(** [errors.isEmpty()] *)
Definition isEmpty (errors : list string) : bool :=
  match errors with [] => true | _ :: _ => false end.

(** [x || 'pending'] and [x || null] on a string that may be absent. *)
Definition or_default (v : option string) (d : string) : string :=
  match v with
  | Some x => if (x =? EmptyString)%string then d else x
  | None => d
  end.

Definition or_null (v : option string) : option string :=
  match v with
  | Some x => if (x =? EmptyString)%string then None else Some x
  | None => None
  end.

(** [p === 'view'] on a permission that may be null. *)
Definition is_string (p : option string) (v : string) : bool :=
  match p with Some x => (x =? v)%string | None => false end.

(** ** routes/tasks.js: the permission helper *)

Record UserPermission := mkPermission {
  hasAccess : bool;
  permission : option string;
  taskList : option TaskList.t;
  isOwner : option bool
}.

Definition getUserPermission (s : Store) (taskListId userId : string) : UserPermission :=
  match prisma.taskList.findUnique s taskListId with
  | None => mkPermission false None None None
  | Some tl =>
      let shares :=
        filter (fun sh => TaskListShare.userId sh =? userId)%string
               (shares_of s (TaskList.id tl)) in
      let isOwner := (TaskList.ownerId tl =? userId)%string in
      let share := hd_error shares in
      if isOwner then mkPermission true (Some "owner") (Some tl) (Some true)
      else
        match share with
        | Some sh =>
            mkPermission true (Some (TaskListShare.permission sh)) (Some tl) (Some false)
        | None => mkPermission false None None None
        end
  end.

Definition no_access : Response :=
  mkResponse 403 (JError "You do not have access to this task list").

(** The fields of a task the body of a request may carry. *)
Record TaskBody := mkTaskBody {
  body_title : option string;
  body_description : option string;
  body_status : option string
}.

Section Routes.
Context `{ExternalLibs}.

(** ** routes/tasks.js *)

(** GET /api/tasks/:taskListId *)
Definition tasks_get (s : Store) (userId taskListId : string) : Response * Store :=
  let p := getUserPermission s taskListId userId in
  if negb (hasAccess p) then (no_access, s)
  else (json (JTasks (prisma.task.findMany s taskListId) (permission p)), s).

(** POST /api/tasks/:taskListId *)
Definition tasks_post (s : Store) (userId taskListId : string) (b : TaskBody)
           (newId : string) : Response * Store :=
  let '(e1, title) := check_title "Title is required" (body_title b) in
  let '(e2, description) := check_description (body_description b) in
  let errors := (e1 ++ e2 ++ check_status_optional (body_status b))%list in
  if negb (isEmpty errors) then (mkResponse 400 (JErrors errors), s)
  else
    let p := getUserPermission s taskListId userId in
    if negb (hasAccess p) then (no_access, s)
    else if is_string (permission p) "view"
    then (mkResponse 403 (JError "You need edit permission to add tasks"), s)
    else
      match prisma.task.create s newId title (or_null description)
                               (or_default (body_status b) "pending") taskListId with
      | Some (task, s') => (mkResponse 201 (JTask "Task created successfully" task), s')
      | None => (mkResponse 500 (JError "Failed to create task"), s)
      end.

(** The checks the three routes on one task share: the task exists and
    belongs to the task list of the path. *)
Definition with_task (s : Store) (taskListId taskId : string)
           (k : Task.t -> Response * Store) : Response * Store :=
  match prisma.task.findUnique s taskId with
  | None => (mkResponse 404 (JError "Task not found"), s)
  | Some existingTask =>
      if negb (Task.taskListId existingTask =? taskListId)%string
      then (mkResponse 400 (JError "Task does not belong to this task list"), s)
      else k existingTask
  end.

(** PUT /api/tasks/:taskListId/:taskId *)
Definition tasks_put (s : Store) (userId taskListId taskId : string) (b : TaskBody)
  : Response * Store :=
  let '(e1, title) := check_title_optional (body_title b) in
  let '(e2, description) := check_description (body_description b) in
  let errors := (e1 ++ e2 ++ check_status_optional (body_status b))%list in
  if negb (isEmpty errors) then (mkResponse 400 (JErrors errors), s)
  else
    let p := getUserPermission s taskListId userId in
    if negb (hasAccess p) then (no_access, s)
    else if is_string (permission p) "view"
    then (mkResponse 403 (JError "You need edit permission to update tasks"), s)
    else
      with_task s taskListId taskId (fun _ =>
        let updateData := prisma.task.mkData title description (body_status b) in
        match prisma.task.update s taskId updateData with
        | Some (updatedTask, s') => (json (JTask "Task updated successfully" updatedTask), s')
        | None => (mkResponse 500 (JError "Failed to update task"), s)
        end).

(** PATCH /api/tasks/:taskListId/:taskId/status *)
Definition tasks_patch_status (s : Store) (userId taskListId taskId : string)
           (status : option string) : Response * Store :=
  let '(errors, status) := check_status status in
  if negb (isEmpty errors) then (mkResponse 400 (JErrors errors), s)
  else
    let p := getUserPermission s taskListId userId in
    if negb (hasAccess p) then (no_access, s)
    else if is_string (permission p) "view"
    then (mkResponse 403 (JError "You need edit permission to update task status"), s)
    else
      with_task s taskListId taskId (fun _ =>
        match prisma.task.update s taskId (prisma.task.mkData None None (Some status)) with
        | Some (updatedTask, s') =>
            (json (JTask "Task status updated successfully" updatedTask), s')
        | None => (mkResponse 500 (JError "Failed to update task status"), s)
        end).

(** DELETE /api/tasks/:taskListId/:taskId *)
Definition tasks_delete (s : Store) (userId taskListId taskId : string)
  : Response * Store :=
  let p := getUserPermission s taskListId userId in
  if negb (hasAccess p) then (no_access, s)
  else if is_string (permission p) "view"
  then (mkResponse 403 (JError "You need edit permission to delete tasks"), s)
  else
    with_task s taskListId taskId (fun _ =>
      match prisma.task.delete s taskId with
      | Some s' => (json (JMessage "Task deleted successfully"), s')
      | None => (mkResponse 500 (JError "Failed to delete task"), s)
      end).

(** ** routes/tasklists.js *)

Definition with_users (s : Store) (shares : list TaskListShare.t)
  : list (TaskListShare.t * option (string * string)) :=
  map (fun sh => (sh, select_id_email s (TaskListShare.userId sh))) shares.

(** POST /api/tasklists *)
Definition tasklists_post (s : Store) (userId : string) (title : option string)
           (newId : string) : Response * Store :=
  let '(errors, title) := check_title "Title is required" title in
  if negb (isEmpty errors) then (mkResponse 400 (JErrors errors), s)
  else
    match prisma.taskList.create s newId title userId with
    | Some (taskList, s') =>
        (mkResponse 201
           (JTaskList "Task list created successfully" taskList
                      (select_id_email s' (TaskList.ownerId taskList))
                      (tasks_of s' (TaskList.id taskList))
                      (map (fun sh => (sh, None)) (shares_of s' (TaskList.id taskList)))
                      "owner" true),
         s')
    | None => (mkResponse 500 (JError "Failed to create task list"), s)
    end.

(** PUT /api/tasklists/:id *)
Definition tasklists_put (s : Store) (userId id : string) (title : option string)
  : Response * Store :=
  let '(errors, title) := check_title "Title is required" title in
  if negb (isEmpty errors) then (mkResponse 400 (JErrors errors), s)
  else
    match prisma.taskList.findUnique s id with
    | None => (mkResponse 404 (JError "Task list not found"), s)
    | Some taskList =>
        if negb (TaskList.ownerId taskList =? userId)%string
        then (mkResponse 403 (JError "Only the owner can update the task list"), s)
        else
          match prisma.taskList.update s id title with
          | Some (updatedTaskList, s') =>
              (json
                 (JTaskList "Task list updated successfully" updatedTaskList
                            (select_id_email s' (TaskList.ownerId updatedTaskList))
                            (tasks_of s' (TaskList.id updatedTaskList))
                            (with_users s' (shares_of s' (TaskList.id updatedTaskList)))
                            "owner" true),
               s')
          | None => (mkResponse 500 (JError "Failed to update task list"), s)
          end
    end.

(** DELETE /api/tasklists/:id *)
Definition tasklists_delete (s : Store) (userId id : string) : Response * Store :=
  match prisma.taskList.findUnique s id with
  | None => (mkResponse 404 (JError "Task list not found"), s)
  | Some taskList =>
      if negb (TaskList.ownerId taskList =? userId)%string
      then (mkResponse 403 (JError "Only the owner can delete the task list"), s)
      else
        match prisma.taskList.delete s id with
        | Some s' => (json (JMessage "Task list deleted successfully"), s')
        | None => (mkResponse 500 (JError "Failed to delete task list"), s)
        end
  end.

(** ** routes/shares.js *)

(** POST /api/shares/:taskListId *)
Definition shares_post (s : Store) (userId taskListId : string)
           (email permission : option string) (newId : string) : Response * Store :=
  let '(e1, email) := check_email email in
  let '(e2, permission) := check_permission permission in
  let errors := (e1 ++ e2)%list in
  if negb (isEmpty errors) then (mkResponse 400 (JErrors errors), s)
  else
    match prisma.taskList.findUnique s taskListId with
    | None => (mkResponse 404 (JError "Task list not found"), s)
    | Some taskList =>
        if negb (TaskList.ownerId taskList =? userId)%string
        then (mkResponse 403 (JError "Only the owner can share the task list"), s)
        else
          match prisma.user.findUnique_email s email with
          | None =>
              (mkResponse 404
                 (JError "User with this email is not registered in the system"), s)
          | Some userToShareWith =>
              if (User.id userToShareWith =? userId)%string
              then (mkResponse 400
                      (JError "You cannot share a task list with yourself"), s)
              else
                match prisma.taskListShare.findUnique_taskListId_userId
                        s taskListId (User.id userToShareWith) with
                | Some _ =>
                    (mkResponse 400
                       (JError "Task list is already shared with this user"), s)
                | None =>
                    match prisma.taskListShare.create
                            s newId taskListId (User.id userToShareWith) permission with
                    | Some (share, s') =>
                        (mkResponse 201
                           (JShare "Task list shared successfully" share
                                   (select_id_email s' (TaskListShare.userId share))),
                         s')
                    | None => (mkResponse 500 (JError "Failed to share task list"), s)
                    end
                end
          end
    end.

(** The checks PUT and DELETE on one share have in common: the task list
    exists, the caller owns it, the share exists and belongs to it. *)
Definition with_share (s : Store) (userId taskListId shareId : string)
           (not_owner : string) (k : TaskListShare.t -> Response * Store)
  : Response * Store :=
  match prisma.taskList.findUnique s taskListId with
  | None => (mkResponse 404 (JError "Task list not found"), s)
  | Some taskList =>
      if negb (TaskList.ownerId taskList =? userId)%string
      then (mkResponse 403 (JError not_owner), s)
      else
        match prisma.taskListShare.findUnique_id s shareId with
        | None => (mkResponse 404 (JError "Share not found"), s)
        | Some share =>
            if negb (TaskListShare.taskListId share =? taskListId)%string
            then (mkResponse 400 (JError "Share does not belong to this task list"), s)
            else k share
        end
  end.

(** PUT /api/shares/:taskListId/:shareId *)
Definition shares_put (s : Store) (userId taskListId shareId : string)
           (permission : option string) : Response * Store :=
  let '(errors, permission) := check_permission permission in
  if negb (isEmpty errors) then (mkResponse 400 (JErrors errors), s)
  else
    with_share s userId taskListId shareId "Only the owner can update permissions"
      (fun _ =>
         match prisma.taskListShare.update s shareId permission with
         | Some (updatedShare, s') =>
             (json (JShare "Permission updated successfully" updatedShare
                           (select_id_email s' (TaskListShare.userId updatedShare))),
              s')
         | None => (mkResponse 500 (JError "Failed to update permission"), s)
         end).

(** DELETE /api/shares/:taskListId/:shareId *)
Definition shares_delete (s : Store) (userId taskListId shareId : string)
  : Response * Store :=
  with_share s userId taskListId shareId "Only the owner can remove access"
    (fun _ =>
       match prisma.taskListShare.delete s shareId with
       | Some s' => (json (JMessage "Access removed successfully"), s')
       | None => (mkResponse 500 (JError "Failed to remove access"), s)
       end).

(** ** routes/auth.js *)

(** POST /api/auth/register *)
Definition auth_register (s : Store) (email password : option string)
           (newId salt : string) : Response * Store :=
  let '(e1, email) := check_email email in
  let '(e2, password) := check_password_min password in
  let errors := (e1 ++ e2)%list in
  if negb (isEmpty errors) then (mkResponse 400 (JErrors errors), s)
  else
    match prisma.user.findUnique_email s email with
    | Some _ => (mkResponse 400 (JError "User with this email already exists"), s)
    | None =>
        match prisma.user.create s newId email (hashPassword password salt) with
        | Some (user, s') =>
            (mkResponse 201
               (JAuth "User registered successfully" (User.id user, User.email user)
                      (generateToken (User.id user))),
             s')
        | None => (mkResponse 500 (JError "Failed to register user"), s)
        end
    end.

(** POST /api/auth/login *)
Definition auth_login (s : Store) (email password : option string) : Response * Store :=
  let '(e1, email) := check_email email in
  let '(e2, password) := check_password_present password in
  let errors := (e1 ++ e2)%list in
  if negb (isEmpty errors) then (mkResponse 400 (JErrors errors), s)
  else
    match prisma.user.findUnique_email s email with
    | None => (mkResponse 401 (JError "Invalid email or password"), s)
    | Some user =>
        if negb (comparePassword password (User.password user))
        then (mkResponse 401 (JError "Invalid email or password"), s)
        else
          (json (JAuth "Login successful" (User.id user, User.email user)
                       (generateToken (User.id user))),
           s)
    end.

(** ** The server as a transition system *)

Inductive Request :=
| AuthRegister (email password : option string) (newId salt : string)
| AuthLogin (email password : option string)
| TaskListsPost (userId : string) (title : option string) (newId : string)
| TaskListsPut (userId id : string) (title : option string)
| TaskListsDelete (userId id : string)
| TasksGet (userId taskListId : string)
| TasksPost (userId taskListId : string) (b : TaskBody) (newId : string)
| TasksPut (userId taskListId taskId : string) (b : TaskBody)
| TasksPatchStatus (userId taskListId taskId : string) (status : option string)
| TasksDelete (userId taskListId taskId : string)
| SharesPost (userId taskListId : string) (email permission : option string)
             (newId : string)
| SharesPut (userId taskListId shareId : string) (permission : option string)
| SharesDelete (userId taskListId shareId : string).

Definition handle (s : Store) (r : Request) : Response * Store :=
  match r with
  | AuthRegister email password newId salt => auth_register s email password newId salt
  | AuthLogin email password => auth_login s email password
  | TaskListsPost userId title newId => tasklists_post s userId title newId
  | TaskListsPut userId id title => tasklists_put s userId id title
  | TaskListsDelete userId id => tasklists_delete s userId id
  | TasksGet userId taskListId => tasks_get s userId taskListId
  | TasksPost userId taskListId b newId => tasks_post s userId taskListId b newId
  | TasksPut userId taskListId taskId b => tasks_put s userId taskListId taskId b
  | TasksPatchStatus userId taskListId taskId status =>
      tasks_patch_status s userId taskListId taskId status
  | TasksDelete userId taskListId taskId => tasks_delete s userId taskListId taskId
  | SharesPost userId taskListId email permission newId =>
      shares_post s userId taskListId email permission newId
  | SharesPut userId taskListId shareId permission =>
      shares_put s userId taskListId shareId permission
  | SharesDelete userId taskListId shareId => shares_delete s userId taskListId shareId
  end.

(** The stores the server can be in: it starts on the empty database and
    serves one request after the other. *)
Inductive reachable : Store -> Prop :=
| reachable_empty : reachable empty_store
| reachable_handle s r : reachable s -> reachable (snd (handle s r)).

End Routes.

(** ** A stand-in for the collaborators, to run the routes

    Blanks are trimmed at both ends, an address has an at sign, a hash is the
    salt, a dollar sign and the password, a token is the identifier. *)

Module Sample.

Fixpoint ltrim (s : string) : string :=
  match s with
  | String c r => if Ascii.eqb c " "%char then ltrim r else s
  | EmptyString => s
  end.

Fixpoint rev_string (s acc : string) : string :=
  match s with
  | String c r => rev_string r (String c acc)
  | EmptyString => acc
  end.

Definition trim (s : string) : string :=
  rev_string (ltrim (rev_string (ltrim s) EmptyString)) EmptyString.

Fixpoint has_at (s : string) : bool :=
  match s with
  | String c r => Ascii.eqb c "@"%char || has_at r
  | EmptyString => false
  end.

Fixpoint after_dollar (s : string) : string :=
  match s with
  | String c r => if Ascii.eqb c "$"%char then r else after_dollar r
  | EmptyString => s
  end.

Definition hash (password salt : string) : string := salt ++ "$" ++ password.

Definition compare (password h : string) : bool := (after_dollar h =? password)%string.

End Sample.

#[global] Instance sample_libs : ExternalLibs := {|
  trim := Sample.trim;
  isEmail := Sample.has_at;
  normalizeEmail := fun e => e;
  bcrypt_hash := Sample.hash;
  bcrypt_compare := Sample.compare;
  generateToken := fun id => id
|}.

(** Requests served in a row. *)
Definition run `{ExternalLibs} (s : Store) (rs : list Request) : Store :=
  fold_left (fun s r => snd (handle s r)) rs s.

(** The scenario of the specification: a@x.com registers, then b@x.com and
    c@x.com; a@x.com creates the list Groceries with one task and shares it
    with b@x.com to view; c@x.com creates a list of their own with a task. *)
Definition scenario : list Request :=
  [ AuthRegister (Some "a@x.com") (Some "secret-a") "u1" "salt1";
    AuthRegister (Some "b@x.com") (Some "secret-b") "u2" "salt2";
    AuthRegister (Some "c@x.com") (Some "secret-c") "u3" "salt3";
    TaskListsPost "u1" (Some "Groceries") "l1";
    TasksPost "u1" "l1" (mkTaskBody (Some "Milk") (Some "two litres") None) "t1";
    SharesPost "u1" "l1" (Some "b@x.com") (Some "view") "s1";
    TaskListsPost "u3" (Some "Errands") "l2";
    TasksPost "u3" "l2" (mkTaskBody (Some "Post office") None (Some "in_progress")) "t2";
    SharesPost "u3" "l2" (Some "a@x.com") (Some "edit") "s2" ].

Definition demo : Store := Eval vm_compute in run empty_store scenario.

(** Rows of the store the scenario ends in. *)
Definition u1 : User.t := User.mk "u1" "a@x.com" "salt1$secret-a".
Definition u2 : User.t := User.mk "u2" "b@x.com" "salt2$secret-b".
Definition l1 : TaskList.t := TaskList.mk "l1" "Groceries" "u1".
Definition t1 : Task.t := Task.mk "t1" "Milk" (Some "two litres") "pending" "l1".
Definition t2 : Task.t := Task.mk "t2" "Post office" None "in_progress" "l2".
Definition s1 : TaskListShare.t := TaskListShare.mk "s1" "l1" "u2" "view".
Definition s2 : TaskListShare.t := TaskListShare.mk "s2" "l2" "u1" "edit".
Definition l2 : TaskList.t := TaskList.mk "l2" "Errands" "u3".

(** ** Requests that pass the validation chains of their route *)

Section Valid.
Context `{ExternalLibs}.

Definition valid_task_post (b : TaskBody) : Prop :=
  fst (check_title "Title is required" (body_title b)) = []
  /\ fst (check_description (body_description b)) = []
  /\ check_status_optional (body_status b) = [].

Definition valid_task_put (b : TaskBody) : Prop :=
  fst (check_title_optional (body_title b)) = []
  /\ fst (check_description (body_description b)) = []
  /\ check_status_optional (body_status b) = [].

Definition valid_status (status : option string) : Prop :=
  fst (check_status status) = [].

Definition valid_title (title : option string) : Prop :=
  fst (check_title "Title is required" title) = [].

Definition valid_share (email permission : option string) : Prop :=
  fst (check_email email) = [] /\ fst (check_permission permission) = [].

Definition valid_permission (permission : option string) : Prop :=
  fst (check_permission permission) = [].

Definition valid_login (email password : option string) : Prop :=
  fst (check_email email) = [] /\ fst (check_password_present password) = [].

End Valid.

(** ** Consistency of the store

    What the constraints of the migration and the checks of the routes keep
    true of the task lists and the shares. *)

Definition pair_of (sh : TaskListShare.t) : string * string :=
  (TaskListShare.taskListId sh, TaskListShare.userId sh).

Record store_ok (s : Store) : Prop := mk_store_ok {
  ok_list_ids : NoDup (map TaskList.id (task_lists s));
  ok_pairs : NoDup (map pair_of (task_list_shares s));
  ok_permissions :
    forall sh, In sh (task_list_shares s) ->
               isIn permissions (TaskListShare.permission sh) = true;
  ok_share_list :
    forall sh, In sh (task_list_shares s) ->
               has_key TaskList.id (TaskListShare.taskListId sh) (task_lists s) = true;
  ok_no_self_share :
    forall sh l, In sh (task_list_shares s) -> In l (task_lists s) ->
                 TaskList.id l = TaskListShare.taskListId sh ->
                 TaskList.ownerId l <> TaskListShare.userId sh
}.

(** ** The routes that only read

    They send bodies of their own and write nothing, so they give a response
    alone.  A task list is sent with the relations its query includes. *)

Record TaskListView := mkView {
  view_taskList : TaskList.t;
  view_owner : option (string * string);
  view_tasks : list Task.t;
  view_shares : list (TaskListShare.t * option (string * string));
  view_permission : string;
  view_isOwner : bool
}.

Inductive ReadBody :=
| RError (error : string)
| RTaskLists (owned shared all : list TaskListView)
| RTaskList (taskList : TaskListView)
| RShares (shares : list (TaskListShare.t * option (string * string))).

Record ReadResponse := mkRead { read_status : Z; read_body : ReadBody }.

Definition view_of (s : Store) (l : TaskList.t) (tasks : list Task.t)
           (permission : string) (isOwner : bool) : TaskListView :=
  mkView l (select_id_email s (TaskList.ownerId l)) tasks
         (with_users s (shares_of s (TaskList.id l))) permission isOwner.

(** GET /api/tasklists.  The task list of a share is the row its foreign key
    names. *)
Definition tasklists_get_all (s : Store) (userId : string) : ReadResponse :=
  let ownedTaskLists :=
    rev (filter (fun l => TaskList.ownerId l =? userId)%string (task_lists s)) in
  let sharedTaskLists :=
    filter (fun sh => TaskListShare.userId sh =? userId)%string (task_list_shares s) in
  let owned :=
    map (fun list => view_of s list (tasks_of s (TaskList.id list)) "owner" true)
        ownedTaskLists in
  let shared :=
    flat_map
      (fun share =>
         match prisma.taskList.findUnique s (TaskListShare.taskListId share) with
         | Some taskList =>
             [view_of s taskList (tasks_of s (TaskList.id taskList))
                      (TaskListShare.permission share) false]
         | None => []
         end)
      sharedTaskLists in
  mkRead 200 (RTaskLists owned shared (owned ++ shared)).


(** GET /api/shares/:taskListId *)
Definition shares_get (s : Store) (userId taskListId : string) : ReadResponse :=
  match prisma.taskList.findUnique s taskListId with
  | None => mkRead 404 (RError "Task list not found")
  | Some taskList =>
      if negb (TaskList.ownerId taskList =? userId)%string
      then mkRead 403 (RError "Only the owner can view shared users")
      else mkRead 200 (RShares (with_users s (rev (shares_of s taskListId))))
  end.

(** ** middleware/auth.js

    [verifyToken] of utils/jwt gives the user identifier a token was issued
    for, or nothing. *)

Inductive AuthResult :=
| AuthReject (res : Response)
| AuthNext (user : string * string).

Section Middleware.
Variable verifyToken : string -> option string.

Definition authenticate (s : Store) (authHeader : option string) : AuthResult :=
  match authHeader with
  | None => AuthReject (mkResponse 401 (JError "No token provided. Please authenticate."))
  | Some h =>
      if negb (String.prefix "Bearer " h)
      then AuthReject (mkResponse 401 (JError "No token provided. Please authenticate."))
      else
        let token := substring 7 (String.length h - 7) h in
        match verifyToken token with
        | None =>
            AuthReject
              (mkResponse 401 (JError "Invalid or expired token. Please login again."))
        | Some userId =>
            match select_id_email s userId with
            | None =>
                AuthReject (mkResponse 401 (JError "User not found. Please login again."))
            | Some user => AuthNext user
            end
        end
  end.


End Middleware.

(** ** The client

    services/api.js: the request interceptor sets the Authorization header
    from the token kept in local storage, when there is one. *)
Definition authorization (token : option string) : option string :=
  match token with
  | Some t => if (t =? EmptyString)%string then None else Some ("Bearer " ++ t)
  | None => None
  end.

(** The token field of the body of a login or registration response. *)
Definition token_of (res : Response) : option string :=
  match res_body res with
  | JAuth _ _ token => Some token
  | _ => None
  end.

(** Dashboard.jsx, on the task list that is selected. *)
Module Dashboard.

(** fetchTaskLists keeps [response.data.all || []]. *)
Definition taskLists (res : ReadResponse) : list TaskListView :=
  match read_body res with
  | RTaskLists _ _ all => all
  | _ => []
  end.

Definition canEdit (selectedTaskList : option TaskListView) : bool :=
  match selectedTaskList with
  | Some l => (view_permission l =? "owner")%string || (view_permission l =? "edit")%string
  | None => false
  end.

Definition isOwner (selectedTaskList : option TaskListView) : bool :=
  match selectedTaskList with
  | Some l => (view_permission l =? "owner")%string
  | None => false
  end.

Definition getStatusLabel (status : string) : string :=
  if (status =? "completed")%string then "Completed"
  else if (status =? "in_progress")%string then "In Progress"
  else "Pending".

Definition getStatusColor (status : string) : string :=
  if (status =? "completed")%string then "status-completed"
  else if (status =? "in_progress")%string then "status-in_progress"
  else "status-pending".

End Dashboard.

(** TaskModal.jsx: the body the form submits; [description || undefined]
    leaves an empty description out of it. *)
Module TaskModal.



End TaskModal.

(** ** More of what the store keeps true

    Keys are unique, references resolve, and stored values have passed the
    validation chains. *)

Record keys_ok (s : Store) : Prop := mk_keys_ok {
  ok_user_ids : NoDup (map User.id (users s));
  ok_user_emails : NoDup (map User.email (users s));
  ok_task_ids : NoDup (map Task.id (tasks s));
  ok_share_ids : NoDup (map TaskListShare.id (task_list_shares s))
}.

Record refs_ok (s : Store) : Prop := mk_refs_ok {
  ok_task_list :
    forall t, In t (tasks s) ->
              has_key TaskList.id (Task.taskListId t) (task_lists s) = true;
  ok_share_user :
    forall sh, In sh (task_list_shares s) ->
               has_key User.id (TaskListShare.userId sh) (users s) = true;
  ok_list_owner :
    forall l, In l (task_lists s) ->
              has_key User.id (TaskList.ownerId l) (users s) = true
}.

Definition title_ok (t : string) : Prop :=
  t <> EmptyString /\ too_long 200 t = false.

Definition description_ok (d : option string) : Prop :=
  match d with
  | Some x => too_long 1000 x = false
  | None => True
  end.

Record data_ok (s : Store) : Prop := mk_data_ok {
  ok_task_status : forall t, In t (tasks s) -> isIn statuses (Task.status t) = true;
  ok_task_title : forall t, In t (tasks s) -> title_ok (Task.title t);
  ok_task_description : forall t, In t (tasks s) -> description_ok (Task.description t);
  ok_list_title : forall l, In l (task_lists s) -> title_ok (TaskList.title l)
}.

Definition wf (s : Store) : Prop := keys_ok s /\ refs_ok s /\ data_ok s.

(** ** Requests the database cannot refuse

    The identifier generated for a new row is not taken, and the caller of a
    route behind the middleware is a user. *)




(** ** What a route writes

    Nothing, or the result of one call of the client that writes. *)

Inductive db_write (s : Store) : Store -> Prop :=
| write_nothing : db_write s s
| write_user_create newId email password u s' :
    prisma.user.create s newId email password = Some (u, s') -> db_write s s'
| write_taskList_create newId title ownerId l s' :
    prisma.taskList.create s newId title ownerId = Some (l, s') -> db_write s s'
| write_taskList_update id title l s' :
    prisma.taskList.update s id title = Some (l, s') -> db_write s s'
| write_taskList_delete id s' :
    prisma.taskList.delete s id = Some s' -> db_write s s'
| write_task_create newId title description status taskListId t s' :
    prisma.task.create s newId title description status taskListId = Some (t, s') ->
    db_write s s'
| write_task_update id d t s' :
    prisma.task.update s id d = Some (t, s') -> db_write s s'
| write_task_delete id s' :
    prisma.task.delete s id = Some s' -> db_write s s'
| write_share_create newId taskListId userId permission sh s' :
    prisma.taskListShare.create s newId taskListId userId permission = Some (sh, s') ->
    db_write s s'
| write_share_update id permission sh s' :
    prisma.taskListShare.update s id permission = Some (sh, s') -> db_write s s'
| write_share_delete id s' :
    prisma.taskListShare.delete s id = Some s' -> db_write s s'.

(** * Properties *)

(** ** Lookups in a table *)

Lemma find_by_Some {A} (key : A -> string) k rows r :
  find_by key k rows = Some r -> In r rows /\ key r = k.
Proof.
  unfold find_by. intros Hf. apply find_some in Hf.
  destruct Hf as [Hin Hk]. split; [assumption | now apply String.eqb_eq].
Qed.

Lemma find_by_None {A} (key : A -> string) k rows :
  find_by key k rows = None -> forall r, In r rows -> key r <> k.
Proof.
  unfold find_by. intros Hf r Hin Hk.
  apply (find_none _ _ Hf) in Hin. rewrite Hk, String.eqb_refl in Hin. discriminate.
Qed.

Lemma has_key_true {A} (key : A -> string) k rows :
  has_key key k rows = true <-> exists r, In r rows /\ key r = k.
Proof.
  unfold has_key. rewrite existsb_exists. split; intros [r [Hin Hk]]; exists r; split;
    try assumption; now apply String.eqb_eq.
Qed.

Lemma has_key_false {A} (key : A -> string) k rows :
  has_key key k rows = false -> forall r, In r rows -> key r <> k.
Proof.
  intros Hf r Hin Hk.
  assert (Ht : has_key key k rows = true) by (apply has_key_true; eauto).
  congruence.
Qed.


Lemma find_by_NoDup {A} (key : A -> string) rows r :
  NoDup (map key rows) -> In r rows -> find_by key (key r) rows = Some r.
Proof.
  unfold find_by. induction rows as [|x rows IH]; simpl; intros Hnd Hin; [contradiction|].
  inversion Hnd as [|? ? Hx Hnd']; subst.
  destruct Hin as [->|Hin].
  - now rewrite String.eqb_refl.
  - destruct (String.eqb_spec (key x) (key r)) as [Heq|Hne].
    + exfalso. apply Hx. rewrite Heq. now apply in_map.
    + now apply IH.
Qed.

Lemma find_by_map {A} (key : A -> string) (f : A -> A) k rows :
  (forall r, key (f r) = key r) ->
  find_by key k (map f rows) = option_map f (find_by key k rows).
Proof.
  intros Hkey. unfold find_by. induction rows as [|x rows IH]; simpl; [reflexivity|].
  rewrite Hkey. destruct (key x =? k)%string; [reflexivity | exact IH].
Qed.



(** ** The store stays consistent *)

Lemma NoDup_snoc {A} (l : list A) x : NoDup l -> ~ In x l -> NoDup (l ++ [x]).
Proof.
  induction l as [|y l IH]; simpl; intros Hnd Hx.
  - constructor; [intros [] | constructor].
  - inversion Hnd as [|? ? Hy Hnd']; subst. constructor.
    + rewrite in_app_iff. simpl. intros [Hin | [Heq | []]]; [now apply Hy|].
      apply Hx. now left.
    + apply IH; [assumption|]. intros Hin. apply Hx. now right.
Qed.

Lemma NoDup_map_filter {A B} (f : A -> B) p (l : list A) :
  NoDup (map f l) -> NoDup (map f (filter p l)).
Proof.
  induction l as [|x l IH]; simpl; intros Hnd; [constructor|].
  inversion Hnd as [|? ? Hx Hnd']; subst.
  destruct (p x); simpl; [|now apply IH].
  constructor; [|now apply IH].
  intros Hin. apply Hx. apply in_map_iff in Hin. destruct Hin as [y [Hy Hin]].
  apply filter_In in Hin. rewrite <- Hy. apply in_map. tauto.
Qed.

Lemma store_ok_empty : store_ok empty_store.
Proof. constructor; simpl; try constructor; intros; contradiction. Qed.

Lemma store_ok_same s s' :
  task_lists s' = task_lists s ->
  task_list_shares s' = task_list_shares s ->
  store_ok s -> store_ok s'.
Proof.
  intros Hl Hs [H1 H2 H3 H4 H5]. constructor; rewrite ?Hl, ?Hs; assumption.
Qed.

Lemma user_create_ok s newId email password u s' :
  prisma.user.create s newId email password = Some (u, s') ->
  store_ok s -> store_ok s'.
Proof.
  unfold prisma.user.create. destruct (_ || _); [discriminate|].
  intros [= _ <-]. now apply store_ok_same.
Qed.

Lemma task_create_ok s newId title description status taskListId t s' :
  prisma.task.create s newId title description status taskListId = Some (t, s') ->
  store_ok s -> store_ok s'.
Proof.
  unfold prisma.task.create. destruct (_ || _); [discriminate|].
  intros [= _ <-]. now apply store_ok_same.
Qed.

Lemma task_update_ok s id d t s' :
  prisma.task.update s id d = Some (t, s') -> store_ok s -> store_ok s'.
Proof.
  unfold prisma.task.update. destruct (prisma.task.findUnique s id); [|discriminate].
  intros [= _ <-]. now apply store_ok_same.
Qed.

Lemma task_delete_ok s id s' :
  prisma.task.delete s id = Some s' -> store_ok s -> store_ok s'.
Proof.
  unfold prisma.task.delete. destruct (prisma.task.findUnique s id); [|discriminate].
  intros [= <-]. now apply store_ok_same.
Qed.

Lemma taskList_create_ok s newId title ownerId l s' :
  prisma.taskList.create s newId title ownerId = Some (l, s') ->
  store_ok s -> store_ok s'.
Proof.
  unfold prisma.taskList.create.
  destruct (has_key TaskList.id newId (task_lists s)) eqn:Hfresh; [discriminate|].
  destruct (negb _); [discriminate|]. simpl.
  intros [= _ <-] [H1 H2 H3 H4 H5]. constructor; cbn [task_lists task_list_shares]; try assumption.
  - rewrite map_app. simpl. apply NoDup_snoc; [assumption|].
    intros Hin. apply in_map_iff in Hin. destruct Hin as [x [Hx Hin]].
    now apply (@has_key_false _ _ _ _ Hfresh) in Hin.
  - intros sh Hsh. apply has_key_true.
    destruct (proj1 (@has_key_true _ _ _ _) (H4 sh Hsh)) as [x [Hin Hx]].
    exists x. split; [|assumption]. apply in_or_app. now left.
  - intros sh x Hsh Hin Hid. apply in_app_or in Hin. destruct Hin as [Hin | [<- | []]].
    + now apply H5.
    + exfalso. simpl in Hid.
      destruct (proj1 (@has_key_true _ _ _ _) (H4 sh Hsh)) as [y [Hy Hk]].
      apply (@has_key_false _ _ _ _ Hfresh) in Hy. congruence.
Qed.

Lemma set_title_id id title l :
  TaskList.id (prisma.taskList.set_title id title l) = TaskList.id l.
Proof. unfold prisma.taskList.set_title. now destruct (TaskList.id l =? id)%string. Qed.

Lemma set_title_ownerId id title l :
  TaskList.ownerId (prisma.taskList.set_title id title l) = TaskList.ownerId l.
Proof. unfold prisma.taskList.set_title. now destruct (TaskList.id l =? id)%string. Qed.

Lemma taskList_update_ok s id title l s' :
  prisma.taskList.update s id title = Some (l, s') -> store_ok s -> store_ok s'.
Proof.
  unfold prisma.taskList.update.
  destruct (prisma.taskList.findUnique s id); [|discriminate].
  intros [= _ <-] [H1 H2 H3 H4 H5]. constructor; cbn [task_lists task_list_shares]; try assumption.
  - rewrite map_map. erewrite map_ext; [exact H1|]. intros x. apply set_title_id.
  - intros sh Hsh. apply has_key_true.
    destruct (proj1 (@has_key_true _ _ _ _) (H4 sh Hsh)) as [x [Hin Hx]].
    exists (prisma.taskList.set_title id title x). split; [now apply in_map|].
    now rewrite set_title_id.
  - intros sh x Hsh Hin Hid. apply in_map_iff in Hin. destruct Hin as [y [<- Hin]].
    rewrite set_title_id in Hid. rewrite set_title_ownerId. now apply H5.
Qed.

Lemma taskList_delete_ok s id s' :
  prisma.taskList.delete s id = Some s' -> store_ok s -> store_ok s'.
Proof.
  unfold prisma.taskList.delete.
  destruct (prisma.taskList.findUnique s id); [|discriminate].
  intros [= <-] [H1 H2 H3 H4 H5]. constructor; cbn [task_lists task_list_shares].
  - now apply NoDup_map_filter.
  - now apply NoDup_map_filter.
  - intros sh Hsh. apply filter_In in Hsh. now apply H3.
  - intros sh Hsh. apply filter_In in Hsh. destruct Hsh as [Hsh Hne].
    apply has_key_true.
    destruct (proj1 (@has_key_true _ _ _ _) (H4 sh Hsh)) as [x [Hin Hx]].
    exists x. split; [|assumption]. apply filter_In. split; [assumption|].
    now rewrite Hx.
  - intros sh x Hsh Hin Hid. apply filter_In in Hsh. apply filter_In in Hin.
    now apply H5.
Qed.

Lemma is_pair_pair_of taskListId userId sh :
  prisma.taskListShare.is_pair taskListId userId sh = true
  <-> pair_of sh = (taskListId, userId).
Proof.
  unfold prisma.taskListShare.is_pair, pair_of.
  rewrite andb_true_iff, !String.eqb_eq. split.
  - intros [Ha Hb]. now rewrite Ha, Hb.
  - intros Heq. inversion Heq. auto.
Qed.

Lemma share_create_ok s newId taskListId userId permission sh s' l :
  prisma.taskListShare.create s newId taskListId userId permission = Some (sh, s') ->
  isIn permissions permission = true ->
  prisma.taskList.findUnique s taskListId = Some l ->
  TaskList.ownerId l <> userId ->
  store_ok s -> store_ok s'.
Proof.
  unfold prisma.taskListShare.create.
  destruct (has_key TaskListShare.id newId (task_list_shares s)); [discriminate|].
  destruct (existsb (prisma.taskListShare.is_pair taskListId userId)
                    (task_list_shares s)) eqn:Hpair; [discriminate|].
  destruct (has_key TaskList.id taskListId (task_lists s)) eqn:Hlist; [|discriminate].
  destruct (has_key User.id userId (users s)); [|discriminate]. simpl.
  intros [= _ <-] Hperm Hl Hown [H1 H2 H3 H4 H5]. constructor; cbn [task_lists task_list_shares]; try assumption.
  - rewrite map_app. simpl. apply NoDup_snoc; [assumption|].
    intros Hin. apply in_map_iff in Hin. destruct Hin as [x [Hx Hin]].
    assert (Ht : existsb (prisma.taskListShare.is_pair taskListId userId)
                         (task_list_shares s) = true).
    { apply existsb_exists. exists x. split; [assumption|].
      now apply is_pair_pair_of. }
    congruence.
  - intros x Hin. apply in_app_or in Hin. destruct Hin as [Hin | [<- | []]]; auto.
  - intros x Hin. apply in_app_or in Hin. destruct Hin as [Hin | [<- | []]]; auto.
  - intros x y Hin Hy Hid. apply in_app_or in Hin. destruct Hin as [Hin | [<- | []]].
    + now apply H5.
    + simpl in *. pose proof (@find_by_NoDup _ TaskList.id _ _ H1 Hy) as Hf.
      rewrite Hid in Hf. unfold prisma.taskList.findUnique in Hl. congruence.
Qed.

Lemma set_permission_pair id permission sh :
  pair_of (prisma.taskListShare.set_permission id permission sh) = pair_of sh.
Proof.
  unfold prisma.taskListShare.set_permission.
  now destruct (TaskListShare.id sh =? id)%string.
Qed.

Lemma share_update_ok s id permission sh s' :
  prisma.taskListShare.update s id permission = Some (sh, s') ->
  isIn permissions permission = true ->
  store_ok s -> store_ok s'.
Proof.
  unfold prisma.taskListShare.update.
  destruct (prisma.taskListShare.findUnique_id s id); [|discriminate].
  intros [= _ <-] Hperm [H1 H2 H3 H4 H5]. constructor; cbn [task_lists task_list_shares]; try assumption.
  - rewrite map_map. erewrite map_ext; [exact H2|]. intros x. apply set_permission_pair.
  - intros x Hin. apply in_map_iff in Hin. destruct Hin as [y [<- Hin]].
    unfold prisma.taskListShare.set_permission.
    destruct (TaskListShare.id y =? id)%string; cbn [TaskListShare.permission]; auto.
  - intros x Hin. apply in_map_iff in Hin. destruct Hin as [y [<- Hin]].
    pose proof (set_permission_pair id permission y) as Hp. injection Hp as -> _.
    auto.
  - intros x l Hin Hl Hid. apply in_map_iff in Hin. destruct Hin as [y [<- Hin]].
    pose proof (set_permission_pair id permission y) as Hp. injection Hp as Ha Hb.
    rewrite Ha in Hid. rewrite Hb. now apply H5.
Qed.

Lemma share_delete_ok s id s' :
  prisma.taskListShare.delete s id = Some s' -> store_ok s -> store_ok s'.
Proof.
  unfold prisma.taskListShare.delete.
  destruct (prisma.taskListShare.findUnique_id s id); [|discriminate].
  intros [= <-] [H1 H2 H3 H4 H5]. constructor; cbn [task_lists task_list_shares]; try assumption.
  - now apply NoDup_map_filter.
  - intros x Hin. apply filter_In in Hin. now apply H3.
  - intros x Hin. apply filter_In in Hin. now apply H4.
  - intros x l Hin Hl Hid. apply filter_In in Hin. now apply H5.
Qed.

(** ** The permission helper *)

Lemma getUserPermission_missing s taskListId userId :
  prisma.taskList.findUnique s taskListId = None ->
  getUserPermission s taskListId userId = mkPermission false None None None.
Proof. unfold getUserPermission. now intros ->. Qed.

Lemma permission_hasAccess s taskListId userId x :
  permission (getUserPermission s taskListId userId) = Some x ->
  hasAccess (getUserPermission s taskListId userId) = true.
Proof.
  unfold getUserPermission.
  destruct (prisma.taskList.findUnique s taskListId) as [tl|]; [|discriminate].
  destruct (TaskList.ownerId tl =? userId)%string; [reflexivity|].
  destruct (hd_error _); simpl; [reflexivity | discriminate].
Qed.

Lemma hasAccess_permission s taskListId userId :
  hasAccess (getUserPermission s taskListId userId) = true ->
  exists x, permission (getUserPermission s taskListId userId) = Some x.
Proof.
  unfold getUserPermission.
  destruct (prisma.taskList.findUnique s taskListId) as [tl|]; [|discriminate].
  destruct (TaskList.ownerId tl =? userId)%string; [simpl; eauto|].
  destruct (hd_error _); simpl; [eauto | discriminate].
Qed.

(** ** Passing the validation step *)

Lemma isEmpty_nil (errors : list string) : isEmpty errors = true <-> errors = [].
Proof. destruct errors; simpl; split; congruence. Qed.


Section RouteFacts.
Context `{ExternalLibs}.

(** Unfolds a route up to the test on the validation errors: names the
    errors and the sanitized value of each validation chain. *)
Ltac open_route :=
  repeat match goal with
    | |- context [match ?c with pair _ _ => _ end] =>
        let e := fresh "e" in let x := fresh "x" in let E := fresh "E" in
        destruct c as [e x] eqn:E
    end.

(** Passes the validation step of a route under the hypothesis [Hv] that the
    request is valid. *)
Ltac validated Hv :=
  unfold valid_task_post, valid_task_put, valid_status, valid_title, valid_share,
    valid_permission, valid_login in Hv;
  open_route; simpl in Hv; decompose [and] Hv; subst;
  repeat match goal with
    | Hx : _ = @nil string |- _ => try rewrite Hx; clear Hx
    end;
  simpl.

(** Either branch of the validation step. *)
Ltac either_way :=
  open_route; destruct (isEmpty _); simpl; [|tauto].

Ltac either_way_ok :=
  open_route; destruct (isEmpty _); simpl; [|assumption].

Lemma task_apply_nothing t :
  prisma.task.apply_data (prisma.task.mkData None None None) t = t.
Proof. now destruct t. Qed.

Lemma task_set_nothing id rows :
  map (prisma.task.set_data id (prisma.task.mkData None None None)) rows = rows.
Proof.
  induction rows as [|t rows IH]; simpl; [reflexivity|]. rewrite IH.
  unfold prisma.task.set_data. rewrite task_apply_nothing.
  now destruct (Task.id t =? id)%string.
Qed.

Lemma task_update_found s id d t :
  prisma.task.findUnique s id = Some t ->
  prisma.task.findUnique
    (mkStore (users s) (task_lists s) (map (prisma.task.set_data id d) (tasks s))
             (task_list_shares s)) id
  = Some (prisma.task.apply_data d t).
Proof.
  unfold prisma.task.findUnique. simpl. intros Hf.
  rewrite find_by_map.
  - rewrite Hf. simpl. unfold prisma.task.set_data.
    apply find_by_Some in Hf. destruct Hf as [_ ->]. now rewrite String.eqb_refl.
  - intros r. unfold prisma.task.set_data. now destruct (Task.id r =? id)%string.
Qed.

Lemma task_update_other s id d id' :
  id' <> id ->
  prisma.task.findUnique
    (mkStore (users s) (task_lists s) (map (prisma.task.set_data id d) (tasks s))
             (task_list_shares s)) id'
  = prisma.task.findUnique s id'.
Proof.
  intros Hne. unfold prisma.task.findUnique, find_by. simpl.
  induction (tasks s) as [|t rows IH]; simpl; [reflexivity|].
  assert (Ht : prisma.task.set_data id d t = t \/ Task.id t = id
                /\ Task.id (prisma.task.set_data id d t) = id).
  { unfold prisma.task.set_data.
    destruct (String.eqb_spec (Task.id t) id); [right | left]; auto. }
  destruct Ht as [-> | [Hid ->]].
  - destruct (Task.id t =? id')%string; [reflexivity | exact IH].
  - rewrite Hid. destruct (String.eqb_spec id id'); [congruence | exact IH].
Qed.

(** ** The task routes *)

(** C2, as the routes have it: a task route called on a task list that does
    not exist answers 403 with the message of a list the caller has no access
    to, once the request has passed validation, and it changes nothing. *)
Theorem tasks_missing_list_no_access s userId taskListId :
  prisma.taskList.findUnique s taskListId = None ->
  tasks_get s userId taskListId = (no_access, s)
  /\ (forall b newId,
        valid_task_post b -> tasks_post s userId taskListId b newId = (no_access, s))
  /\ (forall taskId b,
        valid_task_put b -> tasks_put s userId taskListId taskId b = (no_access, s))
  /\ (forall taskId status,
        valid_status status ->
        tasks_patch_status s userId taskListId taskId status = (no_access, s))
  /\ (forall taskId, tasks_delete s userId taskListId taskId = (no_access, s)).
Proof.
  intros Hnone.
  pose proof (getUserPermission_missing s taskListId userId Hnone) as Hp.
  repeat split.
  - unfold tasks_get. now rewrite Hp.
  - intros b newId Hv. unfold tasks_post. validated Hv. now rewrite Hp.
  - intros taskId b Hv. unfold tasks_put. validated Hv. now rewrite Hp.
  - intros taskId status Hv. unfold tasks_patch_status. validated Hv. now rewrite Hp.
  - intros taskId. unfold tasks_delete. now rewrite Hp.
Qed.

(** C4: a caller whose permission on the task list is view reads its tasks,
    and none of the four task mutations goes through: the store is left as it
    was, and a request that passes validation is answered 403. *)
Theorem view_permission_reads_only s userId taskListId :
  permission (getUserPermission s taskListId userId) = Some "view" ->
  tasks_get s userId taskListId
  = (json (JTasks (prisma.task.findMany s taskListId) (Some "view")), s)
  /\ (forall b newId,
        snd (tasks_post s userId taskListId b newId) = s
        /\ (res_status (fst (tasks_post s userId taskListId b newId)) = 400
            \/ res_status (fst (tasks_post s userId taskListId b newId)) = 403)
        /\ (valid_task_post b ->
            fst (tasks_post s userId taskListId b newId)
            = mkResponse 403 (JError "You need edit permission to add tasks")))
  /\ (forall taskId b,
        snd (tasks_put s userId taskListId taskId b) = s
        /\ (res_status (fst (tasks_put s userId taskListId taskId b)) = 400
            \/ res_status (fst (tasks_put s userId taskListId taskId b)) = 403)
        /\ (valid_task_put b ->
            fst (tasks_put s userId taskListId taskId b)
            = mkResponse 403 (JError "You need edit permission to update tasks")))
  /\ (forall taskId status,
        snd (tasks_patch_status s userId taskListId taskId status) = s
        /\ (res_status (fst (tasks_patch_status s userId taskListId taskId status)) = 400
            \/ res_status (fst (tasks_patch_status s userId taskListId taskId status)) = 403)
        /\ (valid_status status ->
            fst (tasks_patch_status s userId taskListId taskId status)
            = mkResponse 403 (JError "You need edit permission to update task status")))
  /\ (forall taskId,
        tasks_delete s userId taskListId taskId
        = (mkResponse 403 (JError "You need edit permission to delete tasks"), s)).
Proof.
  intros Hview. pose proof (permission_hasAccess _ _ _ Hview) as Hacc.
  split; [|split; [|split; [|split]]].
  - unfold tasks_get. now rewrite Hacc, Hview.
  - intros b newId. split; [|split].
    + unfold tasks_post. either_way. now rewrite Hacc, Hview.
    + unfold tasks_post. either_way. rewrite Hacc, Hview. now right.
    + intros Hv. unfold tasks_post. validated Hv. now rewrite Hacc, Hview.
  - intros taskId b. split; [|split].
    + unfold tasks_put. either_way. now rewrite Hacc, Hview.
    + unfold tasks_put. either_way. rewrite Hacc, Hview. now right.
    + intros Hv. unfold tasks_put. validated Hv. now rewrite Hacc, Hview.
  - intros taskId status. split; [|split].
    + unfold tasks_patch_status. either_way. now rewrite Hacc, Hview.
    + unfold tasks_patch_status. either_way. rewrite Hacc, Hview. now right.
    + intros Hv. unfold tasks_patch_status. validated Hv. now rewrite Hacc, Hview.
  - intros taskId. unfold tasks_delete. now rewrite Hacc, Hview.
Qed.

(** C7: after a task update that answers 200, the task carries the value it
    had before in each of title, description and status that the body does
    not hold, it is the task of the response, and nothing else in the store
    has changed. *)
Theorem task_update_keeps_absent_fields s userId taskListId taskId b r s' :
  tasks_put s userId taskListId taskId b = (r, s') ->
  res_status r = 200 ->
  exists t t',
    prisma.task.findUnique s taskId = Some t
    /\ prisma.task.findUnique s' taskId = Some t'
    /\ res_body r = JTask "Task updated successfully" t'
    /\ (body_title b = None -> Task.title t' = Task.title t)
    /\ (body_description b = None -> Task.description t' = Task.description t)
    /\ (body_status b = None -> Task.status t' = Task.status t)
    /\ Task.id t' = Task.id t
    /\ Task.taskListId t' = Task.taskListId t
    /\ (forall other, other <> taskId ->
                      prisma.task.findUnique s' other = prisma.task.findUnique s other)
    /\ users s' = users s
    /\ task_lists s' = task_lists s
    /\ task_list_shares s' = task_list_shares s.
Proof.
  unfold tasks_put. open_route.
  destruct (isEmpty _); simpl; [|intros [= <- <-]; discriminate].
  destruct (hasAccess _); simpl; [|intros [= <- <-]; discriminate].
  destruct (is_string _ _); [intros [= <- <-]; discriminate|].
  unfold with_task.
  destruct (prisma.task.findUnique s taskId) as [t|] eqn:Ht;
    [|intros [= <- <-]; discriminate].
  destruct (Task.taskListId t =? taskListId)%string; simpl;
    [|intros [= <- <-]; discriminate].
  unfold prisma.task.update. rewrite Ht. intros [= <- <-] _.
  exists t. eexists. split; [reflexivity|]. split; [apply task_update_found; exact Ht|].
  split; [reflexivity|].
  repeat split; simpl.
  - intros Hb. rewrite Hb in E. simpl in E. now inversion E.
  - intros Hb. rewrite Hb in E0. simpl in E0. now inversion E0.
  - intros Hb. now rewrite Hb.
  - intros other Hne. now apply task_update_other.
Qed.

(** C10: an owner or editor who updates a task of the list with a body that
    holds none of title, description and status is answered 200 with the task
    as it is stored, and the store is left as it was. *)
Theorem task_update_empty_body s userId taskListId taskId t :
  permission (getUserPermission s taskListId userId) = Some "owner"
  \/ permission (getUserPermission s taskListId userId) = Some "edit" ->
  prisma.task.findUnique s taskId = Some t ->
  Task.taskListId t = taskListId ->
  tasks_put s userId taskListId taskId (mkTaskBody None None None)
  = (json (JTask "Task updated successfully" t), s).
Proof.
  intros Hperm Ht Hl. unfold tasks_put. simpl.
  assert (Hacc : hasAccess (getUserPermission s taskListId userId) = true)
    by (destruct Hperm as [Hp|Hp]; exact (permission_hasAccess _ _ _ Hp)).
  rewrite Hacc. simpl.
  assert (Hview : is_string (permission (getUserPermission s taskListId userId)) "view"
                  = false) by (destruct Hperm as [-> | ->]; reflexivity).
  rewrite Hview. unfold with_task. rewrite Ht, Hl, String.eqb_refl. simpl.
  unfold prisma.task.update. rewrite Ht, task_apply_nothing, task_set_nothing.
  now destruct s.
Qed.

(** C6: a task or share that exists under another task list than the one of
    the path is never changed or removed through that path; the caller who
    passes the access check of the route, with a body that passes validation,
    is answered 400 with the message that the task, or the share, does not
    belong to the task list. *)
Theorem foreign_reference_rejected s userId taskListId :
  (forall taskId t,
      prisma.task.findUnique s taskId = Some t ->
      Task.taskListId t <> taskListId ->
      (forall b, snd (tasks_put s userId taskListId taskId b) = s)
      /\ snd (tasks_delete s userId taskListId taskId) = s
      /\ (hasAccess (getUserPermission s taskListId userId) = true ->
          permission (getUserPermission s taskListId userId) <> Some "view" ->
          (forall b, valid_task_put b ->
                     fst (tasks_put s userId taskListId taskId b)
                     = mkResponse 400 (JError "Task does not belong to this task list"))
          /\ fst (tasks_delete s userId taskListId taskId)
             = mkResponse 400 (JError "Task does not belong to this task list")))
  /\ (forall shareId sh,
        prisma.taskListShare.findUnique_id s shareId = Some sh ->
        TaskListShare.taskListId sh <> taskListId ->
        (forall p, snd (shares_put s userId taskListId shareId p) = s)
        /\ snd (shares_delete s userId taskListId shareId) = s
        /\ (forall l,
              prisma.taskList.findUnique s taskListId = Some l ->
              TaskList.ownerId l = userId ->
              (forall p, valid_permission p ->
                         fst (shares_put s userId taskListId shareId p)
                         = mkResponse 400
                             (JError "Share does not belong to this task list"))
              /\ fst (shares_delete s userId taskListId shareId)
                 = mkResponse 400 (JError "Share does not belong to this task list"))).
Proof.
  split.
  - intros taskId t Ht Hne.
    assert (Hk : forall k, with_task s taskListId taskId k
                           = (mkResponse 400
                                (JError "Task does not belong to this task list"), s)).
    { intros k. unfold with_task. rewrite Ht.
      now destruct (String.eqb_spec (Task.taskListId t) taskListId). }
    split; [|split].
    + intros b. unfold tasks_put. either_way.
      destruct (hasAccess _); simpl; [|reflexivity].
      destruct (is_string _ _); [reflexivity|]. now rewrite Hk.
    + unfold tasks_delete. destruct (hasAccess _); simpl; [|reflexivity].
      destruct (is_string _ _); [reflexivity|]. now rewrite Hk.
    + intros Hacc Hview.
      assert (Hv : is_string (permission (getUserPermission s taskListId userId)) "view"
                   = false).
      { destruct (permission _) as [x|]; simpl; [|reflexivity].
        destruct (String.eqb_spec x "view"); congruence. }
      split.
      * intros b Hb. unfold tasks_put. validated Hb. now rewrite Hacc, Hv, Hk.
      * unfold tasks_delete. now rewrite Hacc, Hv, Hk.
  - intros shareId sh Hsh Hne.
    assert (Hk : forall msg k,
               snd (with_share s userId taskListId shareId msg k) = s).
    { intros msg k. unfold with_share.
      destruct (prisma.taskList.findUnique s taskListId); [|reflexivity].
      destruct (negb _); [reflexivity|]. rewrite Hsh.
      now destruct (String.eqb_spec (TaskListShare.taskListId sh) taskListId). }
    split; [|split].
    + intros p. unfold shares_put. either_way. apply Hk.
    + unfold shares_delete. apply Hk.
    + intros l Hl Hown.
      assert (Hr : forall msg k,
                 fst (with_share s userId taskListId shareId msg k)
                 = mkResponse 400 (JError "Share does not belong to this task list")).
      { intros msg k. unfold with_share. rewrite Hl, Hown, String.eqb_refl, Hsh. simpl.
        now destruct (String.eqb_spec (TaskListShare.taskListId sh) taskListId). }
      split.
      * intros p Hp. unfold shares_put. validated Hp. apply Hr.
      * unfold shares_delete. apply Hr.
Qed.

(** ** The task-list routes *)

(** C5: on a task list that exists, a caller who is not its owner, whatever
    share they hold, cannot update or delete it: the store is left as it was,
    the answer is never a success, and it is 403 for a delete and for an
    update whose title passes validation. *)
Theorem only_owner_changes_list s userId id l :
  prisma.taskList.findUnique s id = Some l ->
  TaskList.ownerId l <> userId ->
  tasklists_delete s userId id
  = (mkResponse 403 (JError "Only the owner can delete the task list"), s)
  /\ (forall title,
        snd (tasklists_put s userId id title) = s
        /\ res_status (fst (tasklists_put s userId id title)) <> 200
        /\ (valid_title title ->
            fst (tasklists_put s userId id title)
            = mkResponse 403 (JError "Only the owner can update the task list"))).
Proof.
  intros Hl Hown.
  assert (Hne : (TaskList.ownerId l =? userId)%string = false)
    by now apply String.eqb_neq.
  split.
  - unfold tasklists_delete. now rewrite Hl, Hne.
  - intros title. split; [|split].
    + unfold tasklists_put. open_route. destruct (isEmpty _); simpl; [|reflexivity].
      now rewrite Hl, Hne.
    + unfold tasklists_put. open_route. destruct (isEmpty _); simpl; [|discriminate].
      rewrite Hl, Hne. simpl. discriminate.
    + intros Hv. unfold tasklists_put. validated Hv. now rewrite Hl, Hne.
Qed.

(** ** Login *)


(** ** Every route keeps the store consistent *)

Lemma check_permission_ok v p :
  check_permission v = ([], p) -> isIn permissions p = true.
Proof.
  unfold check_permission. destruct v as [x|]; [|discriminate].
  destruct (isIn permissions x) eqn:Hin; [|discriminate]. now intros [= <-].
Qed.

Lemma errors_nil (e1 e2 : list string) :
  isEmpty (e1 ++ e2) = true -> e1 = [] /\ e2 = [].
Proof. intros He. apply isEmpty_nil in He. now apply app_eq_nil. Qed.

Lemma with_task_ok s taskListId taskId k :
  store_ok s -> (forall t, store_ok (snd (k t))) ->
  store_ok (snd (with_task s taskListId taskId k)).
Proof.
  intros Hok Hk. unfold with_task.
  destruct (prisma.task.findUnique s taskId); [|assumption].
  destruct (negb _); [assumption | apply Hk].
Qed.

Lemma with_share_ok s userId taskListId shareId msg k :
  store_ok s -> (forall sh, store_ok (snd (k sh))) ->
  store_ok (snd (with_share s userId taskListId shareId msg k)).
Proof.
  intros Hok Hk. unfold with_share.
  destruct (prisma.taskList.findUnique s taskListId); [|assumption].
  destruct (negb _); [assumption|].
  destruct (prisma.taskListShare.findUnique_id s shareId); [|assumption].
  destruct (negb _); [assumption | apply Hk].
Qed.

Lemma shares_post_ok s userId taskListId email permission newId :
  store_ok s -> store_ok (snd (shares_post s userId taskListId email permission newId)).
Proof.
  intros Hok. unfold shares_post. open_route.
  destruct (isEmpty _) eqn:Hemp; simpl; [|assumption].
  apply errors_nil in Hemp. destruct Hemp as [-> ->].
  destruct (prisma.taskList.findUnique s taskListId) as [l|] eqn:Hl; [|assumption].
  destruct (String.eqb_spec (TaskList.ownerId l) userId) as [Hown|Hown];
    simpl; [|assumption].
  destruct (prisma.user.findUnique_email s _) as [u|]; [|assumption].
  destruct (String.eqb_spec (User.id u) userId) as [Hself|Hself]; [assumption|].
  destruct (prisma.taskListShare.findUnique_taskListId_userId _ _ _); [assumption|].
  destruct (prisma.taskListShare.create _ _ _ _ _) as [[sh s']|] eqn:Hc;
    simpl; [|assumption].
  eapply share_create_ok; eauto using check_permission_ok. congruence.
Qed.

Lemma handle_ok s r : store_ok s -> store_ok (snd (handle s r)).
Proof.
  intros Hok. destruct r; simpl.
  - unfold auth_register. either_way_ok.
    destruct (prisma.user.findUnique_email s _); [assumption|].
    destruct (prisma.user.create _ _ _ _) as [[u s']|] eqn:Hc; simpl; [|assumption].
    eapply user_create_ok; eauto.
  - unfold auth_login. either_way_ok.
    destruct (prisma.user.findUnique_email s _); [|assumption].
    now destruct (negb _).
  - unfold tasklists_post. either_way_ok.
    destruct (prisma.taskList.create _ _ _ _) as [[l s']|] eqn:Hc; simpl; [|assumption].
    eapply taskList_create_ok; eauto.
  - unfold tasklists_put. either_way_ok.
    destruct (prisma.taskList.findUnique s id); [|assumption].
    destruct (negb _); [assumption|].
    destruct (prisma.taskList.update _ _ _) as [[l s']|] eqn:Hc; simpl; [|assumption].
    eapply taskList_update_ok; eauto.
  - unfold tasklists_delete.
    destruct (prisma.taskList.findUnique s id); [|assumption].
    destruct (negb _); [assumption|].
    destruct (prisma.taskList.delete _ _) as [s'|] eqn:Hc; simpl; [|assumption].
    eapply taskList_delete_ok; eauto.
  - unfold tasks_get. now destruct (negb _).
  - unfold tasks_post. either_way_ok.
    destruct (negb _); [assumption|]. destruct (is_string _ _); [assumption|].
    destruct (prisma.task.create _ _ _ _ _ _) as [[t s']|] eqn:Hc; simpl; [|assumption].
    eapply task_create_ok; eauto.
  - unfold tasks_put. either_way_ok.
    destruct (negb _); [assumption|]. destruct (is_string _ _); [assumption|].
    apply with_task_ok; [assumption|]. intros _.
    destruct (prisma.task.update _ _ _) as [[t s']|] eqn:Hc; simpl; [|assumption].
    eapply task_update_ok; eauto.
  - unfold tasks_patch_status. either_way_ok.
    destruct (negb _); [assumption|]. destruct (is_string _ _); [assumption|].
    apply with_task_ok; [assumption|]. intros _.
    destruct (prisma.task.update _ _ _) as [[t s']|] eqn:Hc; simpl; [|assumption].
    eapply task_update_ok; eauto.
  - unfold tasks_delete.
    destruct (negb _); [assumption|]. destruct (is_string _ _); [assumption|].
    apply with_task_ok; [assumption|]. intros _.
    destruct (prisma.task.delete _ _) as [s'|] eqn:Hc; simpl; [|assumption].
    eapply task_delete_ok; eauto.
  - now apply shares_post_ok.
  - unfold shares_put. open_route.
    destruct (isEmpty e) eqn:Hemp; simpl; [|assumption].
    apply isEmpty_nil in Hemp. subst e.
    apply with_share_ok; [assumption|]. intros _.
    destruct (prisma.taskListShare.update _ _ _) as [[sh s']|] eqn:Hc;
      simpl; [|assumption].
    eapply share_update_ok; eauto using check_permission_ok.
  - unfold shares_delete. apply with_share_ok; [assumption|]. intros _.
    destruct (prisma.taskListShare.delete _ _) as [s'|] eqn:Hc; simpl; [|assumption].
    eapply share_delete_ok; eauto.
Qed.

Lemma reachable_ok s : reachable s -> store_ok s.
Proof.
  induction 1 as [|s r _ IH]; [exact store_ok_empty | now apply handle_ok].
Qed.

Lemma reachable_run s rs : reachable s -> reachable (run s rs).
Proof.
  unfold run. revert s. induction rs as [|r rs IH]; simpl; intros s Hs; [assumption|].
  apply IH. now constructor.
Qed.

(** ** The resolved permission *)

Lemma isIn_permissions p :
  isIn permissions p = true -> p = "view" \/ p = "edit".
Proof.
  unfold isIn, permissions. intros Hin. apply existsb_exists in Hin.
  destruct Hin as [x [Hin Hx]]. apply String.eqb_eq in Hx. subst x.
  destruct Hin as [<- | [<- | []]]; auto.
Qed.

Lemma NoDup_map_eq {A B} (f : A -> B) l a b :
  NoDup (map f l) -> In a l -> In b l -> f a = f b -> a = b.
Proof.
  induction l as [|x l IH]; simpl; intros Hnd Ha Hb Hf; [contradiction|].
  inversion Hnd as [|? ? Hx Hnd']; subst.
  destruct Ha as [-> | Ha], Hb as [-> | Hb]; auto.
  - exfalso. apply Hx. rewrite Hf. now apply in_map.
  - exfalso. apply Hx. rewrite <- Hf. now apply in_map.
Qed.

Lemma hd_error_In {A} (l : list A) x : hd_error l = Some x -> In x l.
Proof. destruct l; simpl; [discriminate | intros [= ->]; now left]. Qed.

Lemma hd_error_nil {A} (l : list A) : hd_error l = None -> l = [].
Proof. destruct l; simpl; [reflexivity | discriminate]. Qed.

(** The shares the permission helper looks at are those of the list and
    the user. *)
Lemma in_user_shares s taskListId userId sh :
  In sh (filter (fun sh => TaskListShare.userId sh =? userId)%string
                (shares_of s taskListId))
  <-> In sh (task_list_shares s)
      /\ TaskListShare.taskListId sh = taskListId
      /\ TaskListShare.userId sh = userId.
Proof.
  unfold shares_of. rewrite !filter_In, !String.eqb_eq. tauto.
Qed.

(** C3: on a task list of a reachable store the helper resolves one of
    owner, edit, view and no permission: owner exactly for the owner of the
    list; for another user the permission of their share on the list when
    there is one, and none when there is not. *)
Theorem resolved_permission s l userId :
  reachable s ->
  In l (task_lists s) ->
  let p := permission (getUserPermission s (TaskList.id l) userId) in
  (p = None \/ p = Some "view" \/ p = Some "edit" \/ p = Some "owner")
  /\ (p = Some "owner" <-> TaskList.ownerId l = userId)
  /\ (TaskList.ownerId l <> userId ->
      forall sh, In sh (task_list_shares s) ->
                 TaskListShare.taskListId sh = TaskList.id l ->
                 TaskListShare.userId sh = userId ->
                 p = Some (TaskListShare.permission sh))
  /\ (TaskList.ownerId l <> userId ->
      (forall sh, In sh (task_list_shares s) ->
                  TaskListShare.taskListId sh = TaskList.id l ->
                  TaskListShare.userId sh <> userId) ->
      p = None)
  /\ (hasAccess (getUserPermission s (TaskList.id l) userId) = true <-> p <> None).
Proof.
  intros Hreach Hl. apply reachable_ok in Hreach. destruct Hreach as [H1 H2 H3 H4 H5].
  pose proof (find_by_NoDup TaskList.id _ _ H1 Hl) as Hf.
  unfold getUserPermission, prisma.taskList.findUnique. rewrite Hf.
  destruct (String.eqb_spec (TaskList.ownerId l) userId) as [Hown|Hown]; simpl.
  - repeat split; try tauto; try discriminate.
  - destruct (hd_error _) as [sh0|] eqn:Hhd; simpl.
    + apply hd_error_In, in_user_shares in Hhd. destruct Hhd as (Hin0 & Hl0 & Hu0).
      destruct (isIn_permissions _ (H3 sh0 Hin0)) as [Hp|Hp]; rewrite Hp.
      * repeat split; try tauto; try discriminate; try (intros [= ]).
        -- intros _ sh Hin Hlid Hu. f_equal. rewrite <- Hp. f_equal.
           apply (NoDup_map_eq pair_of _ _ _ H2 Hin0 Hin). unfold pair_of. congruence.
        -- intros _ Hno. exfalso. now apply (Hno sh0).
      * repeat split; try tauto; try discriminate; try (intros [= ]).
        -- intros _ sh Hin Hlid Hu. f_equal. rewrite <- Hp. f_equal.
           apply (NoDup_map_eq pair_of _ _ _ H2 Hin0 Hin). unfold pair_of. congruence.
        -- intros _ Hno. exfalso. now apply (Hno sh0).
    + apply hd_error_nil in Hhd.
      repeat split; try tauto; try discriminate.
      intros _ sh Hin Hlid Hu. exfalso.
      assert (Hs : In sh []) by (rewrite <- Hhd; apply in_user_shares; auto).
      contradiction.
Qed.

(** ** Granting a share *)

Lemma share_pair_found s taskListId userId sh :
  In sh (task_list_shares s) ->
  TaskListShare.taskListId sh = taskListId ->
  TaskListShare.userId sh = userId ->
  exists sh',
    prisma.taskListShare.findUnique_taskListId_userId s taskListId userId = Some sh'.
Proof.
  intros Hin Hl Hu. unfold prisma.taskListShare.findUnique_taskListId_userId.
  destruct (find _ _) as [sh'|] eqn:Hf; [eauto|].
  apply (find_none _ _ Hf) in Hin.
  unfold prisma.taskListShare.is_pair in Hin.
  now rewrite Hl, Hu, !String.eqb_refl in Hin.
Qed.

(** C1: when a user already holds a share on a task list, a request to share
    the list with that user leaves the store as it was; it is answered 400
    with the message that the list is already shared with this user when it
    comes, with a valid body, from the owner of the list. *)
Theorem share_again_rejected s userId taskListId e permission newId u sh :
  reachable s ->
  prisma.user.findUnique_email s (normalizeEmail e) = Some u ->
  In sh (task_list_shares s) ->
  TaskListShare.taskListId sh = taskListId ->
  TaskListShare.userId sh = User.id u ->
  snd (shares_post s userId taskListId (Some e) permission newId) = s
  /\ (forall l,
        valid_share (Some e) permission ->
        prisma.taskList.findUnique s taskListId = Some l ->
        TaskList.ownerId l = userId ->
        fst (shares_post s userId taskListId (Some e) permission newId)
        = mkResponse 400 (JError "Task list is already shared with this user")).
Proof.
  intros Hreach Hu Hin Hlid Huid.
  destruct (share_pair_found s sh Hin Hlid Huid) as [sh' Hpair].
  split.
  - unfold shares_post. open_route. simpl in *. injection E as _ <-.
    destruct (isEmpty _); simpl; [|reflexivity].
    destruct (prisma.taskList.findUnique s taskListId); [|reflexivity].
    destruct (negb _); [reflexivity|]. rewrite Hu.
    destruct (User.id u =? userId)%string; [reflexivity|]. now rewrite Hpair.
  - intros l Hv Hl <-.
    assert (Hself : (User.id u =? TaskList.ownerId l)%string = false).
    { apply String.eqb_neq. intros Heq.
      apply find_by_Some in Hl. destruct Hl as [Hl Hid].
      apply (ok_no_self_share (reachable_ok Hreach) sh l Hin Hl); congruence. }
    unfold shares_post. validated Hv. simpl in *. injection E as _ <-.
    now rewrite Hl, String.eqb_refl, Hu, Hself, Hpair.
Qed.

(** C8: a request to share a task list with the user who owns it creates no
    share, and when it comes, with a valid body, from the owner it is
    answered 400 with the message that one cannot share with oneself; in a
    reachable store no share on a task list is held by the owner of the
    list. *)
Theorem no_share_with_owner s :
  reachable s ->
  (forall userId taskListId e permission newId l u,
      prisma.taskList.findUnique s taskListId = Some l ->
      prisma.user.findUnique_email s (normalizeEmail e) = Some u ->
      User.id u = TaskList.ownerId l ->
      snd (shares_post s userId taskListId (Some e) permission newId) = s
      /\ (valid_share (Some e) permission ->
          userId = TaskList.ownerId l ->
          fst (shares_post s userId taskListId (Some e) permission newId)
          = mkResponse 400 (JError "You cannot share a task list with yourself")))
  /\ (forall l sh,
        In l (task_lists s) ->
        In sh (task_list_shares s) ->
        TaskListShare.taskListId sh = TaskList.id l ->
        TaskListShare.userId sh <> TaskList.ownerId l).
Proof.
  intros Hreach. split.
  - intros userId taskListId e permission newId l u Hl Hu Hid. split.
    + unfold shares_post. open_route. simpl in *. injection E as _ <-.
      destruct (isEmpty _); simpl; [|reflexivity]. rewrite Hl.
      destruct (String.eqb_spec (TaskList.ownerId l) userId) as [Hown|Hown];
        simpl; [|reflexivity].
      rewrite Hu. now rewrite Hid, Hown, String.eqb_refl.
    + intros Hv ->. unfold shares_post. validated Hv. simpl in *. injection E as _ <-.
      now rewrite Hl, String.eqb_refl, Hu, Hid, String.eqb_refl.
  - intros l sh Hl Hsh Hid Heq.
    apply (ok_no_self_share (reachable_ok Hreach) sh l Hsh Hl); congruence.
Qed.

(** ** What validation leaves in a request *)

Lemma check_title_ok m v t : check_title m v = ([], t) -> title_ok t.
Proof.
  unfold check_title, title_ok. intros [= He Ht]. rewrite Ht in He.
  apply app_eq_nil in He. destruct He as [He1 He2]. split.
  - intros Hempty. rewrite Hempty in He1. discriminate.
  - destruct (too_long 200 t); [discriminate | reflexivity].
Qed.

Lemma check_description_ok v d :
  check_description v = ([], d) -> description_ok d /\ description_ok (or_null d).
Proof.
  unfold check_description. destruct v as [x|]; [|intros [= <-]; simpl; auto].
  destruct (too_long 1000 (trim x)) eqn:Hlong; [discriminate|]. intros [= <-].
  simpl. destruct (trim x =? EmptyString)%string; simpl; auto.
Qed.

Lemma check_status_optional_ok v :
  check_status_optional v = [] ->
  or_default v "pending" = match v with Some x => x | None => "pending" end
  /\ isIn statuses (or_default v "pending") = true.
Proof.
  unfold check_status_optional, or_default. destruct v as [x|]; [|auto].
  destruct (isIn statuses x) eqn:Hin; [intros _|discriminate].
  destruct (String.eqb_spec x EmptyString) as [Hx|_]; [|auto].
  rewrite Hx in Hin. discriminate.
Qed.

Lemma check_status_ok v x : check_status v = ([], x) -> isIn statuses x = true /\ v = Some x.
Proof.
  unfold check_status. destruct v as [y|]; [|discriminate].
  destruct (isIn statuses y) eqn:Hin; [|discriminate]. now intros [= <-].
Qed.

(** ** The task routes, when they go through *)

Lemma getUserPermission_same s s' taskListId userId :
  task_lists s' = task_lists s ->
  task_list_shares s' = task_list_shares s ->
  getUserPermission s' taskListId userId = getUserPermission s taskListId userId.
Proof.
  unfold getUserPermission, prisma.taskList.findUnique, shares_of. now intros -> ->.
Qed.

Lemma hasAccess_list s taskListId userId :
  hasAccess (getUserPermission s taskListId userId) = true ->
  has_key TaskList.id taskListId (task_lists s) = true.
Proof.
  unfold getUserPermission.
  destruct (prisma.taskList.findUnique s taskListId) as [l|] eqn:Hl; [|discriminate].
  intros _. apply find_by_Some in Hl. apply has_key_true. now exists l.
Qed.

Lemma not_view p : p <> Some "view" -> is_string p "view" = false.
Proof.
  destruct p as [x|]; simpl; [|reflexivity]. intros Hp.
  destruct (String.eqb_spec x "view"); congruence.
Qed.

Lemma findMany_created s t :
  prisma.task.findMany
    (mkStore (users s) (task_lists s) (tasks s ++ [t]) (task_list_shares s))
    (Task.taskListId t)
  = t :: prisma.task.findMany s (Task.taskListId t).
Proof.
  unfold prisma.task.findMany. simpl. rewrite filter_app. simpl.
  rewrite String.eqb_refl. now rewrite rev_unit.
Qed.

(** X1: a caller who may edit a task list and sends a valid task with an
    identifier that is not taken is answered 201; the task is stored under
    that list with the status of the body, pending when the body has none,
    and every reader of the list then gets it first, before the tasks that
    were there. *)
Theorem task_created_is_listed s userId taskListId b newId :
  hasAccess (getUserPermission s taskListId userId) = true ->
  permission (getUserPermission s taskListId userId) <> Some "view" ->
  valid_task_post b ->
  has_key Task.id newId (tasks s) = false ->
  exists t s',
    tasks_post s userId taskListId b newId
    = (mkResponse 201 (JTask "Task created successfully" t), s')
    /\ Task.id t = newId
    /\ Task.taskListId t = taskListId
    /\ Task.status t = match body_status b with Some st => st | None => "pending" end
    /\ tasks s' = (tasks s ++ [t])%list
    /\ users s' = users s
    /\ task_lists s' = task_lists s
    /\ task_list_shares s' = task_list_shares s
    /\ (forall reader,
          hasAccess (getUserPermission s taskListId reader) = true ->
          tasks_get s' reader taskListId
          = (json (JTasks (t :: prisma.task.findMany s taskListId)
                          (permission (getUserPermission s taskListId reader))), s')).
Proof.
  intros Hacc Hview Hv Hfresh.
  pose proof (hasAccess_list _ _ _ Hacc) as Hlist.
  destruct (check_status_optional_ok (body_status b) (proj2 (proj2 Hv))) as [Hst _].
  unfold tasks_post. validated Hv.
  rewrite Hacc, (not_view Hview). simpl.
  unfold prisma.task.create. rewrite Hfresh, Hlist. simpl.
  eexists. eexists. split; [reflexivity|]. simpl.
  repeat (split; [reflexivity || exact Hst|]).
  intros reader Hreader. unfold tasks_get.
  erewrite getUserPermission_same with (s := s); [|reflexivity|reflexivity].
  rewrite Hreader. simpl. f_equal. f_equal. f_equal.
  exact (findMany_created s (Task.mk newId _ _ _ taskListId)).
Qed.

Lemma find_by_removed {A} (key : A -> string) k rows :
  find_by key k (filter (fun r => negb (key r =? k)%string) rows) = None.
Proof.
  unfold find_by. induction rows as [|x rows IH]; simpl; [reflexivity|].
  destruct (String.eqb_spec (key x) k) as [Hk|Hk]; simpl; [exact IH|].
  destruct (String.eqb_spec (key x) k); [contradiction | exact IH].
Qed.

Lemma find_by_kept {A} (key : A -> string) k k' rows :
  k <> k' ->
  find_by key k (filter (fun r => negb (key r =? k')%string) rows) = find_by key k rows.
Proof.
  intros Hne. unfold find_by. induction rows as [|x rows IH]; simpl; [reflexivity|].
  destruct (String.eqb_spec (key x) k') as [Hk'|Hk']; simpl.
  - destruct (String.eqb_spec (key x) k) as [Hk|Hk]; [congruence | exact IH].
  - destruct (key x =? k)%string; [reflexivity | exact IH].
Qed.

(** X2: when a task is deleted (the route answers 200) it is no longer
    found, every other task is found as before, and users, task lists and
    shares are as they were. *)
Theorem task_deleted_is_gone s userId taskListId taskId r s' :
  tasks_delete s userId taskListId taskId = (r, s') ->
  res_status r = 200 ->
  prisma.task.findUnique s' taskId = None
  /\ (forall t, In t (tasks s') -> In t (tasks s) /\ Task.id t <> taskId)
  /\ (forall other, other <> taskId ->
                    prisma.task.findUnique s' other = prisma.task.findUnique s other)
  /\ users s' = users s
  /\ task_lists s' = task_lists s
  /\ task_list_shares s' = task_list_shares s.
Proof.
  unfold tasks_delete.
  destruct (hasAccess _); simpl; [|intros [= <- <-]; discriminate].
  destruct (is_string _ _); [intros [= <- <-]; discriminate|].
  unfold with_task.
  destruct (prisma.task.findUnique s taskId) as [t|] eqn:Ht;
    [|intros [= <- <-]; discriminate].
  destruct (Task.taskListId t =? taskListId)%string; simpl;
    [|intros [= <- <-]; discriminate].
  unfold prisma.task.delete. rewrite Ht. intros [= <- <-] _.
  unfold prisma.task.findUnique. simpl.
  split; [apply find_by_removed|]. split.
  - intros x Hx. apply filter_In in Hx. destruct Hx as [Hx Hne]. split; [assumption|].
    intros Heq. rewrite Heq, String.eqb_refl in Hne. discriminate.
  - split; [|auto]. intros other Hne. now apply find_by_kept.
Qed.

(** X3: a caller who may edit the list can set the status of one of its
    tasks to any of the three statuses, whatever status the task has: the
    route answers 200, the task carries the new status and its title and
    description as before, and no other task changes. *)
Theorem task_status_set_freely s userId taskListId taskId t status :
  hasAccess (getUserPermission s taskListId userId) = true ->
  permission (getUserPermission s taskListId userId) <> Some "view" ->
  prisma.task.findUnique s taskId = Some t ->
  Task.taskListId t = taskListId ->
  isIn statuses status = true ->
  exists t' s',
    tasks_patch_status s userId taskListId taskId (Some status)
    = (json (JTask "Task status updated successfully" t'), s')
    /\ prisma.task.findUnique s' taskId = Some t'
    /\ Task.status t' = status
    /\ Task.title t' = Task.title t
    /\ Task.description t' = Task.description t
    /\ Task.taskListId t' = Task.taskListId t
    /\ (forall other, other <> taskId ->
                      prisma.task.findUnique s' other = prisma.task.findUnique s other).
Proof.
  intros Hacc Hview Ht Hl Hin. unfold tasks_patch_status, check_status.
  rewrite Hin. simpl.
  rewrite Hacc, (not_view Hview). simpl.
  unfold with_task. rewrite Ht, Hl, String.eqb_refl. simpl.
  unfold prisma.task.update. rewrite Ht.
  eexists. eexists. split; [reflexivity|].
  split; [apply task_update_found; exact Ht|].
  repeat (split; [reflexivity || exact Hl|]).
  intros other Hne. now apply task_update_other.
Qed.

(** ** The task-list routes, when they go through *)

Lemma filter_filter_implied {A} (p q : A -> bool) (l : list A) :
  (forall a, p a = true -> q a = true) ->
  filter p (filter q l) = filter p l.
Proof.
  intros Hpq. induction l as [|a l IH]; simpl; [reflexivity|].
  destruct (q a) eqn:Hq; simpl.
  - now rewrite IH.
  - destruct (p a) eqn:Hp; [|exact IH]. apply Hpq in Hp. congruence.
Qed.

Lemma shares_of_after_delete s id other :
  other <> id ->
  filter (fun sh => TaskListShare.taskListId sh =? other)%string
         (filter (fun sh => negb (TaskListShare.taskListId sh =? id)%string)
                 (task_list_shares s))
  = shares_of s other.
Proof.
  intros Hne. unfold shares_of. apply filter_filter_implied.
  intros sh Hsh. apply String.eqb_eq in Hsh. rewrite Hsh.
  now destruct (String.eqb_spec other id).
Qed.

(** X4: when a task list is deleted (the route answers 200) the caller was
    its owner; no row of the list, of its tasks or of its shares is left and
    nobody has access to it any more, while users, the other task lists,
    their tasks, their shares and the permissions on them are as before. *)
Theorem list_delete_cascades s userId id r s' :
  tasklists_delete s userId id = (r, s') ->
  res_status r = 200 ->
  (exists l, prisma.taskList.findUnique s id = Some l /\ TaskList.ownerId l = userId)
  /\ prisma.taskList.findUnique s' id = None
  /\ (forall l, In l (task_lists s') <-> In l (task_lists s) /\ TaskList.id l <> id)
  /\ (forall t, In t (tasks s') <-> In t (tasks s) /\ Task.taskListId t <> id)
  /\ (forall sh, In sh (task_list_shares s')
                 <-> In sh (task_list_shares s) /\ TaskListShare.taskListId sh <> id)
  /\ users s' = users s
  /\ (forall u, hasAccess (getUserPermission s' id u) = false)
  /\ (forall other u, other <> id ->
                      getUserPermission s' other u = getUserPermission s other u).
Proof.
  unfold tasklists_delete.
  destruct (prisma.taskList.findUnique s id) as [l|] eqn:Hl;
    [|intros [= <- <-]; discriminate].
  destruct (String.eqb_spec (TaskList.ownerId l) userId) as [Hown|Hown]; simpl;
    [|intros [= <- <-]; discriminate].
  unfold prisma.taskList.delete. rewrite Hl. intros [= <- <-] _.
  assert (Hgone : prisma.taskList.findUnique
                    (mkStore (users s)
                       (filter (fun l => negb (TaskList.id l =? id)%string) (task_lists s))
                       (filter (fun t => negb (Task.taskListId t =? id)%string) (tasks s))
                       (filter (fun sh => negb (TaskListShare.taskListId sh =? id)%string)
                               (task_list_shares s))) id = None)
    by apply find_by_removed.
  assert (Hneq : forall x, negb (x =? id)%string = true <-> x <> id).
  { intros x. destruct (String.eqb_spec x id); simpl; split; congruence. }
  split; [eauto|]. split; [exact Hgone|].
  split; [intros x; simpl; rewrite filter_In, Hneq; tauto|].
  split; [intros x; simpl; rewrite filter_In, Hneq; tauto|].
  split; [intros x; simpl; rewrite filter_In, Hneq; tauto|].
  split; [reflexivity|]. split.
  - intros u. now rewrite (getUserPermission_missing _ _ u Hgone).
  - intros other u Hne. unfold getUserPermission, prisma.taskList.findUnique. simpl.
    rewrite (find_by_kept TaskList.id (task_lists s) Hne).
    destruct (find_by TaskList.id other (task_lists s)) as [tl|] eqn:Htl; [|reflexivity].
    apply find_by_Some in Htl. destruct Htl as [_ Hid]. rewrite Hid.
    unfold shares_of at 1. simpl. now rewrite (shares_of_after_delete s Hne).
Qed.

Lemma find_by_set_title id title k rows :
  find_by TaskList.id k (map (prisma.taskList.set_title id title) rows)
  = option_map (prisma.taskList.set_title id title) (find_by TaskList.id k rows).
Proof. apply find_by_map. intros r. apply set_title_id. Qed.

(** X5: when a task list is updated (the route answers 200) the caller was
    its owner; the list carries the trimmed title of the body, which is not
    empty and at most 200 long, and the same owner; the other task lists,
    the tasks, the shares, the users and everybody's permission on every
    list are as before. *)
Theorem list_update_renames_only s userId id title r s' :
  tasklists_put s userId id title = (r, s') ->
  res_status r = 200 ->
  exists l l',
    prisma.taskList.findUnique s id = Some l
    /\ TaskList.ownerId l = userId
    /\ prisma.taskList.findUnique s' id = Some l'
    /\ TaskList.title l' = snd (check_title "Title is required" title)
    /\ title_ok (TaskList.title l')
    /\ TaskList.ownerId l' = TaskList.ownerId l
    /\ (forall other, other <> id ->
                      prisma.taskList.findUnique s' other
                      = prisma.taskList.findUnique s other)
    /\ users s' = users s
    /\ tasks s' = tasks s
    /\ task_list_shares s' = task_list_shares s
    /\ (forall x u, permission (getUserPermission s' x u)
                    = permission (getUserPermission s x u)).
Proof.
  unfold tasklists_put. open_route.
  destruct (isEmpty e) eqn:Hemp; simpl; [|intros [= <- <-]; discriminate].
  apply isEmpty_nil in Hemp. subst e.
  destruct (prisma.taskList.findUnique s id) as [l|] eqn:Hl;
    [|intros [= <- <-]; discriminate].
  destruct (String.eqb_spec (TaskList.ownerId l) userId) as [Hown|Hown]; simpl;
    [|intros [= <- <-]; discriminate].
  unfold prisma.taskList.update. rewrite Hl. intros [= <- <-] _.
  pose proof (find_by_Some _ _ _ Hl) as [_ Hid].
  exists l, (prisma.taskList.set_title id x l).
  split; [reflexivity|]. split; [exact Hown|].
  assert (Hfind : forall k,
             prisma.taskList.findUnique
               (mkStore (users s) (map (prisma.taskList.set_title id x) (task_lists s))
                        (tasks s) (task_list_shares s)) k
             = option_map (prisma.taskList.set_title id x)
                          (prisma.taskList.findUnique s k))
    by (intros k; apply find_by_set_title).
  split; [rewrite Hfind, Hl; reflexivity|].
  assert (Htitle : TaskList.title (prisma.taskList.set_title id x l) = x).
  { unfold prisma.taskList.set_title. now rewrite Hid, String.eqb_refl. }
  split; [exact Htitle|]. split; [rewrite Htitle; exact (check_title_ok E)|].
  split; [apply set_title_ownerId|]. split.
  - intros other Hne. rewrite Hfind.
    destruct (prisma.taskList.findUnique s other) as [o|] eqn:Ho; [|reflexivity].
    simpl. f_equal. unfold prisma.taskList.set_title.
    apply find_by_Some in Ho. destruct Ho as [_ Ho]. rewrite Ho.
    now destruct (String.eqb_spec other id).
  - repeat (split; [reflexivity|]). intros k u. unfold getUserPermission.
    rewrite Hfind. destruct (prisma.taskList.findUnique s k) as [o|]; [|reflexivity].
    simpl. rewrite set_title_ownerId, set_title_id. unfold shares_of. simpl.
    destruct (TaskList.ownerId o =? u)%string; [reflexivity|].
    now destruct (hd_error _).
Qed.

(** ** Keys, references and stored values in a reachable store *)

Lemma has_key_app_l {A} (key : A -> string) k rows more :
  has_key key k rows = true -> has_key key k (rows ++ more) = true.
Proof. unfold has_key. rewrite existsb_app. now intros ->. Qed.

Lemma has_key_last {A} (key : A -> string) rows r :
  has_key key (key r) (rows ++ [r]) = true.
Proof.
  unfold has_key. rewrite existsb_app. simpl. rewrite String.eqb_refl.
  now rewrite orb_true_r.
Qed.

Lemma NoDup_key_snoc {A} (key : A -> string) rows r :
  NoDup (map key rows) -> has_key key (key r) rows = false ->
  NoDup (map key (rows ++ [r])).
Proof.
  intros Hnd Hfresh. rewrite map_app. simpl. apply NoDup_snoc; [assumption|].
  intros Hin. apply in_map_iff in Hin. destruct Hin as [x [Hx Hin]].
  now apply (@has_key_false _ _ _ _ Hfresh) in Hin.
Qed.

Lemma wf_empty : wf empty_store.
Proof.
  repeat split; simpl; try constructor; intros; contradiction.
Qed.

Lemma user_create_wf s newId email password u s' :
  prisma.user.create s newId email password = Some (u, s') -> wf s -> wf s'.
Proof.
  unfold prisma.user.create.
  destruct (has_key User.id newId (users s)) eqn:Hid; [discriminate|].
  destruct (has_key User.email email (users s)) eqn:Hemail; [discriminate|]. simpl.
  intros [= _ <-] ([K1 K2 K3 K4] & [R1 R2 R3] & D).
  split; [|split]; [constructor|constructor|destruct D; constructor; assumption];
    cbn [users tasks task_lists task_list_shares]; try assumption.
  - now apply NoDup_key_snoc.
  - now apply NoDup_key_snoc.
  - intros sh Hsh. apply has_key_app_l. now apply R2.
  - intros l Hl. apply has_key_app_l. now apply R3.
Qed.

Lemma taskList_create_wf s newId title ownerId l s' :
  prisma.taskList.create s newId title ownerId = Some (l, s') ->
  title_ok title -> wf s -> wf s'.
Proof.
  unfold prisma.taskList.create.
  destruct (has_key TaskList.id newId (task_lists s)); [discriminate|].
  destruct (has_key User.id ownerId (users s)) eqn:Hown; [|discriminate]. simpl.
  intros [= _ <-] Htitle (K & [R1 R2 R3] & [D1 D2 D3 D4]).
  split; [|split]; [destruct K; constructor; assumption|constructor|constructor];
    cbn [users tasks task_lists task_list_shares]; try assumption.
  - intros t Ht. apply has_key_app_l. now apply R1.
  - intros x Hx. apply in_app_or in Hx. destruct Hx as [Hx | [<- | []]]; auto.
  - intros x Hx. apply in_app_or in Hx. destruct Hx as [Hx | [<- | []]]; auto.
Qed.

Lemma has_key_set_title id title k rows :
  has_key TaskList.id k (map (prisma.taskList.set_title id title) rows)
  = has_key TaskList.id k rows.
Proof.
  unfold has_key. induction rows as [|x rows IH]; simpl; [reflexivity|].
  now rewrite set_title_id, IH.
Qed.

Lemma taskList_update_wf s id title l s' :
  prisma.taskList.update s id title = Some (l, s') ->
  title_ok title -> wf s -> wf s'.
Proof.
  unfold prisma.taskList.update.
  destruct (prisma.taskList.findUnique s id); [|discriminate].
  intros [= _ <-] Htitle (K & [R1 R2 R3] & [D1 D2 D3 D4]).
  split; [|split]; [destruct K; constructor; assumption|constructor|constructor];
    cbn [users tasks task_lists task_list_shares]; try assumption.
  - intros x Hx. rewrite has_key_set_title. now apply R1.
  - intros x Hx. apply in_map_iff in Hx. destruct Hx as [y [<- Hy]].
    rewrite set_title_ownerId. now apply R3.
  - intros x Hx. apply in_map_iff in Hx. destruct Hx as [y [<- Hy]].
    unfold prisma.taskList.set_title.
    destruct (TaskList.id y =? id)%string; cbn [TaskList.title]; auto.
Qed.

Lemma taskList_delete_wf s id s' :
  prisma.taskList.delete s id = Some s' -> wf s -> wf s'.
Proof.
  unfold prisma.taskList.delete.
  destruct (prisma.taskList.findUnique s id); [|discriminate].
  intros [= <-] ([K1 K2 K3 K4] & [R1 R2 R3] & [D1 D2 D3 D4]).
  split; [|split]; constructor; cbn [users tasks task_lists task_list_shares];
    try assumption; try (now apply NoDup_map_filter);
    try (intros x Hx; apply filter_In in Hx; destruct Hx as [Hx Hne]; now auto).
  intros y Hy. apply filter_In in Hy. destruct Hy as [Hy Hne].
  apply has_key_true.
  destruct (proj1 (@has_key_true _ _ _ _) (R1 y Hy)) as [x [Hin Hx]].
  exists x. split; [|assumption]. apply filter_In. split; [assumption|].
  now rewrite Hx.
Qed.

Lemma task_create_wf s newId title description status taskListId t s' :
  prisma.task.create s newId title description status taskListId = Some (t, s') ->
  title_ok title -> description_ok description -> isIn statuses status = true ->
  wf s -> wf s'.
Proof.
  unfold prisma.task.create.
  destruct (has_key Task.id newId (tasks s)) eqn:Hid; [discriminate|].
  destruct (has_key TaskList.id taskListId (task_lists s)) eqn:Hl; [|discriminate].
  simpl. intros [= _ <-] Htitle Hdesc Hst ([K1 K2 K3 K4] & [R1 R2 R3] & [D1 D2 D3 D4]).
  split; [|split]; constructor; cbn [users tasks task_lists task_list_shares];
    try assumption;
    try (intros x Hx; apply in_app_or in Hx; destruct Hx as [Hx | [<- | []]]; now auto).
  now apply NoDup_key_snoc.
Qed.

Lemma set_data_id id d t : Task.id (prisma.task.set_data id d t) = Task.id t.
Proof. unfold prisma.task.set_data. now destruct (Task.id t =? id)%string. Qed.

Lemma set_data_taskListId id d t :
  Task.taskListId (prisma.task.set_data id d t) = Task.taskListId t.
Proof. unfold prisma.task.set_data. now destruct (Task.id t =? id)%string. Qed.

Lemma task_update_wf s id d t s' :
  prisma.task.update s id d = Some (t, s') ->
  (forall x, prisma.task.data_title d = Some x -> title_ok x) ->
  (forall x, prisma.task.data_description d = Some x -> too_long 1000 x = false) ->
  (forall x, prisma.task.data_status d = Some x -> isIn statuses x = true) ->
  wf s -> wf s'.
Proof.
  unfold prisma.task.update.
  destruct (prisma.task.findUnique s id); [|discriminate].
  intros [= _ <-] Htitle Hdesc Hst ([K1 K2 K3 K4] & [R1 R2 R3] & [D1 D2 D3 D4]).
  split; [|split]; constructor; cbn [users tasks task_lists task_list_shares];
    try assumption.
  - rewrite map_map. erewrite map_ext; [exact K3|]. intros x. apply set_data_id.
  - intros x Hx. apply in_map_iff in Hx. destruct Hx as [y [<- Hy]].
    rewrite set_data_taskListId. now apply R1.
  - intros x Hx. apply in_map_iff in Hx. destruct Hx as [y [<- Hy]].
    unfold prisma.task.set_data, prisma.task.apply_data.
    destruct (Task.id y =? id)%string; cbn [Task.status]; [|now apply D1].
    destruct (prisma.task.data_status d); auto.
  - intros x Hx. apply in_map_iff in Hx. destruct Hx as [y [<- Hy]].
    unfold prisma.task.set_data, prisma.task.apply_data.
    destruct (Task.id y =? id)%string; cbn [Task.title]; [|now apply D2].
    destruct (prisma.task.data_title d); auto.
  - intros x Hx. apply in_map_iff in Hx. destruct Hx as [y [<- Hy]].
    unfold prisma.task.set_data, prisma.task.apply_data.
    destruct (Task.id y =? id)%string; cbn [Task.description]; [|now apply D3].
    destruct (prisma.task.data_description d) eqn:Hd; [|now apply D3].
    simpl. now apply Hdesc.
Qed.

Lemma task_delete_wf s id s' :
  prisma.task.delete s id = Some s' -> wf s -> wf s'.
Proof.
  unfold prisma.task.delete.
  destruct (prisma.task.findUnique s id); [|discriminate].
  intros [= <-] ([K1 K2 K3 K4] & [R1 R2 R3] & [D1 D2 D3 D4]).
  split; [|split]; constructor; cbn [users tasks task_lists task_list_shares];
    try assumption; try (now apply NoDup_map_filter);
    try (intros x Hx; apply filter_In in Hx; destruct Hx as [Hx Hne]; now auto).
Qed.

Lemma share_create_wf s newId taskListId userId permission sh s' :
  prisma.taskListShare.create s newId taskListId userId permission = Some (sh, s') ->
  wf s -> wf s'.
Proof.
  unfold prisma.taskListShare.create.
  destruct (has_key TaskListShare.id newId (task_list_shares s)) eqn:Hid; [discriminate|].
  destruct (existsb _ (task_list_shares s)); [discriminate|].
  destruct (has_key TaskList.id taskListId (task_lists s)); [|discriminate].
  destruct (has_key User.id userId (users s)) eqn:Hu; [|discriminate]. simpl.
  intros [= _ <-] ([K1 K2 K3 K4] & [R1 R2 R3] & D).
  split; [|split]; [constructor|constructor|destruct D; constructor; assumption];
    cbn [users tasks task_lists task_list_shares]; try assumption.
  - now apply NoDup_key_snoc.
  - intros x Hx. apply in_app_or in Hx. destruct Hx as [Hx | [<- | []]]; auto.
Qed.

Lemma set_permission_id id permission sh :
  TaskListShare.id (prisma.taskListShare.set_permission id permission sh)
  = TaskListShare.id sh.
Proof.
  unfold prisma.taskListShare.set_permission.
  now destruct (TaskListShare.id sh =? id)%string.
Qed.

Lemma share_update_wf s id permission sh s' :
  prisma.taskListShare.update s id permission = Some (sh, s') -> wf s -> wf s'.
Proof.
  unfold prisma.taskListShare.update.
  destruct (prisma.taskListShare.findUnique_id s id); [|discriminate].
  intros [= _ <-] ([K1 K2 K3 K4] & [R1 R2 R3] & D).
  split; [|split]; [constructor|constructor|destruct D; constructor; assumption];
    cbn [users tasks task_lists task_list_shares]; try assumption.
  - rewrite map_map. erewrite map_ext; [exact K4|]. intros x. apply set_permission_id.
  - intros x Hx. apply in_map_iff in Hx. destruct Hx as [y [<- Hy]].
    pose proof (set_permission_pair id permission y) as Hp. injection Hp as _ ->.
    now apply R2.
Qed.

Lemma share_delete_wf s id s' :
  prisma.taskListShare.delete s id = Some s' -> wf s -> wf s'.
Proof.
  unfold prisma.taskListShare.delete.
  destruct (prisma.taskListShare.findUnique_id s id); [|discriminate].
  intros [= <-] ([K1 K2 K3 K4] & [R1 R2 R3] & D).
  split; [|split]; [constructor|constructor|destruct D; constructor; assumption];
    cbn [users tasks task_lists task_list_shares]; try assumption;
    try (now apply NoDup_map_filter).
  intros x Hx. apply filter_In in Hx. now apply R2.
Qed.

Lemma check_title_optional_ok v x :
  check_title_optional v = ([], x) -> forall y, x = Some y -> title_ok y.
Proof.
  unfold check_title_optional. destruct v as [t|]; [|intros [= <-]; discriminate].
  destruct (check_title "Title cannot be empty" (Some t)) as [e y] eqn:E.
  intros [= -> <-] z [= <-]. eapply check_title_ok; exact E.
Qed.

Lemma check_description_some v d :
  check_description v = ([], d) -> forall y, d = Some y -> too_long 1000 y = false.
Proof.
  intros Hd y ->. eapply check_description_ok in Hd. now destruct Hd.
Qed.

Lemma check_status_optional_some v :
  check_status_optional v = [] -> forall y, v = Some y -> isIn statuses y = true.
Proof.
  unfold check_status_optional. intros Hv y ->.
  now destruct (isIn statuses y).
Qed.

Lemma with_task_wf s taskListId taskId k :
  wf s -> (forall t, wf (snd (k t))) -> wf (snd (with_task s taskListId taskId k)).
Proof.
  intros Hok Hk. unfold with_task.
  destruct (prisma.task.findUnique s taskId); [|assumption].
  destruct (negb _); [assumption | apply Hk].
Qed.

Lemma with_share_wf s userId taskListId shareId msg k :
  wf s -> (forall sh, wf (snd (k sh))) ->
  wf (snd (with_share s userId taskListId shareId msg k)).
Proof.
  intros Hok Hk. unfold with_share.
  destruct (prisma.taskList.findUnique s taskListId); [|assumption].
  destruct (negb _); [assumption|].
  destruct (prisma.taskListShare.findUnique_id s shareId); [|assumption].
  destruct (negb _); [assumption | apply Hk].
Qed.

Lemma errors_nil3 (e1 e2 e3 : list string) :
  isEmpty (e1 ++ e2 ++ e3) = true -> e1 = [] /\ e2 = [] /\ e3 = [].
Proof.
  intros He. apply errors_nil in He. destruct He as [-> He].
  apply app_eq_nil in He. tauto.
Qed.

Lemma handle_wf s r : wf s -> wf (snd (handle s r)).
Proof.
  intros Hok. destruct r; simpl.
  - unfold auth_register. either_way_ok.
    destruct (prisma.user.findUnique_email s _); [assumption|].
    destruct (prisma.user.create _ _ _ _) as [[u s']|] eqn:Hc; simpl; [|assumption].
    eapply user_create_wf; eauto.
  - unfold auth_login. either_way_ok.
    destruct (prisma.user.findUnique_email s _); [|assumption].
    now destruct (negb _).
  - unfold tasklists_post. open_route.
    destruct (isEmpty e) eqn:Hemp; simpl; [|assumption].
    apply isEmpty_nil in Hemp. subst e.
    destruct (prisma.taskList.create _ _ _ _) as [[l s']|] eqn:Hc; simpl; [|assumption].
    eapply taskList_create_wf; eauto using check_title_ok.
  - unfold tasklists_put. open_route.
    destruct (isEmpty e) eqn:Hemp; simpl; [|assumption].
    apply isEmpty_nil in Hemp. subst e.
    destruct (prisma.taskList.findUnique s id); [|assumption].
    destruct (negb _); [assumption|].
    destruct (prisma.taskList.update _ _ _) as [[l s']|] eqn:Hc; simpl; [|assumption].
    eapply taskList_update_wf; eauto using check_title_ok.
  - unfold tasklists_delete.
    destruct (prisma.taskList.findUnique s id); [|assumption].
    destruct (negb _); [assumption|].
    destruct (prisma.taskList.delete _ _) as [s'|] eqn:Hc; simpl; [|assumption].
    eapply taskList_delete_wf; eauto.
  - unfold tasks_get. now destruct (negb _).
  - unfold tasks_post. open_route.
    destruct (isEmpty _) eqn:Hemp; simpl; [|assumption].
    apply errors_nil3 in Hemp. destruct Hemp as (-> & -> & Hst).
    destruct (negb _); [assumption|]. destruct (is_string _ _); [assumption|].
    destruct (prisma.task.create _ _ _ _ _ _) as [[t s']|] eqn:Hc; simpl; [|assumption].
    eapply task_create_wf; eauto using check_title_ok.
    + eapply check_description_ok; exact E0.
    + eapply check_status_optional_ok; exact Hst.
  - unfold tasks_put. open_route.
    destruct (isEmpty _) eqn:Hemp; simpl; [|assumption].
    apply errors_nil3 in Hemp. destruct Hemp as (-> & -> & Hst).
    destruct (negb _); [assumption|]. destruct (is_string _ _); [assumption|].
    apply with_task_wf; [assumption|]. intros _.
    destruct (prisma.task.update _ _ _) as [[t s']|] eqn:Hc; simpl; [|assumption].
    eapply task_update_wf; eauto; simpl.
    + eapply check_title_optional_ok; exact E.
    + eapply check_description_some; exact E0.
    + eapply check_status_optional_some; exact Hst.
  - unfold tasks_patch_status. open_route.
    destruct (isEmpty e) eqn:Hemp; simpl; [|assumption].
    apply isEmpty_nil in Hemp. subst e.
    destruct (negb _); [assumption|]. destruct (is_string _ _); [assumption|].
    apply with_task_wf; [assumption|]. intros _.
    destruct (prisma.task.update _ _ _) as [[t s']|] eqn:Hc; simpl; [|assumption].
    eapply task_update_wf; eauto; simpl; try discriminate.
    intros y [= <-]. eapply check_status_ok; exact E.
  - unfold tasks_delete.
    destruct (negb _); [assumption|]. destruct (is_string _ _); [assumption|].
    apply with_task_wf; [assumption|]. intros _.
    destruct (prisma.task.delete _ _) as [s'|] eqn:Hc; simpl; [|assumption].
    eapply task_delete_wf; eauto.
  - unfold shares_post. either_way_ok.
    destruct (prisma.taskList.findUnique s taskListId); [|assumption].
    destruct (negb _); [assumption|].
    destruct (prisma.user.findUnique_email s _); [|assumption].
    destruct (_ =? _)%string; [assumption|].
    destruct (prisma.taskListShare.findUnique_taskListId_userId _ _ _); [assumption|].
    destruct (prisma.taskListShare.create _ _ _ _ _) as [[sh s']|] eqn:Hc;
      simpl; [|assumption].
    eapply share_create_wf; eauto.
  - unfold shares_put. either_way_ok.
    apply with_share_wf; [assumption|]. intros _.
    destruct (prisma.taskListShare.update _ _ _) as [[sh s']|] eqn:Hc;
      simpl; [|assumption].
    eapply share_update_wf; eauto.
  - unfold shares_delete. apply with_share_wf; [assumption|]. intros _.
    destruct (prisma.taskListShare.delete _ _) as [s'|] eqn:Hc; simpl; [|assumption].
    eapply share_delete_wf; eauto.
Qed.

Lemma reachable_wf s : reachable s -> wf s.
Proof.
  induction 1 as [|s r _ IH]; [exact wf_empty | now apply handle_wf].
Qed.

(** ** The permission helper and the shares *)

Lemma find_hd_filter {A} (p : A -> bool) l : hd_error (filter p l) = find p l.
Proof.
  induction l as [|a l IH]; simpl; [reflexivity|]. now destruct (p a).
Qed.

Lemma user_shares_pairs s x v :
  filter (fun sh => TaskListShare.userId sh =? v)%string (shares_of s x)
  = filter (prisma.taskListShare.is_pair x v) (task_list_shares s).
Proof.
  unfold shares_of, prisma.taskListShare.is_pair.
  induction (task_list_shares s) as [|sh l IH]; simpl; [reflexivity|].
  destruct (TaskListShare.taskListId sh =? x)%string; simpl; [|exact IH].
  destruct (TaskListShare.userId sh =? v)%string; [now rewrite IH | exact IH].
Qed.

(** The helper resolves the share the unique index on (taskListId, userId)
    finds. *)
Lemma getUserPermission_find s x v :
  getUserPermission s x v
  = match prisma.taskList.findUnique s x with
    | None => mkPermission false None None None
    | Some tl =>
        if (TaskList.ownerId tl =? v)%string
        then mkPermission true (Some "owner") (Some tl) (Some true)
        else
          match prisma.taskListShare.findUnique_taskListId_userId s x v with
          | Some sh =>
              mkPermission true (Some (TaskListShare.permission sh)) (Some tl) (Some false)
          | None => mkPermission false None None None
          end
    end.
Proof.
  unfold getUserPermission.
  destruct (prisma.taskList.findUnique s x) as [tl|] eqn:Htl; [|reflexivity].
  apply find_by_Some in Htl. destruct Htl as [_ ->].
  now rewrite user_shares_pairs, find_hd_filter.
Qed.

Lemma find_app_last {A} (p : A -> bool) l a :
  find p (l ++ [a])
  = match find p l with
    | Some b => Some b
    | None => if p a then Some a else None
    end.
Proof.
  induction l as [|b l IH]; simpl; [reflexivity|]. now destruct (p b).
Qed.

Lemma is_pair_false x v sh :
  (x, v) <> pair_of sh -> prisma.taskListShare.is_pair x v sh = false.
Proof.
  intros Hne. destruct (prisma.taskListShare.is_pair x v sh) eqn:Hp; [|reflexivity].
  apply is_pair_pair_of in Hp. congruence.
Qed.

(** X6: the owner of a task list who shares it, with a valid body and an
    identifier that is not taken, with a registered user other than
    themselves who holds no share on it, is answered 201; from then on the
    helper resolves the granted permission, view or edit, for that user on
    that list, and what it resolves for any other user or list is as
    before. *)
Theorem share_granted_takes_effect s userId taskListId e p newId l u :
  prisma.taskList.findUnique s taskListId = Some l ->
  TaskList.ownerId l = userId ->
  valid_share (Some e) (Some p) ->
  prisma.user.findUnique_email s (normalizeEmail e) = Some u ->
  User.id u <> userId ->
  prisma.taskListShare.findUnique_taskListId_userId s taskListId (User.id u) = None ->
  has_key TaskListShare.id newId (task_list_shares s) = false ->
  exists s',
    shares_post s userId taskListId (Some e) (Some p) newId
    = (mkResponse 201
         (JShare "Task list shared successfully"
                 (TaskListShare.mk newId taskListId (User.id u) p)
                 (select_id_email s (User.id u))), s')
    /\ task_list_shares s'
       = (task_list_shares s ++ [TaskListShare.mk newId taskListId (User.id u) p])%list
    /\ users s' = users s /\ task_lists s' = task_lists s /\ tasks s' = tasks s
    /\ (p = "view" \/ p = "edit")
    /\ hasAccess (getUserPermission s' taskListId (User.id u)) = true
    /\ permission (getUserPermission s' taskListId (User.id u)) = Some p
    /\ (forall x v, (x, v) <> (taskListId, User.id u) ->
                    getUserPermission s' x v = getUserPermission s x v).
Proof.
  intros Hl <- Hv Hu Hself Hnone Hfresh.
  assert (Hperm : isIn permissions p = true).
  { destruct Hv as [_ Hp]. unfold check_permission in Hp.
    now destruct (isIn permissions p). }
  assert (Hpair : existsb (prisma.taskListShare.is_pair taskListId (User.id u))
                          (task_list_shares s) = false).
  { destruct (existsb _ _) eqn:Hex; [|reflexivity].
    apply existsb_exists in Hex. destruct Hex as [sh [Hin Hsh]].
    unfold prisma.taskListShare.findUnique_taskListId_userId in Hnone.
    apply (find_none _ _ Hnone) in Hin. congruence. }
  assert (Hkl : has_key TaskList.id taskListId (task_lists s) = true)
    by (apply has_key_true; apply find_by_Some in Hl; destruct Hl; eauto).
  assert (Hku : has_key User.id (User.id u) (users s) = true)
    by (apply has_key_true; apply find_by_Some in Hu; destruct Hu; eauto).
  assert (Hne : (User.id u =? TaskList.ownerId l)%string = false)
    by now apply String.eqb_neq.
  unfold shares_post. validated Hv. simpl in *. injection E as _ <-. injection E0 as _ <-.
  rewrite Hl, String.eqb_refl, Hu, Hne, Hnone. simpl.
  unfold prisma.taskListShare.create. rewrite Hfresh, Hpair, Hkl, Hku. simpl.
  eexists. split; [reflexivity|]. repeat (split; [reflexivity|]).
  split; [now apply isIn_permissions|].
  assert (Hfind : forall x v,
             prisma.taskListShare.findUnique_taskListId_userId
               (mkStore (users s) (task_lists s) (tasks s)
                  (task_list_shares s
                     ++ [TaskListShare.mk newId taskListId (User.id u) p])) x v
             = match prisma.taskListShare.findUnique_taskListId_userId s x v with
               | Some b => Some b
               | None =>
                   if prisma.taskListShare.is_pair
                        x v (TaskListShare.mk newId taskListId (User.id u) p)
                   then Some (TaskListShare.mk newId taskListId (User.id u) p)
                   else None
               end)
    by (intros x v; apply find_app_last).
  assert (Hme : getUserPermission
                  (mkStore (users s) (task_lists s) (tasks s)
                     (task_list_shares s
                        ++ [TaskListShare.mk newId taskListId (User.id u) p]))
                  taskListId (User.id u)
                = mkPermission true (Some p) (Some l) (Some false)).
  { rewrite getUserPermission_find. unfold prisma.taskList.findUnique. simpl.
    unfold prisma.taskList.findUnique in Hl. rewrite Hl.
    rewrite String.eqb_sym, Hne, Hfind, Hnone.
    unfold prisma.taskListShare.is_pair. simpl. now rewrite !String.eqb_refl. }
  split; [now rewrite Hme|]. split; [now rewrite Hme|].
  intros x v Hxv. rewrite !getUserPermission_find. unfold prisma.taskList.findUnique.
  simpl. rewrite Hfind, is_pair_false by exact Hxv.
  now destruct (prisma.taskListShare.findUnique_taskListId_userId s x v).
Qed.

Lemma find_map_same {A} (p : A -> bool) (f : A -> A) l :
  (forall a, p (f a) = p a) -> find p (map f l) = option_map f (find p l).
Proof.
  intros Hp. induction l as [|a l IH]; simpl; [reflexivity|].
  rewrite Hp. now destruct (p a).
Qed.

Lemma find_filter_kept {A} (p q : A -> bool) l a :
  find p l = Some a -> q a = true -> find p (filter q l) = Some a.
Proof.
  induction l as [|b l IH]; simpl; [discriminate|].
  destruct (p b) eqn:Hp.
  - intros [= ->] Hq. rewrite Hq. simpl. now rewrite Hp.
  - intros Hf Hq. destruct (q b); simpl; [rewrite Hp|]; now apply IH.
Qed.

Lemma find_filter_none {A} (p q : A -> bool) l :
  (forall a, In a l -> p a = true -> q a = false) -> find p (filter q l) = None.
Proof.
  intros Hpq. destruct (find p (filter q l)) as [a|] eqn:Hf; [|reflexivity].
  apply find_some in Hf. destruct Hf as [Hin Hp]. apply filter_In in Hin.
  destruct Hin as [Hin Hq]. rewrite (Hpq a Hin Hp) in Hq. discriminate.
Qed.

Lemma is_pair_set_permission x v id p sh :
  prisma.taskListShare.is_pair x v (prisma.taskListShare.set_permission id p sh)
  = prisma.taskListShare.is_pair x v sh.
Proof.
  unfold prisma.taskListShare.set_permission.
  now destruct (TaskListShare.id sh =? id)%string.
Qed.

(** What PUT and DELETE on a share have checked when they answer 200. *)
Lemma with_share_200 s userId taskListId shareId msg k r s' :
  with_share s userId taskListId shareId msg k = (r, s') ->
  res_status r = 200 ->
  exists l sh,
    prisma.taskList.findUnique s taskListId = Some l
    /\ TaskList.ownerId l = userId
    /\ prisma.taskListShare.findUnique_id s shareId = Some sh
    /\ TaskListShare.taskListId sh = taskListId
    /\ k sh = (r, s').
Proof.
  unfold with_share.
  destruct (prisma.taskList.findUnique s taskListId) as [l|];
    [|intros [= <- <-]; discriminate].
  destruct (String.eqb_spec (TaskList.ownerId l) userId) as [Hown|Hown]; simpl;
    [|intros [= <- <-]; discriminate].
  destruct (prisma.taskListShare.findUnique_id s shareId) as [sh|];
    [|intros [= <- <-]; discriminate].
  destruct (String.eqb_spec (TaskListShare.taskListId sh) taskListId) as [Hl|Hl]; simpl;
    [|intros [= <- <-]; discriminate].
  intros Hk _. exists l, sh. auto.
Qed.

(** X7: when the permission of a share is updated (the route answers 200)
    in a reachable store, the share carries the new permission, view or
    edit; the helper resolves it for the user of the share on the list, and
    what it resolves for any other user or list is as before. *)
Theorem share_update_takes_effect s userId taskListId shareId p r s' :
  reachable s ->
  shares_put s userId taskListId shareId p = (r, s') ->
  res_status r = 200 ->
  exists sh v,
    p = Some v /\ (v = "view" \/ v = "edit")
    /\ prisma.taskListShare.findUnique_id s shareId = Some sh
    /\ TaskListShare.taskListId sh = taskListId
    /\ prisma.taskListShare.findUnique_id s' shareId
       = Some (TaskListShare.mk shareId taskListId (TaskListShare.userId sh) v)
    /\ permission (getUserPermission s' taskListId (TaskListShare.userId sh)) = Some v
    /\ (forall x u, (x, u) <> (taskListId, TaskListShare.userId sh) ->
                    getUserPermission s' x u = getUserPermission s x u)
    /\ users s' = users s /\ task_lists s' = task_lists s /\ tasks s' = tasks s.
Proof.
  intros Hreach. pose proof (reachable_ok Hreach) as [O1 O2 O3 O4 O5].
  pose proof (reachable_wf Hreach) as ([K1 K2 K3 K4] & _ & _).
  unfold shares_put. open_route.
  destruct (isEmpty e) eqn:Hemp; simpl; [|intros [= <- <-]; discriminate].
  apply isEmpty_nil in Hemp. subst e. intros Hw H200.
  destruct (with_share_200 _ _ _ _ _ _ Hw H200) as (l & sh & Hl & Hown & Hsh & Hshl & Hk).
  unfold prisma.taskListShare.update in Hk. rewrite Hsh in Hk. injection Hk as _ <-.
  pose proof (find_by_Some _ _ _ Hsh) as [Hshin Hshid].
  pose proof (find_by_Some _ _ _ Hl) as [Hlin Hlid].
  assert (Hv : isIn permissions x = true /\ p = Some x).
  { unfold check_permission in E. destruct p as [y|]; [|discriminate].
    destruct (isIn permissions y) eqn:Hy; [|discriminate]. now injection E as <-. }
  destruct Hv as [Hperm ->].
  assert (Hset : prisma.taskListShare.set_permission shareId x sh
                 = TaskListShare.mk shareId taskListId (TaskListShare.userId sh) x).
  { unfold prisma.taskListShare.set_permission.
    now rewrite Hshid, String.eqb_refl, Hshl. }
  assert (Hfind : forall a u,
             prisma.taskListShare.findUnique_taskListId_userId
               (mkStore (users s) (task_lists s) (tasks s)
                  (map (prisma.taskListShare.set_permission shareId x)
                       (task_list_shares s))) a u
             = option_map (prisma.taskListShare.set_permission shareId x)
                          (prisma.taskListShare.findUnique_taskListId_userId s a u)).
  { intros a u. apply find_map_same. intros b. apply is_pair_set_permission. }
  exists sh, x. split; [reflexivity|]. split; [now apply isIn_permissions|].
  split; [exact Hsh|]. split; [exact Hshl|]. split.
  { unfold prisma.taskListShare.findUnique_id. simpl.
    rewrite find_by_map by (intros b; apply set_permission_id).
    unfold prisma.taskListShare.findUnique_id in Hsh. rewrite Hsh. simpl.
    now rewrite Hset. }
  split.
  { rewrite getUserPermission_find. unfold prisma.taskList.findUnique. simpl.
    unfold prisma.taskList.findUnique in Hl. rewrite Hl.
    assert (Hno : (TaskList.ownerId l =? TaskListShare.userId sh)%string = false).
    { apply String.eqb_neq. apply (O5 sh l Hshin Hlin). congruence. }
    rewrite Hno, Hfind.
    destruct (prisma.taskListShare.findUnique_taskListId_userId
                s taskListId (TaskListShare.userId sh)) as [sh0|] eqn:Hf0.
    - apply find_some in Hf0. destruct Hf0 as [Hin0 Hp0].
      apply is_pair_pair_of in Hp0.
      assert (sh0 = sh).
      { apply (NoDup_map_eq pair_of _ _ _ O2 Hin0 Hshin). rewrite Hp0.
        unfold pair_of. now rewrite Hshl. }
      subst sh0. simpl. now rewrite Hset.
    - exfalso. apply (find_none _ _ Hf0) in Hshin.
      unfold prisma.taskListShare.is_pair in Hshin.
      now rewrite Hshl, !String.eqb_refl in Hshin. }
  split; [|auto].
  intros a u Hau. rewrite !getUserPermission_find. unfold prisma.taskList.findUnique.
  simpl. rewrite Hfind.
  destruct (prisma.taskListShare.findUnique_taskListId_userId s a u) as [sh0|] eqn:Hf0;
    [|reflexivity].
  simpl. apply find_some in Hf0. destruct Hf0 as [Hin0 Hp0].
  apply is_pair_pair_of in Hp0.
  replace (prisma.taskListShare.set_permission shareId x sh0) with sh0; [reflexivity|].
  unfold prisma.taskListShare.set_permission.
  destruct (String.eqb_spec (TaskListShare.id sh0) shareId) as [Hid|Hid]; [|reflexivity].
  exfalso. apply Hau. rewrite <- Hp0. unfold pair_of. rewrite <- Hshl.
  now rewrite (NoDup_map_eq TaskListShare.id _ _ _ K4 Hin0 Hshin) by congruence.
Qed.

(** X8: when a share is removed (the route answers 200) in a reachable
    store, the user of the share has no access to the list any more and is
    refused its tasks with 403, while the other shares are kept and what the
    helper resolves for any other user or list is as before. *)
Theorem share_revoked_takes_effect s userId taskListId shareId r s' :
  reachable s ->
  shares_delete s userId taskListId shareId = (r, s') ->
  res_status r = 200 ->
  exists sh,
    prisma.taskListShare.findUnique_id s shareId = Some sh
    /\ TaskListShare.taskListId sh = taskListId
    /\ (forall a, In a (task_list_shares s') <-> In a (task_list_shares s) /\ a <> sh)
    /\ hasAccess (getUserPermission s' taskListId (TaskListShare.userId sh)) = false
    /\ tasks_get s' (TaskListShare.userId sh) taskListId = (no_access, s')
    /\ (forall x u, (x, u) <> (taskListId, TaskListShare.userId sh) ->
                    getUserPermission s' x u = getUserPermission s x u)
    /\ users s' = users s /\ task_lists s' = task_lists s /\ tasks s' = tasks s.
Proof.
  intros Hreach. pose proof (reachable_ok Hreach) as [O1 O2 O3 O4 O5].
  pose proof (reachable_wf Hreach) as ([K1 K2 K3 K4] & _ & _).
  unfold shares_delete. intros Hw H200.
  destruct (with_share_200 _ _ _ _ _ _ Hw H200) as (l & sh & Hl & Hown & Hsh & Hshl & Hk).
  unfold prisma.taskListShare.delete in Hk. rewrite Hsh in Hk. injection Hk as _ <-.
  pose proof (find_by_Some _ _ _ Hsh) as [Hshin Hshid].
  pose proof (find_by_Some _ _ _ Hl) as [Hlin Hlid].
  assert (Hsame : forall a, In a (task_list_shares s) ->
                            TaskListShare.id a = shareId -> a = sh).
  { intros a Ha Hid. apply (NoDup_map_eq TaskListShare.id _ _ _ K4 Ha Hshin). congruence. }
  assert (Hno : hasAccess
                  (getUserPermission
                     (mkStore (users s) (task_lists s) (tasks s)
                        (filter (fun sh => negb (TaskListShare.id sh =? shareId)%string)
                                (task_list_shares s)))
                     taskListId (TaskListShare.userId sh)) = false).
  { rewrite getUserPermission_find. unfold prisma.taskList.findUnique. simpl.
    unfold prisma.taskList.findUnique in Hl. rewrite Hl.
    assert (Hne : (TaskList.ownerId l =? TaskListShare.userId sh)%string = false).
    { apply String.eqb_neq. apply (O5 sh l Hshin Hlin). congruence. }
    rewrite Hne. unfold prisma.taskListShare.findUnique_taskListId_userId. simpl.
    rewrite find_filter_none; [reflexivity|].
    intros a Ha Hp. apply is_pair_pair_of in Hp.
    assert (a = sh).
    { apply (NoDup_map_eq pair_of _ _ _ O2 Ha Hshin). rewrite Hp.
      unfold pair_of. now rewrite Hshl. }
    subst a. now rewrite Hshid, String.eqb_refl. }
  exists sh. split; [exact Hsh|]. split; [exact Hshl|]. split.
  { intros a. simpl. rewrite filter_In. split.
    - intros [Ha Hid]. split; [assumption|]. intros ->.
      now rewrite Hshid, String.eqb_refl in Hid.
    - intros [Ha Hne]. split; [assumption|].
      destruct (String.eqb_spec (TaskListShare.id a) shareId) as [Hid|Hid];
        [|reflexivity].
      now apply Hsame in Hid. }
  split; [exact Hno|]. split; [unfold tasks_get; now rewrite Hno|].
  split; [|auto].
  intros a u Hau. rewrite !getUserPermission_find. unfold prisma.taskList.findUnique.
  simpl. unfold prisma.taskListShare.findUnique_taskListId_userId. simpl.
  destruct (find (prisma.taskListShare.is_pair a u) (task_list_shares s)) as [sh0|] eqn:Hf0.
  - rewrite (find_filter_kept _ _ _ Hf0); [reflexivity|].
    apply find_some in Hf0. destruct Hf0 as [Hin0 Hp0]. apply is_pair_pair_of in Hp0.
    destruct (String.eqb_spec (TaskListShare.id sh0) shareId) as [Hid|Hid];
      [|reflexivity].
    exfalso. apply Hau. rewrite <- Hp0, (Hsame sh0 Hin0 Hid). unfold pair_of.
    now rewrite Hshl.
  - rewrite find_filter_none; [reflexivity|].
    intros b Hb Hp. apply (find_none _ _ Hf0) in Hb. congruence.
Qed.

(** X9: on a task list that exists, a caller who is not its owner, whatever
    share they hold, cannot see, grant, change or remove its shares: the
    four share routes answer 403 (for a body that passes validation) and the
    store is left as it was. *)
Theorem only_owner_manages_shares s userId taskListId l :
  prisma.taskList.findUnique s taskListId = Some l ->
  TaskList.ownerId l <> userId ->
  shares_get s userId taskListId
  = mkRead 403 (RError "Only the owner can view shared users")
  /\ (forall email p newId,
        snd (shares_post s userId taskListId email p newId) = s
        /\ res_status (fst (shares_post s userId taskListId email p newId)) <> 201
        /\ (valid_share email p ->
            fst (shares_post s userId taskListId email p newId)
            = mkResponse 403 (JError "Only the owner can share the task list")))
  /\ (forall shareId p,
        snd (shares_put s userId taskListId shareId p) = s
        /\ res_status (fst (shares_put s userId taskListId shareId p)) <> 200
        /\ (valid_permission p ->
            fst (shares_put s userId taskListId shareId p)
            = mkResponse 403 (JError "Only the owner can update permissions")))
  /\ (forall shareId,
        shares_delete s userId taskListId shareId
        = (mkResponse 403 (JError "Only the owner can remove access"), s)).
Proof.
  intros Hl Hown.
  assert (Hne : (TaskList.ownerId l =? userId)%string = false)
    by now apply String.eqb_neq.
  assert (Hw : forall shareId msg k,
             with_share s userId taskListId shareId msg k
             = (mkResponse 403 (JError msg), s)).
  { intros shareId msg k. unfold with_share. now rewrite Hl, Hne. }
  split; [unfold shares_get; now rewrite Hl, Hne|].
  split; [|split].
  - intros email p newId. split; [|split].
    + unfold shares_post. open_route. destruct (isEmpty _); simpl; [|reflexivity].
      now rewrite Hl, Hne.
    + unfold shares_post. open_route. destruct (isEmpty _); simpl; [|discriminate].
      rewrite Hl, Hne. simpl. discriminate.
    + intros Hv. unfold shares_post. validated Hv. now rewrite Hl, Hne.
  - intros shareId p. split; [|split].
    + unfold shares_put. open_route. destruct (isEmpty _); simpl; [|reflexivity].
      now rewrite Hw.
    + unfold shares_put. open_route. destruct (isEmpty _); simpl; [|discriminate].
      rewrite Hw. simpl. discriminate.
    + intros Hv. unfold shares_put. validated Hv. now rewrite Hw.
  - intros shareId. unfold shares_delete. apply Hw.
Qed.

(** ** The routes that read *)


Lemma has_key_found {A} (key : A -> string) k rows :
  has_key key k rows = true -> exists r, find_by key k rows = Some r.
Proof.
  intros Hk. destruct (find_by key k rows) as [r|] eqn:Hf; [eauto|].
  apply has_key_true in Hk. destruct Hk as [r [Hin Hr]].
  exfalso. eapply find_by_None; eauto.
Qed.

Lemma NoDup_map_on {A B} (f : A -> B) l :
  NoDup l -> (forall a b, In a l -> In b l -> f a = f b -> a = b) -> NoDup (map f l).
Proof.
  intros Hnd Hinj. apply NoDup_map_NoDup_ForallPairs; [|assumption].
  intros a b Ha Hb. now apply Hinj.
Qed.

Lemma map_fst_with_users s l : map fst (with_users s l) = l.
Proof.
  unfold with_users. rewrite map_map. simpl. apply map_id.
Qed.

(** The shares of one list in a consistent store are for different users. *)
Lemma list_shares_users_NoDup s x :
  store_ok s -> NoDup (map TaskListShare.userId (shares_of s x)).
Proof.
  intros [_ O2 _ _ _]. unfold shares_of. apply NoDup_map_on.
  - apply NoDup_filter. exact (NoDup_map_inv _ _ O2).
  - intros a b Ha Hb Hu. apply filter_In in Ha. apply filter_In in Hb.
    destruct Ha as [Ha Hax], Hb as [Hb Hbx].
    apply String.eqb_eq in Hax. apply String.eqb_eq in Hbx.
    apply (NoDup_map_eq pair_of _ _ _ O2 Ha Hb). unfold pair_of. congruence.
Qed.

(** X11: in a reachable store the owner of a task list gets from
    GET /api/shares/:taskListId exactly the shares of that list, newest
    first, each with the identifier and address of its user, no two for the
    same user and none for the owner; for a list that does not exist the
    route answers 404. *)
Theorem owner_sees_shares_of_list s userId taskListId :
  reachable s ->
  (prisma.taskList.findUnique s taskListId = None ->
   shares_get s userId taskListId = mkRead 404 (RError "Task list not found"))
  /\ (forall l,
        prisma.taskList.findUnique s taskListId = Some l ->
        TaskList.ownerId l = userId ->
        exists shares,
          shares_get s userId taskListId = mkRead 200 (RShares shares)
          /\ map fst shares = rev (shares_of s taskListId)
          /\ (forall sh, In sh (map fst shares)
                         <-> In sh (task_list_shares s)
                             /\ TaskListShare.taskListId sh = taskListId)
          /\ (forall sh user,
                In (sh, user) shares ->
                exists u, In u (users s) /\ User.id u = TaskListShare.userId sh
                          /\ user = Some (User.id u, User.email u))
          /\ (forall sh, In sh (map fst shares) -> TaskListShare.userId sh <> userId)
          /\ NoDup (map (fun e => TaskListShare.userId (fst e)) shares)).
Proof.
  intros Hreach. pose proof (reachable_ok Hreach) as Hok.
  pose proof (reachable_wf Hreach) as (_ & [R1 R2 R3] & _).
  split; [intros Hnone; unfold shares_get; now rewrite Hnone|].
  intros l Hl Hown. unfold shares_get. rewrite Hl, Hown, String.eqb_refl. simpl.
  eexists. split; [reflexivity|].
  assert (Hin : forall sh, In sh (rev (shares_of s taskListId))
                           <-> In sh (task_list_shares s)
                               /\ TaskListShare.taskListId sh = taskListId).
  { intros sh. rewrite <- in_rev. unfold shares_of. now rewrite filter_In, String.eqb_eq. }
  rewrite map_fst_with_users.
  split; [reflexivity|]. split; [exact Hin|]. split; [|split].
  - intros sh user Hsh. unfold with_users in Hsh. apply in_map_iff in Hsh.
    destruct Hsh as [sh0 [[= <- <-] Hsh0]]. apply Hin in Hsh0. destruct Hsh0 as [Hsh0 _].
    destruct (has_key_found _ _ _ (R2 sh0 Hsh0)) as [u Hu].
    unfold select_id_email, prisma.user.findUnique_id. rewrite Hu.
    apply find_by_Some in Hu. destruct Hu as [Huin Huid]. exists u. auto.
  - intros sh Hsh Hself. apply Hin in Hsh. destruct Hsh as [Hsh Hshl].
    apply find_by_Some in Hl. destruct Hl as [Hlin Hlid].
    apply (ok_no_self_share Hok sh l Hsh Hlin); congruence.
  - rewrite <- (map_map fst TaskListShare.userId), map_fst_with_users, map_rev.
    apply NoDup_rev. now apply list_shares_users_NoDup.
Qed.

Lemma view_ids_of_shares s (F : list TaskListShare.t) :
  (forall sh, In sh F ->
              has_key TaskList.id (TaskListShare.taskListId sh) (task_lists s) = true) ->
  map (fun v => TaskList.id (view_taskList v))
      (flat_map
         (fun share =>
            match prisma.taskList.findUnique s (TaskListShare.taskListId share) with
            | Some taskList =>
                [view_of s taskList (tasks_of s (TaskList.id taskList))
                         (TaskListShare.permission share) false]
            | None => []
            end) F)
  = map TaskListShare.taskListId F.
Proof.
  induction F as [|sh F IH]; simpl; intros Hrefs; [reflexivity|].
  destruct (has_key_found _ _ _ (Hrefs sh (or_introl eq_refl))) as [l Hl].
  unfold prisma.taskList.findUnique at 1. rewrite Hl. simpl.
  apply find_by_Some in Hl. destruct Hl as [_ ->]. f_equal. apply IH.
  intros x Hx. apply Hrefs. now right.
Qed.

(** The views GET /api/tasklists builds of the owned and of the shared
    task lists. *)
Lemma owned_views_in s userId v :
  In v (map (fun list => view_of s list (tasks_of s (TaskList.id list)) "owner" true)
            (rev (filter (fun l => TaskList.ownerId l =? userId)%string (task_lists s))))
  <-> exists l, In l (task_lists s) /\ TaskList.ownerId l = userId
                /\ v = view_of s l (tasks_of s (TaskList.id l)) "owner" true.
Proof.
  rewrite in_map_iff. split.
  - intros [l [<- Hl]]. rewrite <- in_rev in Hl. apply filter_In in Hl.
    destruct Hl as [Hl Hown]. apply String.eqb_eq in Hown. eauto.
  - intros (l & Hl & Hown & ->). exists l. split; [reflexivity|].
    rewrite <- in_rev. apply filter_In. split; [assumption|].
    now apply String.eqb_eq.
Qed.

Lemma shared_views_in s userId v :
  NoDup (map TaskList.id (task_lists s)) ->
  In v (flat_map
          (fun share =>
             match prisma.taskList.findUnique s (TaskListShare.taskListId share) with
             | Some taskList =>
                 [view_of s taskList (tasks_of s (TaskList.id taskList))
                          (TaskListShare.permission share) false]
             | None => []
             end)
          (filter (fun sh => TaskListShare.userId sh =? userId)%string
                  (task_list_shares s)))
  <-> exists sh l, In sh (task_list_shares s)
                   /\ TaskListShare.userId sh = userId
                   /\ In l (task_lists s)
                   /\ TaskList.id l = TaskListShare.taskListId sh
                   /\ v = view_of s l (tasks_of s (TaskList.id l))
                                  (TaskListShare.permission sh) false.
Proof.
  intros O1. rewrite in_flat_map. split.
  - intros [sh [Hsh Hv]]. apply filter_In in Hsh. destruct Hsh as [Hsh Hu].
    apply String.eqb_eq in Hu.
    destruct (prisma.taskList.findUnique s (TaskListShare.taskListId sh)) as [l|] eqn:Hl;
      [|contradiction].
    destruct Hv as [<- | []]. apply find_by_Some in Hl. destruct Hl as [Hl Hid].
    exists sh, l. auto.
  - intros (sh & l & Hsh & Hu & Hl & Hid & ->). exists sh. split.
    + apply filter_In. split; [assumption|]. now apply String.eqb_eq.
    + unfold prisma.taskList.findUnique.
      rewrite <- Hid, (find_by_NoDup TaskList.id _ _ O1 Hl). now left.
Qed.

Lemma share_found_by_pair s sh :
  store_ok s -> In sh (task_list_shares s) ->
  prisma.taskListShare.findUnique_taskListId_userId
    s (TaskListShare.taskListId sh) (TaskListShare.userId sh) = Some sh.
Proof.
  intros [_ O2 _ _ _] Hsh.
  destruct (share_pair_found s sh Hsh eq_refl eq_refl) as [sh0 Hf]. rewrite Hf.
  apply find_some in Hf. destruct Hf as [Hin0 Hp0]. apply is_pair_pair_of in Hp0.
  f_equal. now apply (NoDup_map_eq pair_of _ _ _ O2 Hin0 Hsh).
Qed.

(** A task list that GET /api/tasklists sends carries what the helper
    resolves for the caller. *)
Lemma sent_view_resolves s userId owned shared all v :
  store_ok s ->
  tasklists_get_all s userId = mkRead 200 (RTaskLists owned shared all) ->
  In v all ->
  In (view_taskList v) (task_lists s)
  /\ permission (getUserPermission s (TaskList.id (view_taskList v)) userId)
     = Some (view_permission v)
  /\ hasAccess (getUserPermission s (TaskList.id (view_taskList v)) userId) = true
  /\ view_isOwner v = (TaskList.ownerId (view_taskList v) =? userId)%string
  /\ (view_isOwner v = true <-> view_permission v = "owner")
  /\ In (view_permission v) ["owner"; "view"; "edit"].
Proof.
  intros Hok. pose proof Hok as [O1 O2 O3 O4 O5].
  unfold tasklists_get_all. intros [= <- <- <-] Hv.
  apply in_app_or in Hv. destruct Hv as [Hv|Hv].
  - apply owned_views_in in Hv. destruct Hv as (l & Hl & Hown & ->). simpl.
    rewrite getUserPermission_find. unfold prisma.taskList.findUnique.
    rewrite (find_by_NoDup TaskList.id _ _ O1 Hl), Hown, String.eqb_refl.
    simpl. tauto.
  - apply (shared_views_in s userId v O1) in Hv.
    destruct Hv as (sh & l & Hsh & Hu & Hl & Hid & ->). subst userId.
    assert (Hne : TaskList.ownerId l <> TaskListShare.userId sh)
      by now apply (O5 sh l Hsh Hl).
    simpl. rewrite getUserPermission_find. unfold prisma.taskList.findUnique.
    rewrite (find_by_NoDup TaskList.id _ _ O1 Hl).
    rewrite (proj2 (String.eqb_neq _ _) Hne), Hid, (@share_found_by_pair s sh Hok Hsh).
    simpl. split; [exact Hl|]. repeat (split; [reflexivity|]).
    destruct (isIn_permissions _ (O3 sh Hsh)) as [Hv|Hv]; rewrite Hv.
    + split; [split; discriminate | simpl; tauto].
    + split; [split; discriminate | simpl; tauto].
Qed.

(** X12: in a reachable store GET /api/tasklists sends, as [all], the owned
    task lists followed by the shared ones: each task list the permission
    helper gives the caller access to is there, once, with the permission
    the helper resolves and the owner flag, and no other task list is. *)
Theorem lists_sent_are_the_accessible s userId :
  reachable s ->
  exists owned shared,
    tasklists_get_all s userId = mkRead 200 (RTaskLists owned shared (owned ++ shared))
    /\ (forall v, In v (owned ++ shared) ->
                  In (view_taskList v) (task_lists s)
                  /\ permission
                       (getUserPermission s (TaskList.id (view_taskList v)) userId)
                     = Some (view_permission v)
                  /\ view_isOwner v
                     = (TaskList.ownerId (view_taskList v) =? userId)%string
                  /\ (In v owned <-> view_isOwner v = true))
    /\ (forall l, In l (task_lists s) ->
                  hasAccess (getUserPermission s (TaskList.id l) userId) = true ->
                  exists v, In v (owned ++ shared) /\ view_taskList v = l)
    /\ NoDup (map (fun v => TaskList.id (view_taskList v)) (owned ++ shared)).
Proof.
  intros Hreach. pose proof (reachable_ok Hreach) as Hok.
  pose proof Hok as [O1 O2 O3 O4 O5].
  eexists. eexists. split; [reflexivity|].
  split; [|split].
  - intros v Hv.
    destruct (@sent_view_resolves s userId _ _ _ v Hok eq_refl Hv) as (Hl & Hp & _ & Hflag & _ & _).
    repeat (split; [assumption|]). split.
    + intros Hin. apply owned_views_in in Hin. now destruct Hin as (l & _ & _ & ->).
    + intros Hflag'. apply in_app_or in Hv. destruct Hv as [Hv|Hv]; [exact Hv|].
      apply (shared_views_in s userId v O1) in Hv.
      destruct Hv as (sh & l & _ & _ & _ & _ & ->). discriminate Hflag'.
  - intros l Hl. rewrite getUserPermission_find. unfold prisma.taskList.findUnique.
    rewrite (find_by_NoDup TaskList.id _ _ O1 Hl).
    destruct (String.eqb_spec (TaskList.ownerId l) userId) as [Hown|Hown].
    + intros _. exists (view_of s l (tasks_of s (TaskList.id l)) "owner" true).
      split; [|reflexivity]. apply in_or_app. left. apply owned_views_in. eauto.
    + destruct (prisma.taskListShare.findUnique_taskListId_userId s (TaskList.id l) userId)
        as [sh|] eqn:Hf; [intros _|discriminate].
      apply find_some in Hf. destruct Hf as [Hsh Hp]. apply is_pair_pair_of in Hp.
      injection Hp as Hshl Hshu.
      exists (view_of s l (tasks_of s (TaskList.id l)) (TaskListShare.permission sh) false).
      split; [|reflexivity]. apply in_or_app. right.
      apply (shared_views_in s userId _ O1). exists sh, l. auto.
  - rewrite map_app. apply NoDup_app.
    + rewrite map_map. simpl. rewrite map_rev. apply NoDup_rev.
      now apply NoDup_map_filter.
    + rewrite view_ids_of_shares.
      * apply NoDup_map_on.
        -- apply NoDup_filter. exact (NoDup_map_inv _ _ O2).
        -- intros a b Ha Hb Hab. apply filter_In in Ha. apply filter_In in Hb.
           destruct Ha as [Ha Hau], Hb as [Hb Hbu].
           apply String.eqb_eq in Hau. apply String.eqb_eq in Hbu.
           apply (NoDup_map_eq pair_of _ _ _ O2 Ha Hb). unfold pair_of. congruence.
      * intros sh Hsh. apply filter_In in Hsh. now apply O4.
    + intros x Hx1 Hx2. apply in_map_iff in Hx1. destruct Hx1 as [v1 [<- Hv1]].
      apply in_map_iff in Hx2. destruct Hx2 as [v2 [Hid2 Hv2]].
      apply owned_views_in in Hv1. destruct Hv1 as (l & Hl & Hown & ->).
      apply (shared_views_in s userId v2 O1) in Hv2.
      destruct Hv2 as (sh & l' & Hsh & Hu & Hl' & Hid & ->).
      simpl in Hid2. apply (O5 sh l Hsh Hl); congruence.
Qed.

(** ** What holds of every reachable store *)

Lemma isIn_In values v : isIn values v = true -> In v values.
Proof.
  unfold isIn. intros Hv. apply existsb_exists in Hv. destruct Hv as [x [Hx Hv]].
  apply String.eqb_eq in Hv. now subst.
Qed.

Lemma too_long_false max v : too_long max v = false -> (String.length v <= max)%nat.
Proof. unfold too_long. apply Nat.ltb_ge. Qed.

(** X13: in every reachable store two rows of a table with the same
    identifier are the same row, no two users have the same address, and no
    two shares are for the same task list and user. *)
Theorem reachable_keys_unique s :
  reachable s ->
  (forall u v, In u (users s) -> In v (users s) ->
               User.id u = User.id v \/ User.email u = User.email v -> u = v)
  /\ (forall l m, In l (task_lists s) -> In m (task_lists s) ->
                  TaskList.id l = TaskList.id m -> l = m)
  /\ (forall t x, In t (tasks s) -> In x (tasks s) -> Task.id t = Task.id x -> t = x)
  /\ (forall a b, In a (task_list_shares s) -> In b (task_list_shares s) ->
                  TaskListShare.id a = TaskListShare.id b
                  \/ (TaskListShare.taskListId a = TaskListShare.taskListId b
                      /\ TaskListShare.userId a = TaskListShare.userId b) ->
                  a = b).
Proof.
  intros Hreach. pose proof (reachable_ok Hreach) as [O1 O2 _ _ _].
  pose proof (reachable_wf Hreach) as ([K1 K2 K3 K4] & _ & _).
  split; [|split; [|split]].
  - intros u v Hu Hv [Hid|Hemail].
    + exact (NoDup_map_eq User.id _ _ _ K1 Hu Hv Hid).
    + exact (NoDup_map_eq User.email _ _ _ K2 Hu Hv Hemail).
  - intros l m Hl Hm. exact (NoDup_map_eq TaskList.id _ _ _ O1 Hl Hm).
  - intros t x Ht Hx. exact (NoDup_map_eq Task.id _ _ _ K3 Ht Hx).
  - intros a b Ha Hb [Hid|[Hl Hu]].
    + exact (NoDup_map_eq TaskListShare.id _ _ _ K4 Ha Hb Hid).
    + apply (NoDup_map_eq pair_of _ _ _ O2 Ha Hb). unfold pair_of. congruence.
Qed.

(** X14: in every reachable store the task list of each task, the task list
    and the user of each share, and the owner of each task list exist. *)
Theorem reachable_references_resolve s :
  reachable s ->
  (forall t, In t (tasks s) ->
             exists l, prisma.taskList.findUnique s (Task.taskListId t) = Some l)
  /\ (forall sh, In sh (task_list_shares s) ->
                 (exists l, prisma.taskList.findUnique s (TaskListShare.taskListId sh)
                            = Some l)
                 /\ (exists u, prisma.user.findUnique_id s (TaskListShare.userId sh)
                               = Some u))
  /\ (forall l, In l (task_lists s) ->
                exists u, prisma.user.findUnique_id s (TaskList.ownerId l) = Some u).
Proof.
  intros Hreach. pose proof (reachable_ok Hreach) as [_ _ _ O4 _].
  pose proof (reachable_wf Hreach) as (_ & [R1 R2 R3] & _).
  split; [|split].
  - intros t Ht. apply has_key_found. now apply R1.
  - intros sh Hsh. split; apply has_key_found; [now apply O4 | now apply R2].
  - intros l Hl. apply has_key_found. now apply R3.
Qed.

(** X15: in every reachable store each task has one of the three statuses,
    a title that is not empty and at most 200 long and a description, if
    any, at most 1000 long; each task list has such a title; each share has
    the permission view or edit. *)
Theorem reachable_values_valid s :
  reachable s ->
  (forall t, In t (tasks s) ->
             In (Task.status t) ["pending"; "in_progress"; "completed"]
             /\ Task.title t <> EmptyString
             /\ (String.length (Task.title t) <= 200)%nat
             /\ (forall d, Task.description t = Some d -> (String.length d <= 1000)%nat))
  /\ (forall l, In l (task_lists s) ->
                TaskList.title l <> EmptyString
                /\ (String.length (TaskList.title l) <= 200)%nat)
  /\ (forall sh, In sh (task_list_shares s) ->
                 TaskListShare.permission sh = "view"
                 \/ TaskListShare.permission sh = "edit").
Proof.
  intros Hreach. pose proof (reachable_ok Hreach) as [_ _ O3 _ _].
  pose proof (reachable_wf Hreach) as (_ & _ & [D1 D2 D3 D4]).
  split; [|split].
  - intros t Ht. split; [exact (isIn_In _ _ (D1 t Ht))|].
    destruct (D2 t Ht) as [Hne Hlen]. split; [exact Hne|].
    split; [now apply too_long_false|].
    intros d Hd. pose proof (D3 t Ht) as Hdesc. rewrite Hd in Hdesc.
    now apply too_long_false.
  - intros l Hl. destruct (D4 l Hl) as [Hne Hlen]. split; [exact Hne|].
    now apply too_long_false.
  - intros sh Hsh. apply isIn_permissions. now apply O3.
Qed.

(** ** The checks of the routes cover the constraints of the database *)


Lemma find_by_Some_has_key {A} (key : A -> string) k rows r :
  find_by key k rows = Some r -> has_key key k rows = true.
Proof.
  intros Hf. apply find_by_Some in Hf. apply has_key_true. now exists r.
Qed.




(** ** Nothing is reassigned *)

Lemma with_task_writes s taskListId taskId k :
  (forall t, db_write s (snd (k t))) -> db_write s (snd (with_task s taskListId taskId k)).
Proof.
  intros Hk. unfold with_task.
  destruct (prisma.task.findUnique s taskId); [|constructor].
  destruct (negb _); [constructor | apply Hk].
Qed.

Lemma with_share_writes s userId taskListId shareId msg k :
  (forall sh, db_write s (snd (k sh))) ->
  db_write s (snd (with_share s userId taskListId shareId msg k)).
Proof.
  intros Hk. unfold with_share.
  destruct (prisma.taskList.findUnique s taskListId); [|constructor].
  destruct (negb _); [constructor|].
  destruct (prisma.taskListShare.findUnique_id s shareId); [|constructor].
  destruct (negb _); [constructor | apply Hk].
Qed.

Ltac one_write :=
  match goal with
  | |- db_write _ (snd match ?c with Some _ => _ | None => _ end) =>
      let Hc := fresh "Hc" in
      destruct c as [[? ?]|] eqn:Hc; simpl; [|constructor];
      econstructor; exact Hc
  | |- db_write _ (snd match ?c with Some _ => _ | None => _ end) =>
      let Hc := fresh "Hc" in
      destruct c as [?|] eqn:Hc; simpl; [|constructor];
      econstructor; exact Hc
  end.

Lemma handle_writes s r : db_write s (snd (handle s r)).
Proof.
  destruct r; simpl.
  - unfold auth_register. open_route. destruct (isEmpty _); simpl; [|constructor].
    destruct (prisma.user.findUnique_email s _); [constructor | one_write].
  - unfold auth_login. open_route. destruct (isEmpty _); simpl; [|constructor].
    destruct (prisma.user.findUnique_email s _); [|constructor].
    destruct (negb _); constructor.
  - unfold tasklists_post. open_route. destruct (isEmpty _); simpl; [|constructor].
    one_write.
  - unfold tasklists_put. open_route. destruct (isEmpty _); simpl; [|constructor].
    destruct (prisma.taskList.findUnique s id); [|constructor].
    destruct (negb _); [constructor | one_write].
  - unfold tasklists_delete.
    destruct (prisma.taskList.findUnique s id); [|constructor].
    destruct (negb _); [constructor | one_write].
  - unfold tasks_get. destruct (negb _); constructor.
  - unfold tasks_post. open_route. destruct (isEmpty _); simpl; [|constructor].
    destruct (negb _); [constructor|]. destruct (is_string _ _); [constructor|].
    one_write.
  - unfold tasks_put. open_route. destruct (isEmpty _); simpl; [|constructor].
    destruct (negb _); [constructor|]. destruct (is_string _ _); [constructor|].
    apply with_task_writes. intros _. one_write.
  - unfold tasks_patch_status. open_route. destruct (isEmpty _); simpl; [|constructor].
    destruct (negb _); [constructor|]. destruct (is_string _ _); [constructor|].
    apply with_task_writes. intros _. one_write.
  - unfold tasks_delete.
    destruct (negb _); [constructor|]. destruct (is_string _ _); [constructor|].
    apply with_task_writes. intros _. one_write.
  - unfold shares_post. open_route. destruct (isEmpty _); simpl; [|constructor].
    destruct (prisma.taskList.findUnique s taskListId); [|constructor].
    destruct (negb _); [constructor|].
    destruct (prisma.user.findUnique_email s _); [|constructor].
    destruct (_ =? _)%string; [constructor|].
    destruct (prisma.taskListShare.findUnique_taskListId_userId _ _ _); [constructor|].
    one_write.
  - unfold shares_put. open_route. destruct (isEmpty _); simpl; [|constructor].
    apply with_share_writes. intros _. one_write.
  - unfold shares_delete. apply with_share_writes. intros _. one_write.
Qed.

Lemma find_by_app_found {A} (key : A -> string) k rows r more :
  find_by key k rows = Some r -> find_by key k (rows ++ more) = Some r.
Proof.
  unfold find_by. induction rows as [|x rows IH]; simpl; [discriminate|].
  destruct (key x =? k)%string; [trivial | exact IH].
Qed.

Lemma find_by_filter_same {A} (key : A -> string) (q : A -> bool) k rows a a' :
  NoDup (map key rows) ->
  find_by key k rows = Some a ->
  find_by key k (filter q rows) = Some a' ->
  a' = a.
Proof.
  intros Hnd Ha Ha'. apply find_by_Some in Ha. apply find_by_Some in Ha'.
  destruct Ha as [Ha Hk], Ha' as [Ha' Hk']. apply filter_In in Ha'.
  apply (NoDup_map_eq key _ _ _ Hnd); [tauto | assumption | congruence].
Qed.

(** X17: no request served on a reachable store gives a task list another
    owner, moves a task to another task list or a share to another task list
    or user; and none removes or changes a user: users are only added. *)
Theorem nothing_is_reassigned s r :
  reachable s ->
  (forall id l l',
      prisma.taskList.findUnique s id = Some l ->
      prisma.taskList.findUnique (snd (handle s r)) id = Some l' ->
      TaskList.ownerId l' = TaskList.ownerId l)
  /\ (forall id t t',
        prisma.task.findUnique s id = Some t ->
        prisma.task.findUnique (snd (handle s r)) id = Some t' ->
        Task.taskListId t' = Task.taskListId t)
  /\ (forall id sh sh',
        prisma.taskListShare.findUnique_id s id = Some sh ->
        prisma.taskListShare.findUnique_id (snd (handle s r)) id = Some sh' ->
        TaskListShare.taskListId sh' = TaskListShare.taskListId sh
        /\ TaskListShare.userId sh' = TaskListShare.userId sh)
  /\ (exists more, users (snd (handle s r)) = (users s ++ more)%list).
Proof.
  intros Hreach. pose proof (reachable_ok Hreach) as [O1 _ _ _ _].
  pose proof (reachable_wf Hreach) as ([K1 K2 K3 K4] & _ & _).
  unfold prisma.taskList.findUnique, prisma.task.findUnique,
    prisma.taskListShare.findUnique_id.
  destruct (handle_writes s r) as
    [ | ? ? ? ? ? Hw | ? ? ? ? ? Hw | ? ? ? ? Hw | ? ? Hw | ? ? ? ? ? ? ? Hw
      | ? ? ? ? Hw | ? ? Hw | ? ? ? ? ? ? Hw | sid perm ? ? Hw | ? ? Hw ].
  - repeat split; intros; try congruence. exists []. now rewrite app_nil_r.
  - unfold prisma.user.create in Hw. destruct (_ || _); [discriminate|].
    injection Hw as _ <-. simpl. repeat split; intros; try congruence. eauto.
  - unfold prisma.taskList.create in Hw. destruct (_ || _); [discriminate|].
    injection Hw as _ <-. simpl. repeat split; intros; try congruence.
    + rewrite (find_by_app_found _ _ _ _ H0) in H1. congruence.
    + exists []. now rewrite app_nil_r.
  - unfold prisma.taskList.update in Hw.
    destruct (prisma.taskList.findUnique s id); [|discriminate].
    injection Hw as _ <-. simpl. repeat split; intros; try congruence.
    + rewrite find_by_set_title, H0 in H1. injection H1 as <-.
      apply set_title_ownerId.
    + exists []. now rewrite app_nil_r.
  - unfold prisma.taskList.delete in Hw.
    destruct (prisma.taskList.findUnique s id); [|discriminate].
    injection Hw as <-. simpl. repeat split; intros.
    + now rewrite (find_by_filter_same _ _ _ _ O1 H0 H1).
    + now rewrite (find_by_filter_same _ _ _ _ K3 H0 H1).
    + now rewrite (find_by_filter_same _ _ _ _ K4 H0 H1).
    + now rewrite (find_by_filter_same _ _ _ _ K4 H0 H1).
    + exists []. now rewrite app_nil_r.
  - unfold prisma.task.create in Hw. destruct (_ || _); [discriminate|].
    injection Hw as _ <-. simpl. repeat split; intros; try congruence.
    + rewrite (find_by_app_found _ _ _ _ H0) in H1. congruence.
    + exists []. now rewrite app_nil_r.
  - unfold prisma.task.update in Hw.
    destruct (prisma.task.findUnique s id); [|discriminate].
    injection Hw as _ <-. simpl. repeat split; intros; try congruence.
    + rewrite find_by_map, H0 in H1 by (intros x; apply set_data_id).
      injection H1 as <-. apply set_data_taskListId.
    + exists []. now rewrite app_nil_r.
  - unfold prisma.task.delete in Hw.
    destruct (prisma.task.findUnique s id); [|discriminate].
    injection Hw as <-. simpl. repeat split; intros; try congruence.
    + now rewrite (find_by_filter_same _ _ _ _ K3 H0 H1).
    + exists []. now rewrite app_nil_r.
  - unfold prisma.taskListShare.create in Hw. destruct (_ || _); [discriminate|].
    injection Hw as _ <-. simpl. repeat split; intros; try congruence.
    + rewrite (find_by_app_found _ _ _ _ H0) in H1. congruence.
    + rewrite (find_by_app_found _ _ _ _ H0) in H1. congruence.
    + exists []. now rewrite app_nil_r.
  - unfold prisma.taskListShare.update in Hw.
    destruct (prisma.taskListShare.findUnique_id s sid); [|discriminate].
    injection Hw as _ <-. simpl.
    assert (Hp : forall id0 sh sh',
               find_by TaskListShare.id id0 (task_list_shares s) = Some sh ->
               find_by TaskListShare.id id0
                       (map (prisma.taskListShare.set_permission sid perm)
                            (task_list_shares s)) = Some sh' ->
               pair_of sh' = pair_of sh).
    { intros k a a' Hs Hs'.
      rewrite find_by_map, Hs in Hs' by (intros x; apply set_permission_id).
      injection Hs' as <-. apply set_permission_pair. }
    repeat split; intros; try congruence.
    + now injection (Hp _ _ _ H0 H1).
    + now injection (Hp _ _ _ H0 H1).
    + exists []. now rewrite app_nil_r.
  - unfold prisma.taskListShare.delete in Hw.
    destruct (prisma.taskListShare.findUnique_id s id); [|discriminate].
    injection Hw as <-. simpl. repeat split; intros; try congruence.
    + now rewrite (find_by_filter_same _ _ _ _ K4 H0 H1).
    + now rewrite (find_by_filter_same _ _ _ _ K4 H0 H1).
    + exists []. now rewrite app_nil_r.
Qed.

(** ** The middleware and the token *)

Lemma substring_all t : substring 0 (String.length t) t = t.
Proof. induction t as [|c t IH]; simpl; [reflexivity | now rewrite IH]. Qed.


Lemma bearer_parsed t :
  String.prefix "Bearer " ("Bearer " ++ t) = true
  /\ substring 7 (String.length ("Bearer " ++ t) - 7) ("Bearer " ++ t) = t.
Proof.
  split.
  - simpl. now destruct t.
  - simpl. now rewrite Nat.sub_0_r, substring_all.
Qed.

(** X18: the header the client builds from its token is taken apart by the
    middleware into that same token: with a token that is not empty the
    middleware decides on what [verifyToken] says of it, and on whether that
    user is in the store; without a token the client sends no header and the
    middleware answers 401. *)
Theorem client_token_reaches_middleware (verifyToken : string -> option string) s :
  (forall t,
      t <> EmptyString ->
      authenticate verifyToken s (authorization (Some t))
      = match verifyToken t with
        | None =>
            AuthReject
              (mkResponse 401 (JError "Invalid or expired token. Please login again."))
        | Some userId =>
            match prisma.user.findUnique_id s userId with
            | None =>
                AuthReject (mkResponse 401 (JError "User not found. Please login again."))
            | Some u => AuthNext (User.id u, User.email u)
            end
        end)
  /\ authenticate verifyToken s (authorization None)
     = AuthReject (mkResponse 401 (JError "No token provided. Please authenticate."))
  /\ authenticate verifyToken s (authorization (Some EmptyString))
     = AuthReject (mkResponse 401 (JError "No token provided. Please authenticate.")).
Proof.
  split; [|split; reflexivity].
  intros t Ht. unfold authorization.
  destruct (String.eqb_spec t EmptyString) as [|_]; [contradiction|].
  unfold authenticate. destruct (bearer_parsed t) as [-> ->]. simpl.
  destruct (verifyToken t) as [userId|]; [|reflexivity].
  unfold select_id_email. now destruct (prisma.user.findUnique_id s userId).
Qed.



(** What a login that answers 200 has checked. *)
Lemma auth_login_200 s email password r s' :
  auth_login s email password = (r, s') ->
  res_status r = 200 ->
  exists u p,
    password = Some p
    /\ In u (users s)
    /\ comparePassword p (User.password u) = true
    /\ s' = s
    /\ r = json (JAuth "Login successful" (User.id u, User.email u)
                       (generateToken (User.id u))).
Proof.
  unfold auth_login. open_route.
  destruct (isEmpty _) eqn:Hemp; simpl; [|intros [= <- <-]; discriminate].
  apply errors_nil in Hemp. destruct Hemp as [-> ->].
  destruct (prisma.user.findUnique_email s x) as [u|] eqn:Hu;
    [|intros [= <- <-]; discriminate].
  destruct (comparePassword x0 (User.password u)) eqn:Hcmp; simpl;
    [|intros [= <- <-]; discriminate].
  intros [= <- <-] _. apply find_by_Some in Hu. destruct Hu as [Hu _].
  unfold check_password_present in E0. destruct password as [p|]; [|discriminate].
  injection E0 as _ <-. exists u, p. auto.
Qed.

(** X20: in a reachable store a login is answered 200 only for a user of the
    store and a password that compares equal to the stored hash; when
    [verifyToken] resolves the tokens issued for the users and these are not
    empty, the token of the response, once the client holds it as its
    token, passes the middleware as that user. *)
Theorem login_token_authenticates (verifyToken : string -> option string)
        s email password r s' :
  reachable s ->
  (forall u, In u (users s) ->
             generateToken (User.id u) <> EmptyString
             /\ verifyToken (generateToken (User.id u)) = Some (User.id u)) ->
  auth_login s email password = (r, s') ->
  res_status r = 200 ->
  exists u p,
    In u (users s)
    /\ password = Some p
    /\ comparePassword p (User.password u) = true
    /\ s' = s
    /\ token_of r = Some (generateToken (User.id u))
    /\ authenticate verifyToken s' (authorization (token_of r))
       = AuthNext (User.id u, User.email u).
Proof.
  intros Hreach Hjwt Hlogin H200.
  pose proof (reachable_wf Hreach) as ([K1 _ _ _] & _ & _).
  destruct (auth_login_200 _ _ _ Hlogin H200) as (u & p & -> & Hu & Hcmp & -> & ->).
  destruct (Hjwt u Hu) as [Hne Hv].
  exists u, p. repeat (split; [assumption || reflexivity|]).
  unfold token_of, json. cbn [res_body]. unfold authorization.
  destruct (String.eqb_spec (generateToken (User.id u)) EmptyString) as [|_];
    [contradiction|].
  unfold authenticate. destruct (bearer_parsed (generateToken (User.id u))) as [-> ->].
  simpl. rewrite Hv. unfold select_id_email, prisma.user.findUnique_id.
  now rewrite (find_by_NoDup User.id _ _ K1 Hu).
Qed.

(** What a registration that answers 201 has done. *)
Lemma auth_register_201 s email password newId salt r s' :
  auth_register s email password newId salt = (r, s') ->
  res_status r = 201 ->
  exists e p,
    email = Some e /\ password = Some p
    /\ isEmail e = true
    /\ Nat.ltb (String.length p) 6 = false
    /\ prisma.user.findUnique_email s (normalizeEmail e) = None
    /\ s' = mkStore (users s ++ [User.mk newId (normalizeEmail e) (hashPassword p salt)])
                    (task_lists s) (tasks s) (task_list_shares s)
    /\ r = mkResponse 201
             (JAuth "User registered successfully" (newId, normalizeEmail e)
                    (generateToken newId)).
Proof.
  unfold auth_register. open_route.
  destruct (isEmpty _) eqn:Hemp; simpl; [|intros [= <- <-]; discriminate].
  apply errors_nil in Hemp. destruct Hemp as [-> ->].
  destruct (prisma.user.findUnique_email s x) eqn:Hu; [intros [= <- <-]; discriminate|].
  unfold prisma.user.create. destruct (_ || _); [intros [= <- <-]; discriminate|].
  intros [= <- <-] _.
  unfold check_email in E. destruct email as [e|]; [|discriminate].
  destruct (isEmail e) eqn:He; [|discriminate]. injection E as <-.
  unfold check_password_min in E0. destruct password as [p|]; [|discriminate].
  destruct (Nat.ltb (String.length p) 6) eqn:Hp; [discriminate|]. injection E0 as <-.
  exists e, p. auto 10.
Qed.

Lemma find_by_app_new {A} (key : A -> string) k rows r :
  find_by key k rows = None -> key r = k -> find_by key k (rows ++ [r]) = Some r.
Proof.
  intros Hnone Hk. unfold find_by in *. rewrite find_app_last, Hnone, Hk.
  now rewrite String.eqb_refl.
Qed.

(** X21: after a registration that is answered 201, a login with the same
    address and password is answered 200 as the new user, provided bcrypt
    finds the password equal to the hash it made of it at registration; the
    store holds that hash and the login changes nothing. *)
Theorem registered_user_logs_in s email password newId salt r s' :
  (forall p, password = Some p -> bcrypt_compare p (bcrypt_hash p salt) = true) ->
  auth_register s email password newId salt = (r, s') ->
  res_status r = 201 ->
  exists e p,
    email = Some e /\ password = Some p
    /\ prisma.user.findUnique_email s' (normalizeEmail e)
       = Some (User.mk newId (normalizeEmail e) (bcrypt_hash p salt))
    /\ auth_login s' email password
       = (json (JAuth "Login successful" (newId, normalizeEmail e)
                      (generateToken newId)), s').
Proof.
  intros Hbcrypt Hreg H201.
  destruct (auth_register_201 _ _ _ _ _ Hreg H201)
    as (e & p & -> & -> & He & Hp & Hnone & -> & _).
  assert (Hfind : prisma.user.findUnique_email
                    (mkStore
                       (users s ++ [User.mk newId (normalizeEmail e) (hashPassword p salt)])
                       (task_lists s) (tasks s) (task_list_shares s))
                    (normalizeEmail e)
                  = Some (User.mk newId (normalizeEmail e) (bcrypt_hash p salt)))
    by (apply find_by_app_new; [exact Hnone | reflexivity]).
  exists e, p. split; [reflexivity|]. split; [reflexivity|]. split; [exact Hfind|].
  unfold auth_login, check_email, check_password_present. rewrite He.
  destruct (String.eqb_spec p EmptyString) as [->|_]; [discriminate|]. simpl.
  rewrite Hfind. unfold comparePassword. simpl. now rewrite (Hbcrypt p eq_refl).
Qed.

(** X22: an address is registered once: after a registration that is
    answered 201, another registration with the same address changes
    nothing and, when its password passes validation, is answered 400 with
    the message that the user already exists. *)
Theorem address_registered_once s email password newId salt r s' :
  auth_register s email password newId salt = (r, s') ->
  res_status r = 201 ->
  forall password2 newId2 salt2,
    snd (auth_register s' email password2 newId2 salt2) = s'
    /\ (fst (check_password_min password2) = [] ->
        fst (auth_register s' email password2 newId2 salt2)
        = mkResponse 400 (JError "User with this email already exists")).
Proof.
  intros Hreg H201 password2 newId2 salt2.
  destruct (auth_register_201 _ _ _ _ _ Hreg H201)
    as (e & p & -> & -> & He & Hp & Hnone & -> & _).
  assert (Hfind : prisma.user.findUnique_email
                    (mkStore
                       (users s ++ [User.mk newId (normalizeEmail e) (hashPassword p salt)])
                       (task_lists s) (tasks s) (task_list_shares s))
                    (normalizeEmail e)
                  = Some (User.mk newId (normalizeEmail e) (hashPassword p salt)))
    by (apply find_by_app_new; [exact Hnone | reflexivity]).
  unfold auth_register, check_email. rewrite He.
  destruct (check_password_min password2) as [e2 p2]. simpl.
  split.
  - destruct (isEmpty e2); simpl; [now rewrite Hfind | reflexivity].
  - intros ->. simpl. now rewrite Hfind.
Qed.

(** ** The client and the routes *)

Lemma tasks_post_status s userId taskListId b newId :
  hasAccess (getUserPermission s taskListId userId) = true ->
  valid_task_post b ->
  has_key Task.id newId (tasks s) = false ->
  res_status (fst (tasks_post s userId taskListId b newId))
  = if is_string (permission (getUserPermission s taskListId userId)) "view"
    then 403 else 201.
Proof.
  intros Hacc Hv Hfresh. pose proof (hasAccess_list _ _ _ Hacc) as Hlist.
  unfold tasks_post. validated Hv. rewrite Hacc. simpl.
  destruct (is_string _ _); [reflexivity|].
  unfold prisma.task.create. now rewrite Hfresh, Hlist.
Qed.

(** X23: for each task list the dashboard has fetched from a reachable store,
    its two flags say what the server will decide for the caller: [canEdit]
    holds exactly when a valid new task is answered 201, and it is answered
    403 otherwise; [isOwner] is the owner flag the server sent and holds
    exactly when a valid new title for the list is answered 200, which is
    answered 403 otherwise. *)
Theorem dashboard_flags_match_server s userId v :
  reachable s ->
  In v (Dashboard.taskLists (tasklists_get_all s userId)) ->
  Dashboard.isOwner (Some v) = view_isOwner v
  /\ (forall b newId,
        valid_task_post b ->
        has_key Task.id newId (tasks s) = false ->
        res_status (fst (tasks_post s userId (TaskList.id (view_taskList v)) b newId))
        = if Dashboard.canEdit (Some v) then 201 else 403)
  /\ (forall title,
        valid_title title ->
        res_status (fst (tasklists_put s userId (TaskList.id (view_taskList v)) title))
        = if Dashboard.isOwner (Some v) then 200 else 403).
Proof.
  intros Hreach Hv. pose proof (reachable_ok Hreach) as Hok.
  destruct (@sent_view_resolves s userId _ _ _ v Hok eq_refl Hv)
    as (Hl & Hp & Hacc & Hflag & Hown & Hin).
  assert (Hisowner : Dashboard.isOwner (Some v) = view_isOwner v).
  { unfold Dashboard.isOwner.
    destruct (String.eqb_spec (view_permission v) "owner") as [He|He].
    - symmetry. now apply Hown.
    - destruct (view_isOwner v); [|reflexivity]. exfalso. apply He. now apply Hown. }
  split; [exact Hisowner|]. split.
  - intros b newId Hb Hfresh. rewrite (tasks_post_status _ _ _ _ Hacc Hb Hfresh), Hp.
    unfold Dashboard.canEdit. simpl.
    destruct Hin as [<- | [<- | [<- | []]]]; reflexivity.
  - intros title Ht. rewrite Hisowner, Hflag. unfold tasklists_put. validated Ht.
    unfold prisma.taskList.findUnique.
    rewrite (find_by_NoDup TaskList.id _ _ (ok_list_ids Hok) Hl).
    destruct (TaskList.ownerId (view_taskList v) =? userId)%string; [|reflexivity].
    simpl. unfold prisma.taskList.update, prisma.taskList.findUnique.
    now rewrite (find_by_NoDup TaskList.id _ _ (ok_list_ids Hok) Hl).
Qed.





Lemma filter_none {A} (p : A -> bool) l :
  (forall x, In x l -> p x = false) -> filter p l = [].
Proof.
  induction l as [|x l IH]; simpl; intros Hp; [reflexivity|].
  rewrite (Hp x (or_introl eq_refl)). apply IH. intros y Hy. apply Hp. now right.
Qed.

Lemma has_key_false_find {A} (key : A -> string) k rows :
  has_key key k rows = false -> find_by key k rows = None.
Proof.
  intros Hk. destruct (find_by key k rows) as [r|] eqn:Hf; [|reflexivity].
  apply find_by_Some_has_key in Hf. congruence.
Qed.

(** X26: a user who creates a task list on a reachable store, with a valid
    title and an identifier that is not taken, is answered 201 with a list
    that has no tasks and no shares; the helper resolves owner for the
    creator on it and no access for anybody else, and what it resolves on
    the other task lists is as before. *)
Theorem list_created_for_owner s userId title newId :
  reachable s ->
  valid_title title ->
  has_key TaskList.id newId (task_lists s) = false ->
  has_key User.id userId (users s) = true ->
  exists l s',
    tasklists_post s userId title newId
    = (mkResponse 201
         (JTaskList "Task list created successfully" l (select_id_email s userId)
                    [] [] "owner" true), s')
    /\ TaskList.id l = newId
    /\ TaskList.ownerId l = userId
    /\ TaskList.title l = snd (check_title "Title is required" title)
    /\ task_lists s' = (task_lists s ++ [l])%list
    /\ users s' = users s /\ tasks s' = tasks s
    /\ task_list_shares s' = task_list_shares s
    /\ permission (getUserPermission s' newId userId) = Some "owner"
    /\ (forall u, u <> userId -> hasAccess (getUserPermission s' newId u) = false)
    /\ (forall x u, x <> newId -> getUserPermission s' x u = getUserPermission s x u).
Proof.
  intros Hreach Hv Hfresh Hcaller.
  pose proof (reachable_ok Hreach) as [_ _ _ O4 _].
  pose proof (reachable_wf Hreach) as (_ & [R1 _ _] & _).
  assert (Hnotasks : tasks_of s newId = []).
  { apply filter_none. intros t Ht.
    destruct (String.eqb_spec (Task.taskListId t) newId) as [Heq|]; [|reflexivity].
    pose proof (R1 t Ht) as Hk. rewrite Heq in Hk. congruence. }
  assert (Hnoshares : shares_of s newId = []).
  { apply filter_none. intros sh Hsh.
    destruct (String.eqb_spec (TaskListShare.taskListId sh) newId) as [Heq|];
      [|reflexivity].
    pose proof (O4 sh Hsh) as Hk. rewrite Heq in Hk. congruence. }
  assert (Hnopair : forall u,
             prisma.taskListShare.findUnique_taskListId_userId s newId u = None).
  { intros u. unfold prisma.taskListShare.findUnique_taskListId_userId.
    rewrite <- find_hd_filter, <- user_shares_pairs, Hnoshares. reflexivity. }
  unfold tasklists_post. validated Hv.
  unfold prisma.taskList.create. rewrite Hfresh, Hcaller. simpl.
  unfold tasks_of, shares_of in *. simpl. rewrite Hnotasks, Hnoshares. simpl.
  eexists. eexists. split; [reflexivity|]. simpl.
  repeat (split; [reflexivity|]).
  assert (Hnew : forall k,
             prisma.taskList.findUnique
               (mkStore (users s) (task_lists s ++ [TaskList.mk newId x userId])
                        (tasks s) (task_list_shares s)) k
             = match prisma.taskList.findUnique s k with
               | Some l => Some l
               | None => if (newId =? k)%string
                         then Some (TaskList.mk newId x userId) else None
               end).
  { intros k. unfold prisma.taskList.findUnique, find_by. cbn [task_lists].
    now rewrite find_app_last. }
  split; [|split].
  - rewrite getUserPermission_find, Hnew.
    unfold prisma.taskList.findUnique. rewrite (has_key_false_find _ _ _ Hfresh).
    now rewrite !String.eqb_refl.
  - intros u Hu. rewrite getUserPermission_find, Hnew.
    unfold prisma.taskList.findUnique. rewrite (has_key_false_find _ _ _ Hfresh).
    rewrite String.eqb_refl. simpl.
    rewrite (proj2 (String.eqb_neq userId u)) by congruence.
    unfold prisma.taskListShare.findUnique_taskListId_userId in *.
    cbn [task_list_shares]. now rewrite (Hnopair u).
  - intros k u Hk. rewrite !getUserPermission_find, Hnew.
    destruct (prisma.taskList.findUnique s k); [reflexivity|].
    now rewrite (proj2 (String.eqb_neq newId k)) by congruence.
Qed.

(** X27: for a task of a reachable store the label and the colour the
    dashboard shows tell its status: the default branch, Pending, is taken
    for the status pending only. *)
Theorem status_label_tells_status s t :
  reachable s ->
  In t (tasks s) ->
  (Dashboard.getStatusLabel (Task.status t) = "Pending" <-> Task.status t = "pending")
  /\ (Dashboard.getStatusLabel (Task.status t) = "In Progress"
      <-> Task.status t = "in_progress")
  /\ (Dashboard.getStatusLabel (Task.status t) = "Completed"
      <-> Task.status t = "completed")
  /\ Dashboard.getStatusColor (Task.status t) = "status-" ++ Task.status t.
Proof.
  intros Hreach Ht. pose proof (reachable_wf Hreach) as (_ & _ & [D1 _ _ _]).
  pose proof (isIn_In _ _ (D1 t Ht)) as Hst.
  destruct Hst as [<- | [<- | [<- | []]]]; repeat split; intros; try discriminate;
    reflexivity.
Qed.

End RouteFacts.

(** ** The routes run on the scenario *)

Lemma pair_eq {A B} (p : A * B) a b : fst p = a -> snd p = b -> p = (a, b).
Proof. destruct p. simpl. congruence. Qed.

Lemma demo_reachable : reachable demo.
Proof. exact (reachable_run scenario reachable_empty). Qed.

(** C1 on the scenario: a@x.com shares Groceries with b@x.com once more. *)
Lemma share_again_rejected_witness :
  reachable demo
  /\ prisma.user.findUnique_email demo (normalizeEmail "b@x.com") = Some u2
  /\ In s1 (task_list_shares demo)
  /\ shares_post demo "u1" "l1" (Some "b@x.com") (Some "edit") "s9"
     = (mkResponse 400 (JError "Task list is already shared with this user"), demo).
Proof.
  destruct (@share_again_rejected sample_libs demo "u1" "l1" "b@x.com" (Some "edit")
              "s9" u2 s1 demo_reachable eq_refl (or_introl eq_refl) eq_refl eq_refl)
    as [Hstore Hresp].
  split; [exact demo_reachable|]. split; [reflexivity|].
  split; [left; reflexivity|].
  apply pair_eq; [exact (Hresp l1 (conj eq_refl eq_refl) eq_refl eq_refl) | exact Hstore].
Defined.

(** C2 fails on the scenario: no task list l9 exists, and the five task
    routes answer 403 for it, not 404. *)
Lemma tasks_missing_list_not_404 :
  prisma.taskList.findUnique demo "l9" = None
  /\ tasks_get demo "u1" "l9" = (no_access, demo)
  /\ res_status (fst (tasks_get demo "u1" "l9")) <> 404
  /\ res_status (fst (tasks_post demo "u1" "l9" (mkTaskBody (Some "Bread") None None) "t9"))
     <> 404
  /\ res_status (fst (tasks_put demo "u1" "l9" "t1" (mkTaskBody (Some "Bread") None None)))
     <> 404
  /\ res_status (fst (tasks_patch_status demo "u1" "l9" "t1" (Some "completed"))) <> 404
  /\ res_status (fst (tasks_delete demo "u1" "l9" "t1")) <> 404.
Proof. repeat split; vm_compute; congruence. Qed.

(** C2, as the routes have it, on the scenario. *)
Lemma tasks_missing_list_no_access_witness :
  prisma.taskList.findUnique demo "l9" = None
  /\ tasks_get demo "u1" "l9" = (no_access, demo)
  /\ tasks_post demo "u1" "l9" (mkTaskBody (Some "Bread") None None) "t9"
     = (no_access, demo)
  /\ tasks_put demo "u1" "l9" "t1" (mkTaskBody None None (Some "completed"))
     = (no_access, demo)
  /\ tasks_patch_status demo "u1" "l9" "t1" (Some "completed") = (no_access, demo)
  /\ tasks_delete demo "u1" "l9" "t1" = (no_access, demo).
Proof.
  destruct (@tasks_missing_list_no_access sample_libs demo "u1" "l9" eq_refl)
    as (Hget & Hpost & Hput & Hpatch & Hdel).
  split; [reflexivity|]. split; [exact Hget|].
  split; [apply Hpost; repeat split|].
  split; [apply Hput; repeat split|].
  split; [apply Hpatch; reflexivity | apply Hdel].
Defined.

(** C3 on the scenario: b@x.com holds the view share on Groceries. *)
Lemma resolved_permission_witness :
  reachable demo
  /\ In l1 (task_lists demo)
  /\ permission (getUserPermission demo "l1" "u2") = Some "view"
  /\ permission (getUserPermission demo "l1" "u1") = Some "owner"
  /\ permission (getUserPermission demo "l1" "u3") = None.
Proof.
  pose proof (@resolved_permission sample_libs demo l1 "u2" demo_reachable
                (or_introl eq_refl)) as (_ & _ & Hshare & _ & _).
  split; [exact demo_reachable|]. split; [left; reflexivity|].
  split; [|split; reflexivity].
  apply (Hshare ltac:(discriminate) s1 (or_introl eq_refl) eq_refl eq_refl).
Defined.

(** C4 on the scenario: b@x.com, who may view Groceries, reads its tasks and
    is refused each mutation. *)
Lemma view_permission_reads_only_witness :
  permission (getUserPermission demo "l1" "u2") = Some "view"
  /\ tasks_get demo "u2" "l1" = (json (JTasks [t1] (Some "view")), demo)
  /\ tasks_post demo "u2" "l1" (mkTaskBody (Some "Bread") None None) "t9"
     = (mkResponse 403 (JError "You need edit permission to add tasks"), demo)
  /\ tasks_put demo "u2" "l1" "t1" (mkTaskBody None None (Some "completed"))
     = (mkResponse 403 (JError "You need edit permission to update tasks"), demo)
  /\ tasks_patch_status demo "u2" "l1" "t1" (Some "completed")
     = (mkResponse 403 (JError "You need edit permission to update task status"), demo)
  /\ tasks_delete demo "u2" "l1" "t1"
     = (mkResponse 403 (JError "You need edit permission to delete tasks"), demo).
Proof.
  destruct (@view_permission_reads_only sample_libs demo "u2" "l1" eq_refl)
    as (Hget & Hpost & Hput & Hpatch & Hdel).
  split; [reflexivity|]. split; [exact Hget|].
  split; [|split; [|split]].
  - destruct (Hpost (mkTaskBody (Some "Bread") None None) "t9") as (Hs & _ & Hr).
    apply pair_eq; [apply Hr; repeat split | exact Hs].
  - destruct (Hput "t1" (mkTaskBody None None (Some "completed"))) as (Hs & _ & Hr).
    apply pair_eq; [apply Hr; repeat split | exact Hs].
  - destruct (Hpatch "t1" (Some "completed")) as (Hs & _ & Hr).
    apply pair_eq; [apply Hr; reflexivity | exact Hs].
  - apply Hdel.
Defined.

(** C5 on the scenario: a@x.com, who may edit Errands, is not its owner. *)
Lemma only_owner_changes_list_witness :
  permission (getUserPermission demo "l2" "u1") = Some "edit"
  /\ tasklists_delete demo "u1" "l2"
     = (mkResponse 403 (JError "Only the owner can delete the task list"), demo)
  /\ tasklists_put demo "u1" "l2" (Some "Mine now")
     = (mkResponse 403 (JError "Only the owner can update the task list"), demo).
Proof.
  destruct (@only_owner_changes_list sample_libs demo "u1" "l2"
              l2 eq_refl ltac:(discriminate))
    as (Hdel & Hput).
  split; [reflexivity|]. split; [exact Hdel|].
  destruct (Hput (Some "Mine now")) as (Hs & _ & Hr).
  apply pair_eq; [apply Hr; reflexivity | exact Hs].
Defined.

(** C6 on the scenario: a@x.com may edit Errands and owns Groceries; the task
    t1 and the share s1 belong to Groceries, the share s2 to Errands. *)
Lemma foreign_reference_rejected_witness :
  tasks_put demo "u1" "l2" "t1" (mkTaskBody None None (Some "completed"))
  = (mkResponse 400 (JError "Task does not belong to this task list"), demo)
  /\ tasks_delete demo "u1" "l2" "t1"
     = (mkResponse 400 (JError "Task does not belong to this task list"), demo)
  /\ shares_put demo "u1" "l1" "s2" (Some "view")
     = (mkResponse 400 (JError "Share does not belong to this task list"), demo)
  /\ shares_delete demo "u1" "l1" "s2"
     = (mkResponse 400 (JError "Share does not belong to this task list"), demo).
Proof.
  destruct (@foreign_reference_rejected sample_libs demo "u1" "l2") as [Htask _].
  destruct (Htask "t1" t1 eq_refl ltac:(discriminate)) as (Hput & Hdel & Hresp).
  destruct (Hresp eq_refl ltac:(discriminate)) as (Hrput & Hrdel).
  destruct (@foreign_reference_rejected sample_libs demo "u1" "l1") as [_ Hshare].
  destruct (Hshare "s2" s2 eq_refl ltac:(discriminate)) as (Hsput & Hsdel & Hsresp).
  destruct (Hsresp l1 eq_refl eq_refl) as (Hrsput & Hrsdel).
  split; [|split; [|split]].
  - apply pair_eq; [apply Hrput; repeat split | apply Hput].
  - apply pair_eq; [exact Hrdel | exact Hdel].
  - apply pair_eq; [apply Hrsput; reflexivity | apply Hsput].
  - apply pair_eq; [exact Hrsdel | exact Hsdel].
Defined.

(** C7 on the scenario: a@x.com completes the task t1 of Groceries. *)
Lemma task_update_keeps_absent_fields_witness :
  exists r s' t',
    tasks_put demo "u1" "l1" "t1" (mkTaskBody None None (Some "completed")) = (r, s')
    /\ res_status r = 200
    /\ prisma.task.findUnique s' "t1" = Some t'
    /\ Task.title t' = "Milk"
    /\ Task.description t' = Some "two litres"
    /\ prisma.task.findUnique s' "t2" = Some t2.
Proof.
  destruct (tasks_put demo "u1" "l1" "t1" (mkTaskBody None None (Some "completed")))
    as [r s'] eqn:Hput.
  assert (Hst : res_status r = 200) by (now vm_compute in Hput; injection Hput as <- _).
  destruct (@task_update_keeps_absent_fields sample_libs demo "u1" "l1" "t1"
              (mkTaskBody None None (Some "completed")) r s' Hput Hst)
    as (t & t' & Ht & Ht' & _ & Htitle & Hdesc & _ & _ & _ & Hother & _).
  exists r, s', t'. injection Ht as <-.
  split; [reflexivity|]. split; [exact Hst|]. split; [exact Ht'|].
  split; [now rewrite Htitle|]. split; [now rewrite Hdesc|].
  rewrite Hother; [reflexivity | discriminate].
Defined.

(** C8 on the scenario: a@x.com tries to share Groceries with a@x.com. *)
Lemma no_share_with_owner_witness :
  reachable demo
  /\ shares_post demo "u1" "l1" (Some "a@x.com") (Some "edit") "s9"
     = (mkResponse 400 (JError "You cannot share a task list with yourself"), demo)
  /\ TaskListShare.userId s1 <> TaskList.ownerId l1.
Proof.
  destruct (@no_share_with_owner sample_libs demo demo_reachable) as [Hgrant Hinv].
  destruct (Hgrant "u1" "l1" "a@x.com" (Some "edit") "s9" l1
                   u1 eq_refl eq_refl eq_refl)
    as [Hs Hr].
  split; [exact demo_reachable|]. split.
  - apply pair_eq; [apply Hr; [repeat split | reflexivity] | exact Hs].
  - apply (Hinv l1 s1); [left; reflexivity | left; reflexivity | reflexivity].
Defined.


(** C10 on the scenario: a@x.com, editor of Errands, sends an empty update
    of its task t2. *)
Lemma task_update_empty_body_witness :
  permission (getUserPermission demo "l2" "u1") = Some "edit"
  /\ tasks_put demo "u1" "l2" "t2" (mkTaskBody None None None)
     = (json (JTask "Task updated successfully" t2), demo).
Proof.
  split; [reflexivity|].
  apply (@task_update_empty_body sample_libs demo "u1" "l2" "t2" t2);
    [right; reflexivity | reflexivity | reflexivity].
Defined.

(** ** More of the routes run on the scenario *)

(** X1 on the scenario: a@x.com adds Bread to Groceries; b@x.com reads. *)
Lemma task_created_is_listed_witness :
  exists t s',
    tasks_post demo "u1" "l1" (mkTaskBody (Some "Bread") None None) "t9"
    = (mkResponse 201 (JTask "Task created successfully" t), s')
    /\ Task.status t = "pending"
    /\ tasks_get s' "u2" "l1" = (json (JTasks [t; t1] (Some "view")), s').
Proof.
  destruct (@task_created_is_listed sample_libs demo "u1" "l1"
              (mkTaskBody (Some "Bread") None None) "t9"
              eq_refl ltac:(discriminate) (conj eq_refl (conj eq_refl eq_refl)) eq_refl)
    as (t & s' & Hpost & _ & _ & Hst & _ & _ & _ & _ & Hread).
  exists t, s'. split; [exact Hpost|]. split; [exact Hst|].
  exact (Hread "u2" eq_refl).
Defined.

(** X2 on the scenario: a@x.com deletes Milk. *)
Lemma task_deleted_is_gone_witness :
  exists r s',
    tasks_delete demo "u1" "l1" "t1" = (r, s')
    /\ res_status r = 200
    /\ prisma.task.findUnique s' "t1" = None
    /\ prisma.task.findUnique s' "t2" = Some t2.
Proof.
  destruct (tasks_delete demo "u1" "l1" "t1") as [r s'] eqn:Hdel.
  assert (Hst : res_status r = 200) by (now vm_compute in Hdel; injection Hdel as <- _).
  destruct (@task_deleted_is_gone demo "u1" "l1" "t1" r s' Hdel Hst)
    as (Hgone & _ & Hother & _).
  exists r, s'. split; [reflexivity|]. split; [exact Hst|]. split; [exact Hgone|].
  rewrite Hother; [reflexivity | discriminate].
Defined.

(** X3 on the scenario: c@x.com sets Post office back to pending. *)
Lemma task_status_set_freely_witness :
  exists t' s',
    tasks_patch_status demo "u3" "l2" "t2" (Some "pending")
    = (json (JTask "Task status updated successfully" t'), s')
    /\ Task.status t' = "pending"
    /\ Task.title t' = "Post office".
Proof.
  destruct (@task_status_set_freely demo "u3" "l2" "t2" t2 "pending"
              eq_refl ltac:(discriminate) eq_refl eq_refl eq_refl)
    as (t' & s' & Hpatch & _ & Hst & Htitle & _).
  exists t', s'. split; [exact Hpatch|]. split; [exact Hst | exact Htitle].
Defined.

(** X4 on the scenario: a@x.com deletes Groceries. *)
Lemma list_delete_cascades_witness :
  exists r s',
    tasklists_delete demo "u1" "l1" = (r, s')
    /\ res_status r = 200
    /\ prisma.taskList.findUnique s' "l1" = None
    /\ ~ In t1 (tasks s')
    /\ ~ In s1 (task_list_shares s')
    /\ hasAccess (getUserPermission s' "l1" "u2") = false
    /\ getUserPermission s' "l2" "u1" = getUserPermission demo "l2" "u1".
Proof.
  destruct (tasklists_delete demo "u1" "l1") as [r s'] eqn:Hdel.
  assert (Hst : res_status r = 200) by (now vm_compute in Hdel; injection Hdel as <- _).
  destruct (@list_delete_cascades demo "u1" "l1" r s' Hdel Hst)
    as (_ & Hgone & _ & Htasks & Hshares & _ & Hacc & Hother).
  exists r, s'. split; [reflexivity|]. split; [exact Hst|]. split; [exact Hgone|].
  split; [intros Hin; now apply Htasks in Hin|].
  split; [intros Hin; now apply Hshares in Hin|].
  split; [apply Hacc | apply Hother; discriminate].
Defined.

(** X5 on the scenario: a@x.com renames Groceries. *)
Lemma list_update_renames_only_witness :
  exists r s' l',
    tasklists_put demo "u1" "l1" (Some " Food ") = (r, s')
    /\ res_status r = 200
    /\ prisma.taskList.findUnique s' "l1" = Some l'
    /\ TaskList.title l' = "Food"
    /\ TaskList.ownerId l' = "u1"
    /\ permission (getUserPermission s' "l1" "u2") = Some "view".
Proof.
  destruct (tasklists_put demo "u1" "l1" (Some " Food ")) as [r s'] eqn:Hput.
  assert (Hst : res_status r = 200) by (now vm_compute in Hput; injection Hput as <- _).
  destruct (@list_update_renames_only sample_libs demo "u1" "l1" (Some " Food ")
              r s' Hput Hst)
    as (l & l' & Hl & _ & Hl' & Htitle & _ & Hown & _ & _ & _ & _ & Hperm).
  injection Hl as <-.
  exists r, s', l'. split; [reflexivity|]. split; [exact Hst|]. split; [exact Hl'|].
  split; [exact Htitle|]. split; [exact Hown|]. now rewrite Hperm.
Defined.

(** X6 on the scenario: a@x.com shares Groceries with c@x.com to edit. *)
Lemma share_granted_takes_effect_witness :
  exists s',
    shares_post demo "u1" "l1" (Some "c@x.com") (Some "edit") "s9"
    = (mkResponse 201
         (JShare "Task list shared successfully"
                 (TaskListShare.mk "s9" "l1" "u3" "edit") (Some ("u3", "c@x.com"))), s')
    /\ permission (getUserPermission s' "l1" "u3") = Some "edit"
    /\ getUserPermission s' "l1" "u2" = getUserPermission demo "l1" "u2".
Proof.
  destruct (@share_granted_takes_effect sample_libs demo "u1" "l1" "c@x.com" "edit" "s9"
              l1 (User.mk "u3" "c@x.com" "salt3$secret-c")
              eq_refl eq_refl (conj eq_refl eq_refl) eq_refl ltac:(discriminate)
              eq_refl eq_refl)
    as (s' & Hpost & _ & _ & _ & _ & _ & _ & Hperm & Hother).
  exists s'. split; [exact Hpost|]. split; [exact Hperm|].
  apply Hother. discriminate.
Defined.

(** X7 on the scenario: a@x.com lets b@x.com edit Groceries. *)
Lemma share_update_takes_effect_witness :
  exists r s',
    shares_put demo "u1" "l1" "s1" (Some "edit") = (r, s')
    /\ res_status r = 200
    /\ permission (getUserPermission s' "l1" "u2") = Some "edit"
    /\ getUserPermission s' "l2" "u1" = getUserPermission demo "l2" "u1".
Proof.
  destruct (shares_put demo "u1" "l1" "s1" (Some "edit")) as [r s'] eqn:Hput.
  assert (Hst : res_status r = 200) by (now vm_compute in Hput; injection Hput as <- _).
  destruct (@share_update_takes_effect sample_libs demo "u1" "l1" "s1" (Some "edit")
              r s' demo_reachable Hput Hst)
    as (sh & v & Hv & _ & Hsh & _ & _ & Hperm & Hother & _).
  injection Hv as <-. injection Hsh as <-.
  exists r, s'. split; [reflexivity|]. split; [exact Hst|]. split; [exact Hperm|].
  apply Hother. discriminate.
Defined.

(** X8 on the scenario: a@x.com takes Groceries back from b@x.com. *)
Lemma share_revoked_takes_effect_witness :
  exists r s',
    shares_delete demo "u1" "l1" "s1" = (r, s')
    /\ res_status r = 200
    /\ tasks_get s' "u2" "l1" = (no_access, s')
    /\ In s2 (task_list_shares s').
Proof.
  destruct (shares_delete demo "u1" "l1" "s1") as [r s'] eqn:Hdel.
  assert (Hst : res_status r = 200) by (now vm_compute in Hdel; injection Hdel as <- _).
  destruct (@share_revoked_takes_effect sample_libs demo "u1" "l1" "s1" r s'
              demo_reachable Hdel Hst)
    as (sh & Hsh & _ & Hkept & _ & Hget & _).
  injection Hsh as <-.
  exists r, s'. split; [reflexivity|]. split; [exact Hst|]. split; [exact Hget|].
  apply Hkept. split; [right; left; reflexivity | discriminate].
Defined.

(** X9 on the scenario: a@x.com, who may edit Errands, and its shares. *)
Lemma only_owner_manages_shares_witness :
  shares_get demo "u1" "l2" = mkRead 403 (RError "Only the owner can view shared users")
  /\ shares_post demo "u1" "l2" (Some "b@x.com") (Some "edit") "s9"
     = (mkResponse 403 (JError "Only the owner can share the task list"), demo)
  /\ shares_put demo "u1" "l2" "s2" (Some "view")
     = (mkResponse 403 (JError "Only the owner can update permissions"), demo)
  /\ shares_delete demo "u1" "l2" "s2"
     = (mkResponse 403 (JError "Only the owner can remove access"), demo).
Proof.
  destruct (@only_owner_manages_shares sample_libs demo "u1" "l2" l2
              eq_refl ltac:(discriminate))
    as (Hget & Hpost & Hput & Hdel).
  split; [exact Hget|].
  destruct (Hpost (Some "b@x.com") (Some "edit") "s9") as (Hs & _ & Hr).
  split; [apply pair_eq; [apply Hr; split; reflexivity | exact Hs]|].
  destruct (Hput "s2" (Some "view")) as (Hs2 & _ & Hr2).
  split; [apply pair_eq; [apply Hr2; reflexivity | exact Hs2]|].
  apply Hdel.
Defined.


(** X11 on the scenario: a@x.com looks at the shares of Groceries. *)
Lemma owner_sees_shares_of_list_witness :
  reachable demo
  /\ exists shares,
       shares_get demo "u1" "l1" = mkRead 200 (RShares shares)
       /\ map fst shares = [s1]
       /\ NoDup (map (fun e => TaskListShare.userId (fst e)) shares).
Proof.
  split; [exact demo_reachable|].
  destruct (@owner_sees_shares_of_list sample_libs demo "u1" "l1" demo_reachable)
    as [_ Howner].
  destruct (Howner l1 eq_refl eq_refl) as (shares & Hget & Hfst & _ & _ & _ & Hnd).
  exists shares. split; [exact Hget|]. split; [exact Hfst | exact Hnd].
Defined.

(** X12 on the scenario: a@x.com owns Groceries and may edit Errands. *)
Lemma lists_sent_are_the_accessible_witness :
  reachable demo
  /\ exists owned shared,
       tasklists_get_all demo "u1" = mkRead 200 (RTaskLists owned shared (owned ++ shared))
       /\ (exists v, In v (owned ++ shared) /\ view_taskList v = l1)
       /\ (exists v, In v (owned ++ shared) /\ view_taskList v = l2)
       /\ NoDup (map (fun v => TaskList.id (view_taskList v)) (owned ++ shared)).
Proof.
  split; [exact demo_reachable|].
  destruct (@lists_sent_are_the_accessible sample_libs demo "u1" demo_reachable)
    as (owned & shared & Hget & _ & Hall & Hnd).
  exists owned, shared. split; [exact Hget|].
  split; [exact (Hall l1 (or_introl eq_refl) eq_refl)|].
  split; [exact (Hall l2 (or_intror (or_introl eq_refl)) eq_refl) | exact Hnd].
Defined.

(** X13 on the scenario. *)
Lemma reachable_keys_unique_witness :
  reachable demo
  /\ forall v, In v (users demo) -> User.email u1 = User.email v -> u1 = v.
Proof.
  split; [exact demo_reachable|].
  destruct (@reachable_keys_unique sample_libs demo demo_reachable) as (Husers & _).
  intros v Hv Hemail. apply Husers; [left; reflexivity | exact Hv | now right].
Defined.

(** X14 on the scenario. *)
Lemma reachable_references_resolve_witness :
  reachable demo
  /\ (exists l, prisma.taskList.findUnique demo (Task.taskListId t2) = Some l)
  /\ (exists u, prisma.user.findUnique_id demo (TaskListShare.userId s2) = Some u).
Proof.
  split; [exact demo_reachable|].
  destruct (@reachable_references_resolve sample_libs demo demo_reachable)
    as (Htasks & Hshares & _).
  split; [apply Htasks; right; left; reflexivity|].
  apply Hshares. right. left. reflexivity.
Defined.

(** X15 on the scenario. *)
Lemma reachable_values_valid_witness :
  reachable demo
  /\ In (Task.status t2) ["pending"; "in_progress"; "completed"]
  /\ (TaskListShare.permission s2 = "view" \/ TaskListShare.permission s2 = "edit").
Proof.
  split; [exact demo_reachable|].
  destruct (@reachable_values_valid sample_libs demo demo_reachable)
    as (Htasks & _ & Hshares).
  split; [apply Htasks; right; left; reflexivity|].
  apply Hshares. right. left. reflexivity.
Defined.


(** X17 on the scenario: a@x.com renames Groceries and stays its owner. *)
Lemma nothing_is_reassigned_witness :
  reachable demo
  /\ forall l',
       prisma.taskList.findUnique
         (snd (handle demo (TaskListsPut "u1" "l1" (Some "Food")))) "l1" = Some l' ->
       TaskList.ownerId l' = "u1".
Proof.
  split; [exact demo_reachable|].
  destruct (@nothing_is_reassigned sample_libs demo
              (TaskListsPut "u1" "l1" (Some "Food")) demo_reachable)
    as (Hlists & _).
  intros l' Hl'. exact (Hlists "l1" l1 l' eq_refl Hl').
Defined.

(** X18 on the scenario: the client sends the token u1. *)
Lemma client_token_reaches_middleware_witness :
  authenticate (fun t => Some t) demo (authorization (Some "u1"))
  = AuthNext ("u1", "a@x.com").
Proof.
  destruct (client_token_reaches_middleware (fun t => Some t) demo) as (Htoken & _).
  exact (Htoken "u1" ltac:(discriminate)).
Defined.

(** X20 on the scenario: a@x.com logs in and comes back with the token. *)
Lemma login_token_authenticates_witness :
  exists r s',
    auth_login demo (Some "a@x.com") (Some "secret-a") = (r, s')
    /\ res_status r = 200
    /\ authenticate (fun t => Some t) s' (authorization (token_of r))
       = AuthNext ("u1", "a@x.com").
Proof.
  destruct (auth_login demo (Some "a@x.com") (Some "secret-a")) as [r s'] eqn:Hlogin.
  assert (Hst : res_status r = 200)
    by (now vm_compute in Hlogin; injection Hlogin as <- _).
  assert (Hjwt : forall u, In u (users demo) ->
                           generateToken (User.id u) <> EmptyString
                           /\ (fun t => Some t) (generateToken (User.id u))
                              = Some (User.id u)).
  { intros u [<- | [<- | [<- | []]]]; split; (discriminate || reflexivity). }
  destruct (@login_token_authenticates sample_libs (fun t => Some t) demo
              (Some "a@x.com") (Some "secret-a") r s' demo_reachable Hjwt Hlogin Hst)
    as (u & p & Hu & _ & _ & _ & Htok & Hauth).
  exists r, s'. split; [reflexivity|]. split; [exact Hst|].
  rewrite Hauth. rewrite Htok in Hauth.
  vm_compute in Hlogin. injection Hlogin as <- <-.
  injection Htok as Htok. simpl in Htok.
  destruct Hu as [<- | [<- | [<- | []]]]; (reflexivity || discriminate Htok).
Defined.

(** X21 on the scenario: d@x.com registers and logs in. *)
Lemma registered_user_logs_in_witness :
  exists r s',
    auth_register demo (Some "d@x.com") (Some "secret-d") "u4" "salt4" = (r, s')
    /\ res_status r = 201
    /\ auth_login s' (Some "d@x.com") (Some "secret-d")
       = (json (JAuth "Login successful" ("u4", "d@x.com") "u4"), s').
Proof.
  destruct (auth_register demo (Some "d@x.com") (Some "secret-d") "u4" "salt4")
    as [r s'] eqn:Hreg.
  assert (Hst : res_status r = 201) by (now vm_compute in Hreg; injection Hreg as <- _).
  destruct (@registered_user_logs_in sample_libs demo (Some "d@x.com") (Some "secret-d")
              "u4" "salt4" r s'
              ltac:(intros p [= <-]; reflexivity) Hreg Hst)
    as (e & p & He & Hp & _ & Hlogin).
  injection He as <-. injection Hp as <-.
  exists r, s'. split; [reflexivity|]. split; [exact Hst | exact Hlogin].
Defined.

(** X22 on the scenario: d@x.com registers twice. *)
Lemma address_registered_once_witness :
  exists r s',
    auth_register demo (Some "d@x.com") (Some "secret-d") "u4" "salt4" = (r, s')
    /\ res_status r = 201
    /\ auth_register s' (Some "d@x.com") (Some "another") "u5" "salt5"
       = (mkResponse 400 (JError "User with this email already exists"), s').
Proof.
  destruct (auth_register demo (Some "d@x.com") (Some "secret-d") "u4" "salt4")
    as [r s'] eqn:Hreg.
  assert (Hst : res_status r = 201) by (now vm_compute in Hreg; injection Hreg as <- _).
  destruct (@address_registered_once sample_libs demo (Some "d@x.com") (Some "secret-d")
              "u4" "salt4" r s' Hreg Hst (Some "another") "u5" "salt5")
    as (Hs & Hr).
  exists r, s'. split; [reflexivity|]. split; [exact Hst|].
  apply pair_eq; [apply Hr; reflexivity | exact Hs].
Defined.

(** X23 on the scenario: the dashboard of b@x.com shows Groceries. *)
Lemma dashboard_flags_match_server_witness :
  reachable demo
  /\ exists v,
       In v (Dashboard.taskLists (tasklists_get_all demo "u2"))
       /\ view_taskList v = l1
       /\ Dashboard.canEdit (Some v) = false
       /\ res_status
            (fst (tasks_post demo "u2" "l1" (mkTaskBody (Some "Bread") None None) "t9"))
          = 403.
Proof.
  split; [exact demo_reachable|].
  exists (view_of demo l1 (tasks_of demo "l1") "view" false).
  destruct (@dashboard_flags_match_server sample_libs demo "u2"
              (view_of demo l1 (tasks_of demo "l1") "view" false)
              demo_reachable (or_introl eq_refl))
    as (_ & Hpost & _).
  split; [left; reflexivity|]. split; [reflexivity|]. split; [reflexivity|].
  exact (Hpost (mkTaskBody (Some "Bread") None None) "t9"
               (conj eq_refl (conj eq_refl eq_refl)) eq_refl).
Defined.



(** X26 on the scenario: b@x.com creates a task list of their own. *)
Lemma list_created_for_owner_witness :
  reachable demo
  /\ exists l s',
       tasklists_post demo "u2" (Some "Books") "l3"
       = (mkResponse 201
            (JTaskList "Task list created successfully" l (Some ("u2", "b@x.com"))
                       [] [] "owner" true), s')
       /\ permission (getUserPermission s' "l3" "u2") = Some "owner"
       /\ hasAccess (getUserPermission s' "l3" "u1") = false.
Proof.
  split; [exact demo_reachable|].
  destruct (@list_created_for_owner sample_libs demo "u2" (Some "Books") "l3"
              demo_reachable eq_refl eq_refl eq_refl)
    as (l & s' & Hpost & _ & _ & _ & _ & _ & _ & _ & Hown & Hothers & _).
  exists l, s'. split; [exact Hpost|]. split; [exact Hown|].
  apply Hothers. discriminate.
Defined.

(** X27 on the scenario: Post office is in progress. *)
Lemma status_label_tells_status_witness :
  reachable demo
  /\ In t2 (tasks demo)
  /\ Dashboard.getStatusColor (Task.status t2) = "status-in_progress".
Proof.
  split; [exact demo_reachable|]. split; [right; left; reflexivity|].
  destruct (@status_label_tells_status sample_libs demo t2 demo_reachable
              (or_intror (or_introl eq_refl)))
    as (_ & _ & _ & Hcolor).
  exact Hcolor.
Defined.
